(** * FileConverter / Scripts: the Essentia rhythm analysis wrappers

    A shallow embedding of [essentia_analyzer.py] (the one-shot command) and
    [essentia_service.py] (the HTTP service), and the properties of the
    result-normalisation and request-handling layer.

    Python floats are IEEE 754 binary64 values ([spec_float] with precision 53
    and maximal exponent 1024); the vectors of the engine are NumPy arrays of
    [float32] (precision 24, maximal exponent 128), which NumPy reduces in
    [float32].  A string is the sequence of its bytes in UTF-8, so that a
    string with a lone surrogate, which cannot be encoded, can be told from
    one that can.  Dictionaries are [gmap string json]; a Python call that
    may raise returns an [outcome]; the HTTP handler threads the responses it
    has written and its log through a small state-and-error monad.
    The audio engine (Essentia), the file system, the parsers and the codecs
    of the Python standard library are not part of the repository: they
    appear as the fields of an environment record and of the request
    records, one field per call the source makes. *)

From Stdlib Require Import ZArith Lia Ascii String SpecFloat.
From stdpp Require Import base strings gmap list pretty.

Set Warnings "-register-all".
Set Default Proof Using "Type".

Local Open Scope Z_scope.

(** ** Python floats *)

Module PyFloat.

Definition prec : Z := 53.
Definition emax : Z := 1024.

Definition add : spec_float -> spec_float -> spec_float := SFadd prec emax.
Definition sub : spec_float -> spec_float -> spec_float := SFsub prec emax.
Definition mul : spec_float -> spec_float -> spec_float := SFmul prec emax.
Definition div : spec_float -> spec_float -> spec_float := SFdiv prec emax.
Definition sqrt : spec_float -> spec_float := SFsqrt prec emax.

(** [x < y], [x <= y] and [x == y] on floats; all three are [false] as soon
    as one side is NaN. *)
Definition ltb : spec_float -> spec_float -> bool := SFltb.
Definition leb : spec_float -> spec_float -> bool := SFleb.
Definition eqb : spec_float -> spec_float -> bool := SFeqb.

(** [float(n)] for an integer [n]: the nearest binary64 value. *)
Definition of_Z (n : Z) : spec_float := binary_normalize prec emax n 0 false.
Definition of_nat (n : nat) : spec_float := of_Z (Z.of_nat n).

(** The binary64 value nearest to a number given by sign, mantissa and
    exponent; a number that is already one is kept. *)
Definition round (x : spec_float) : spec_float :=
  match x with
  | S754_finite s m e => binary_round prec emax s m e
  | _ => x
  end.

Definition zero : spec_float := S754_zero false.
Definition one : spec_float := Eval vm_compute in of_Z 1.
Definition two : spec_float := Eval vm_compute in of_Z 2.

Definition is_zero (x : spec_float) : bool :=
  match x with S754_zero _ => true | _ => false end.

(** Membership in the closed interval [[0.0, 1.0]], by float comparison. *)
Definition in_unit_interval (x : spec_float) : bool :=
  leb zero x && leb x one.

(** The built-ins [min(a, b)] and [max(a, b)]: the first argument is kept
    unless the second compares strictly smaller (resp. greater). *)
Definition py_min (a b : spec_float) : spec_float := if ltb b a then b else a.
Definition py_max (a b : spec_float) : spec_float := if ltb a b then b else a.

End PyFloat.

(** ** NumPy's [float32]

    Essentia hands its vectors over as NumPy arrays of [float32] (IEEE 754
    binary32: precision 24, maximal exponent 128), and NumPy reduces such an
    array in [float32]. *)

Module Float32.

Definition prec : Z := 24.
Definition emax : Z := 128.

Definition add : spec_float -> spec_float -> spec_float := SFadd prec emax.
Definition sub : spec_float -> spec_float -> spec_float := SFsub prec emax.
Definition mul : spec_float -> spec_float -> spec_float := SFmul prec emax.
Definition div : spec_float -> spec_float -> spec_float := SFdiv prec emax.
Definition sqrt : spec_float -> spec_float := SFsqrt prec emax.

Definition of_Z (n : Z) : spec_float := binary_normalize prec emax n 0 false.

(** The cast of a binary64 value to [float32]: the nearest binary32 value. *)
Definition round (x : spec_float) : spec_float :=
  match x with
  | S754_finite s m e => binary_round prec emax s m e
  | _ => x
  end.

Definition zero : spec_float := S754_zero false.
Definition one : spec_float := Eval vm_compute in of_Z 1.

(** An element of a [float32] array: zero, an infinity, NaN, or a finite
    number in the canonical form of the format. *)
Definition valid (x : spec_float) : bool := valid_binary prec emax x.

(** A [float32] number that is greater than zero. *)
Definition positive (x : spec_float) : bool := valid x && SFltb zero x.

End Float32.

(** [float(x)] for a [numpy.float32] scalar [x]: the same number as a Python
    float (every binary32 number is a binary64 number). *)
Definition float (x : spec_float) : spec_float := PyFloat.round x.

(** ** The NumPy reductions the scripts call, on a one-dimensional
       [float32] array

    Following [numpy/_core/_methods.py] ([_mean], [_var], [_std]) and the
    pairwise summation of the [add] reduction
    ([numpy/_core/src/umath/loops_utils.h.src]). *)

Module np.

(** How a binary operation between a [float32] operand and another scalar
    chooses its result type: NumPy 1 looks at the value of a scalar that
    meets an array and treats a Python float as [float64] between scalars
    ([legacy]); NumPy 2 keeps NumPy scalars strongly typed and lets Python
    scalars adapt ([weak], NEP 50). *)
Inductive promotion := legacy | weak.

(** A run of fewer than 8 elements is added up from [0.] (from [-0.] in
    recent versions, which changes the sign of a sum of negative zeros and
    nothing else). *)
Definition sum_short (a : list spec_float) : spec_float :=
  fold_left Float32.add a Float32.zero.

(** [r[j] += a[i + j]] for the 8 accumulators, [k] times *)
Fixpoint accumulate (k : nat) (r a : list spec_float) : list spec_float * list spec_float :=
  match k with
  | O => (r, a)
  | S k' => accumulate k' (zip_with Float32.add r (take 8 a)) (drop 8 a)
  end.

(** [((r[0] + r[1]) + (r[2] + r[3])) + ((r[4] + r[5]) + (r[6] + r[7]))] *)
Definition combine (r : list spec_float) : spec_float :=
  let r_ i := default Float32.zero (r !! i) in
  Float32.add
    (Float32.add (Float32.add (r_ 0%nat) (r_ 1%nat)) (Float32.add (r_ 2%nat) (r_ 3%nat)))
    (Float32.add (Float32.add (r_ 4%nat) (r_ 5%nat)) (Float32.add (r_ 6%nat) (r_ 7%nat))).

(** A block of 8 to 128 elements: 8 accumulators over the multiples of 8,
    combined, then the rest one by one. *)
Definition sum_block (a : list spec_float) : spec_float :=
  let (r, rest) := accumulate (length a / 8 - 1) (take 8 a) (drop 8 a) in
  fold_left Float32.add rest (combine r).

(** [pairwise_sum(a, n)]: a longer array is cut in two, the first part a
    multiple of 8 long.  The recursion is on [fuel], which the length of the
    array always suffices for. *)
Fixpoint pairwise_sum_rec (fuel : nat) (a : list spec_float) : spec_float :=
  let n := length a in
  if (n <? 8)%nat then sum_short a
  else if (n <=? 128)%nat then sum_block a
  else
    match fuel with
    | O => sum_block a
    | S fuel' =>
        let n2 := (n / 2 - (n / 2) mod 8)%nat in
        Float32.add (pairwise_sum_rec fuel' (take n2 a))
                    (pairwise_sum_rec fuel' (drop n2 a))
    end.

Definition pairwise_sum (a : list spec_float) : spec_float :=
  pairwise_sum_rec (length a) a.

(** [umr_sum(a)], that is [np.add.reduce(a)]: the identity [0.0] plus the
    pairwise sum. *)
Definition sum (a : list spec_float) : spec_float :=
  Float32.add Float32.zero (pairwise_sum a).

(** [ret.dtype.type(ret / rcount)] for a [float32] scalar [ret] and the
    [intp] scalar [rcount]: the division is one of [float64], its result is
    cast back. *)
Definition scalar_div_count (ret : spec_float) (rcount : nat) : spec_float :=
  Float32.round (PyFloat.div (PyFloat.round ret) (PyFloat.of_nat rcount)).

(** [np.mean(a)] *)
Definition mean (a : list spec_float) : spec_float :=
  scalar_div_count (sum a) (length a).

(** [um.true_divide(arrmean, div, out=arrmean, casting='unsafe')] for the
    [float32] array [arrmean] of one element and the [intp] scalar [div]. *)
Definition array_div_count (p : promotion) (arrmean : spec_float) (div : nat) : spec_float :=
  match p with
  | legacy => Float32.div arrmean (Float32.of_Z (Z.of_nat div))
  | weak => scalar_div_count arrmean div
  end.

(** [x = arr - arrmean; x = um.multiply(x, x, out=x)] *)
Definition square_dev (arrmean x : spec_float) : spec_float :=
  let d := Float32.sub x arrmean in Float32.mul d d.

(** [np.var(a)], with [ddof = 0] *)
Definition var (p : promotion) (a : list spec_float) : spec_float :=
  let arrmean := array_div_count p (sum a) (length a) in
  scalar_div_count (sum (map (square_dev arrmean) a)) (length a).

(** [np.std(a)]: the population standard deviation *)
Definition std (p : promotion) (a : list spec_float) : spec_float :=
  Float32.sqrt (var p a).

End np.

(** ** Regularity of the beat intervals (essentia_analyzer.py 48-52,
       essentia_service.py 128-132) *)

(** [float(1.0 - np.std(beats_intervals) / np.mean(beats_intervals))]: the
    quotient is a [float32] scalar; subtracting it from the Python float
    [1.0] gives a [float64] under the legacy promotion and a [float32] under
    the weak one. *)
Definition raw_regularity (p : np.promotion) (beats_intervals : list spec_float) : spec_float :=
  let q := Float32.div (np.std p beats_intervals) (np.mean beats_intervals) in
  match p with
  | np.legacy => PyFloat.sub PyFloat.one (float q)
  | np.weak => float (Float32.sub Float32.one q)
  end.

(** [max(0.0, min(1.0, rhythm_regularity))] *)
Definition clamp_unit (r : spec_float) : spec_float :=
  PyFloat.py_max PyFloat.zero (PyFloat.py_min PyFloat.one r).

Definition rhythm_regularity (p : np.promotion) (beats_intervals : list spec_float) : spec_float :=
  if (1 <? length beats_intervals)%nat
  then clamp_unit (raw_regularity p beats_intervals)
  else PyFloat.zero.

(** The regularity is {e clamped into} the unit interval, in the words of the
    specification: the result lies in [[0.0, 1.0]]; a value already inside is
    kept (up to the sign of zero); a value below [0.0] becomes [0.0] and a
    value above [1.0] becomes [1.0]; NaN is not propagated. *)
Definition clamped_into_unit (x r : spec_float) : Prop :=
  PyFloat.in_unit_interval r = true
  /\ (PyFloat.in_unit_interval x = true -> PyFloat.eqb r x = true)
  /\ (PyFloat.ltb x PyFloat.zero = true -> r = PyFloat.zero)
  /\ (PyFloat.ltb PyFloat.one x = true -> r = PyFloat.one).

(** A positive float: finite and positive, or [+inf]. *)
Definition positive_float (x : spec_float) : Prop :=
  (exists m e, x = S754_finite false m e) \/ x = S754_infinity false.

#[global] Instance spec_float_eq_dec : EqDecision spec_float.
Proof. solve_decision. Defined.

(** ** Python strings

    A [str] is represented by its bytes in UTF-8, a lone surrogate (which a
    [str] may hold, and which [json.loads] and [os.fsdecode] produce) by the
    three bytes its code point would take.  [s.encode('utf-8')] succeeds
    exactly when the bytes are well-formed UTF-8, which excludes the
    surrogates. *)

Definition byte (c : ascii) : Z := Z.of_nat (nat_of_ascii c).

(** Where the decoder stands: between characters, or before the last, the
    last two or the last three bytes of one, the next byte being bound to
    [lo..hi]. *)
Inductive utf8_state :=
  | U0
  | U1
  | U2 (lo hi : Z)
  | U3 (lo hi : Z).

Definition utf8_step (st : utf8_state) (c : ascii) : option utf8_state :=
  let b := byte c in
  let continuation lo hi := (lo <=? b) && (b <=? hi) in
  match st with
  | U0 =>
      if b <? 128 then Some U0
      else if (194 <=? b) && (b <=? 223) then Some U1
      else if b =? 224 then Some (U2 160 191)
      else if b =? 237 then Some (U2 128 159)
      else if (225 <=? b) && (b <=? 239) then Some (U2 128 191)
      else if b =? 240 then Some (U3 144 191)
      else if b =? 244 then Some (U3 128 143)
      else if (241 <=? b) && (b <=? 243) then Some (U3 128 191)
      else None
  | U1 => if continuation 128 191 then Some U0 else None
  | U2 lo hi => if continuation lo hi then Some U1 else None
  | U3 lo hi => if continuation lo hi then Some (U2 128 191) else None
  end.

Fixpoint utf8_from (st : utf8_state) (s : string) : bool :=
  match s with
  | EmptyString => match st with U0 => true | _ => false end
  | String c rest =>
      match utf8_step st c with
      | Some st' => utf8_from st' rest
      | None => false
      end
  end.

(** [s.encode('utf-8')] succeeds. *)
Definition utf8 (s : string) : bool := utf8_from U0 s.

(** A [str] that can be encoded. *)
Record text := Text { text_str : string; text_utf8 : Is_true (utf8 text_str) }.

(** The lone surrogate U+D800. *)
Definition lone_surrogate : string :=
  String (ascii_of_nat 237) (String (ascii_of_nat 160) (String (ascii_of_nat 128) EmptyString)).

Definition newline : string := String (ascii_of_nat 10) EmptyString.
Definition quote : string := String (ascii_of_nat 34) EmptyString.

(** A string without any [%]. *)
Fixpoint no_percent (s : string) : bool :=
  match s with
  | EmptyString => true
  | String c rest => negb (bool_decide (c = "%"%char)) && no_percent rest
  end.

(** ** Python values *)

(** The objects that [json.loads] produces and [json.dumps] accepts. *)
Inductive json :=
  | JNone
  | JBool (b : bool)
  | JInt (z : Z)
  | JFloat (f : spec_float)
  | JStr (s : string)
  | JList (l : list json)
  | JDict (d : gmap string json).

(** Truth value of an object, as tested by [if not v]. *)
Definition truthy (v : json) : bool :=
  match v with
  | JNone => false
  | JBool b => b
  | JInt z => negb (z =? 0)
  | JFloat f => negb (PyFloat.is_zero f)
  | JStr s => match s with EmptyString => false | _ => true end
  | JList l => match l with [] => false | _ => true end
  | JDict d => negb (bool_decide (size d = 0%nat))
  end.

(** [json.dumps(v, ensure_ascii=False).encode('utf-8')] succeeds: no string
    in [v], key or value, holds a lone surrogate. *)
Fixpoint json_utf8 (v : json) : bool :=
  match v with
  | JStr s => utf8 s
  | JList l => forallb json_utf8 l
  | JDict d => map_fold (fun k b acc => utf8 k && b && acc) true (json_utf8 <$> d)
  | _ => true
  end.

Definition encodable (data : gmap string json) : bool := json_utf8 (JDict data).

(** ** Exceptions *)

(** An instance of a subclass of [Exception]: its class and [str(e)], which
    is taken to be free of lone surrogates. *)
Record exn := MkExn {
  exn_class : string;
  exn_str : string;
  exn_utf8 : Is_true (utf8 exn_str);
}.

(** An exception with a given message. *)
Abbreviation Exception c s := (MkExn c s I).

Inductive outcome (A : Type) :=
  | Returned (a : A)
  | Raised (e : exn).
Arguments Returned {A} a.
Arguments Raised {A} e.

#[global] Instance outcome_ret : MRet outcome := fun A a => Returned a.
#[global] Instance outcome_bind : MBind outcome := fun A B f m =>
  match m with
  | Returned a => f a
  | Raised e => Raised e
  end.

(** [try: body  except Exception as e: handler(e)] *)
Definition try_except {A} (body : outcome A) (handler : exn -> outcome A) : outcome A :=
  match body with
  | Returned a => Returned a
  | Raised e => handler e
  end.

(** [data.get(key)] on whatever [json.loads] returned: only a dict has [get]. *)
Definition py_get (data : json) (key : string) : outcome json :=
  match data with
  | JDict d => Returned (default JNone (d !! key))
  | JNone => Raised (Exception "AttributeError" "'NoneType' object has no attribute 'get'")
  | JBool _ => Raised (Exception "AttributeError" "'bool' object has no attribute 'get'")
  | JInt _ => Raised (Exception "AttributeError" "'int' object has no attribute 'get'")
  | JFloat _ => Raised (Exception "AttributeError" "'float' object has no attribute 'get'")
  | JStr _ => Raised (Exception "AttributeError" "'str' object has no attribute 'get'")
  | JList _ => Raised (Exception "AttributeError" "'list' object has no attribute 'get'")
  end.

(** ** [format % ()]: printf-style formatting with an empty argument tuple

    The format string is scanned from the left.  A conversion specifier is
    [%], then flags, a width, a precision, a length modifier and the
    conversion character.  [%%], the second [%] right after the first, gives
    a [%]; every other complete specifier asks for an argument before its
    conversion character is looked at, and there is none. *)

Inductive fmt_state :=
  | FText                (* outside a specifier *)
  | FStart               (* just after the opening % *)
  | FFlags               (* reading flags *)
  | FWidth (w : Z)       (* reading the digits of the width *)
  | FDot                 (* just after the dot of the precision *)
  | FPrec (p : Z)        (* reading the digits of the precision *)
  | FConv.               (* after a length modifier *)

Inductive fmt_step :=
  | Emit (c : ascii)
  | Goto (st : fmt_state)
  | Fail (e : exn).

Definition PY_SSIZE_T_MAX : Z := 2 ^ 63 - 1.
Definition INT_MAX : Z := 2 ^ 31 - 1.

Definition is_digit (c : ascii) : bool :=
  (48 <=? Z.of_nat (nat_of_ascii c)) && (Z.of_nat (nat_of_ascii c) <=? 57).
Definition digit_val (c : ascii) : Z := Z.of_nat (nat_of_ascii c) - 48.

Definition is_flag (c : ascii) : bool :=
  bool_decide (c = "-" \/ c = "+" \/ c = " " \/ c = "#" \/ c = "0")%char.

Definition not_enough_arguments : exn :=
  Exception "TypeError" "not enough arguments for format string".

(** The conversion character, whatever it is: the argument is missing. *)
Definition conv_step (c : ascii) : fmt_step := Fail not_enough_arguments.

Definition lenmod_step (c : ascii) : fmt_step :=
  if bool_decide (c = "h" \/ c = "l" \/ c = "L")%char then Goto FConv else conv_step c.

Definition prec_step (c : ascii) : fmt_step :=
  if decide (c = "*"%char) then Fail not_enough_arguments
  else if is_digit c then Goto (FPrec (digit_val c))
  else lenmod_step c.

Definition dot_step (c : ascii) : fmt_step :=
  if decide (c = "."%char) then Goto FDot else lenmod_step c.

Definition width_step (c : ascii) : fmt_step :=
  if decide (c = "*"%char) then Fail not_enough_arguments
  else if is_digit c then Goto (FWidth (digit_val c))
  else dot_step c.

Definition flags_step (c : ascii) : fmt_step :=
  if is_flag c then Goto FFlags else width_step c.

Definition step (st : fmt_state) (c : ascii) : fmt_step :=
  match st with
  | FText => if decide (c = "%"%char) then Goto FStart else Emit c
  | FStart =>
      if decide (c = "%"%char) then Emit "%"
      else if decide (c = "("%char)
           then Fail (Exception "TypeError" "format requires a mapping")
      else flags_step c
  | FFlags => flags_step c
  | FWidth w =>
      if is_digit c then
        if (PY_SSIZE_T_MAX - digit_val c) / 10 <? w
        then Fail (Exception "ValueError" "width too big")
        else Goto (FWidth (w * 10 + digit_val c))
      else dot_step c
  | FDot => prec_step c
  | FPrec p =>
      if is_digit c then
        if (INT_MAX - digit_val c) / 10 <? p
        then Fail (Exception "ValueError" "precision too big")
        else Goto (FPrec (p * 10 + digit_val c))
      else lenmod_step c
  | FConv => conv_step c
  end.

Fixpoint percent_format_from (st : fmt_state) (format : string) : outcome string :=
  match format with
  | EmptyString =>
      match st with
      | FText => Returned EmptyString
      | _ => Raised (Exception "ValueError" "incomplete format")
      end
  | String c rest =>
      match step st c with
      | Emit c' => out ← percent_format_from FText rest; Returned (String c' out)
      | Goto st' => percent_format_from st' rest
      | Fail e => Raised e
      end
  end.

(** [format % ()] *)
Definition percent_format (format : string) : outcome string :=
  percent_format_from FText format.

(** ** The environment of the two scripts *)

(** What [RhythmExtractor2013] returns: [bpm, beats, beats_confidence, _,
    beats_intervals].  [bpm] and [beats_confidence] are Python floats; the
    three vectors are [float32] arrays. *)
Record rhythm := Rhythm {
  bpm : spec_float;
  beats : list spec_float;
  beats_confidence : spec_float;
  estimates : list spec_float;
  beats_intervals : list spec_float;
}.

(** The packages that [import] finds: both scripts import [numpy] first and
    then, in a [try], [essentia.standard]. *)
Inductive installed :=
  | no_numpy
  | numpy_only
  | numpy_and_essentia.

(** The error message of a codec: plain text without [%]. *)
Record codec_message := CodecMessage {
  codec_str : string;
  codec_plain : Is_true (utf8 codec_str && no_percent codec_str);
}.

(** What [print] is given: a line of text, or [json.dumps(d,
    ensure_ascii=False)] for a document [d]. *)
Inductive printed :=
  | a_line (s : string)
  | a_document (d : gmap string json).

Record Env := {
  (** which imports succeed in this process *)
  modules : installed;
  (** the scalar promotion of the installed NumPy *)
  numpy_promotion : np.promotion;
  (** [os.path.exists(p)] *)
  os_path_exists : json -> outcome bool;
  (** [es.MonoLoader(filename=p)()]: the samples of the file *)
  es_MonoLoader : json -> outcome (list spec_float);
  (** [es.RhythmExtractor2013(method="multifeature")(audio)] *)
  es_RhythmExtractor2013 : list spec_float -> outcome rhythm;
  (** [es.MonoLoader(); es.RhythmExtractor2013()] *)
  es_probe : outcome unit;
  (** [traceback.format_exc()] while [e] is being handled *)
  traceback_format_exc : exn -> text;
  (** [str(v)] for an object that is not a string *)
  str_object : json -> text;
  (** [repr(s)] for a string *)
  repr_str : string -> string;
  (** the message of the [UnicodeEncodeError] that
      [json.dumps(d, ensure_ascii=False).encode('utf-8')] raises for a [d]
      with a lone surrogate *)
  encode_error : gmap string json -> codec_message;
  (** the message of the [UnicodeEncodeError] that writing a text with a
      lone surrogate to [sys.stdout] (UTF-8) raises, if its error handler
      lets it raise one: [strict] always does, [surrogateescape] does for
      the surrogates that do not stand for a byte *)
  stdout_error : printed -> option codec_message;
  (** the HTML page that [http.server] sends for a status and a message,
      encoded *)
  error_page : Z -> string -> string;
}.

(** The flag of essentia_service.py (16-21): the guarded import succeeded. *)
Definition ESSENTIA_AVAILABLE (env : Env) : bool :=
  match modules env with
  | numpy_and_essentia => true
  | _ => false
  end.

Definition UnicodeEncodeError (m : codec_message) : exn :=
  MkExn "UnicodeEncodeError" (codec_str m)
    (proj1 (andb_prop_elim _ _ (codec_plain m))).

(** [f"{v}"] *)
Definition py_str (env : Env) (v : json) : string :=
  match v with
  | JStr s => s
  | _ => text_str (str_object env v)
  end.

Definition printable (x : printed) : bool :=
  match x with
  | a_line s => utf8 s
  | a_document d => encodable d
  end.

(** [print(x)] *)
Definition py_print (env : Env) (x : printed) : outcome unit :=
  if printable x then Returned ()
  else
    match stdout_error env x with
    | Some m => Raised (UnicodeEncodeError m)
    | None => Returned ()
    end.

(** ** The analysis proper

    The body of the [try] statement of [analyze_audio] is the same text in
    essentia_analyzer.py (30-63) and in essentia_service.py (110-143). *)

(** The [result] dictionary (analyzer 45-61, service 125-141). *)
Definition analysis_result (env : Env) (r : rhythm) : gmap string json :=
  {[ "tempo_bpm" := JFloat (bpm r);
     "confidence" := JFloat (beats_confidence r);
     "beat_timestamps_sec" := JList ((fun beat => JFloat (float beat)) <$> beats r);
     "bpm_intervals" := JList ((fun interval => JFloat (float interval)) <$> beats_intervals r);
     "beats_detected" := JInt (Z.of_nat (length (beats r)));
     "rhythm_regularity" :=
       JFloat (rhythm_regularity (numpy_promotion env) (beats_intervals r)) ]}.

Definition analysis_body (env : Env) (audio_path : json) : outcome (gmap string json) :=
  found ← os_path_exists env audio_path;
  if negb found
  then Returned {[ "error" := JStr ("Аудио файл не найден: " +:+ py_str env audio_path) ]}
  else
    audio ← es_MonoLoader env audio_path;
    if (length audio =? 0)%nat
    then Returned {[ "error" := JStr "Аудио файл пуст или поврежден" ]}
    else
      r ← es_RhythmExtractor2013 env audio;
      Returned {[ "audio_analysis" := JDict (analysis_result env r) ]}.

(** The error dictionary for a path that does not exist. *)
Definition not_found (audio_path : string) : gmap string json :=
  {[ "error" := JStr ("Аудио файл не найден: " +:+ audio_path) ]}.

(** The two shapes of the value of [analyze_audio]. *)
Definition success_shape (env : Env) (d : gmap string json) : Prop :=
  exists r, d = {[ "audio_analysis" := JDict (analysis_result env r) ]}.
Definition error_shape (d : gmap string json) : Prop :=
  exists message, d = {[ "error" := JStr message ]}.

(** ** essentia_analyzer.py: the one-shot command *)

Module Analyzer.

Definition analyze_audio (env : Env) (audio_path : string) : outcome (gmap string json) :=
  try_except (analysis_body env (JStr audio_path))
    (fun e => Returned {[ "error" := JStr ("Ошибка анализа аудио: " +:+ exn_str e) ]}).

Definition test_essentia (env : Env) : outcome (gmap string json) :=
  try_except
    (_ ← es_probe env;
     Returned {[ "status" := JStr "ok"; "message" := JStr "Essentia доступна" ]})
    (fun e => Returned {[ "error" := JStr ("Essentia недоступна: " +:+ exn_str e) ]}).

(** What the process leaves behind: the documents printed on standard
    output, and its exit status. *)
Record process := Process { stdout : list (gmap string json); exit_status : Z }.

Definition usage : gmap string json :=
  {[ "error" :=
       JStr "Использование: python3 essentia_analyzer.py <audio_file_path> или --test" ]}.

(** [main()], with [sys.argv] as argument.  The usage document is printed
    with ASCII escapes, which always succeeds; the result is printed as it
    is (95), outside any [try].  An exception that leaves [main] ends the
    process with status 1 and nothing more printed. *)
Definition main (env : Env) (sys_argv : list string) : process :=
  if (length sys_argv <? 2)%nat
  then Process [usage] 1
  else
    let run :=
      arg ← match sys_argv !! 1%nat with
            | Some a => Returned a
            | None => Raised (Exception "IndexError" "list index out of range")
            end;
      result ← (if decide (arg = "--test")
                then test_essentia env
                else analyze_audio env arg);
      _ ← py_print env (a_document result);
      Returned result in
    match run with
    | Returned result => Process [result] 0
    | Raised _ => Process [] 1
    end.

(** The module as run by [python3 essentia_analyzer.py ...]: [import numpy]
    (9), which ends the process with a traceback when it fails; the guarded
    import (12-17); then [main()]. *)
Definition script (env : Env) (sys_argv : list string) : process :=
  match modules env with
  | no_numpy => Process [] 1
  | numpy_only => Process [ {[ "error" := JStr "Essentia не установлена" ]} ] 1
  | numpy_and_essentia => main env sys_argv
  end.

End Analyzer.

(** ** essentia_service.py: the HTTP service *)

Module Service.

(** What follows the head of a response. *)
Inductive payload :=
  | no_body
  | json_body (data : gmap string json)
  | html_body (page : string).

(** A response as written to [wfile]: the status line, the headers sent with
    [send_header] (to which [send_response] adds [Server] and [Date]), and
    the body. *)
Record Response := {
  status_code : Z;
  headers : list (string * string);
  body : payload;
}.

(** What a handler has done so far: the responses written to [wfile], the
    lines printed by [log_message] (each without its time stamp), and (as a
    ghost record, for stating which requests reach the analysis) the
    arguments of the calls of [analyze_audio]; and the request line it
    serves. *)
Record handler_state := {
  requestline : string;
  wfile : list Response;
  log : list string;
  analyzed : list json;
}.

Definition initial : handler_state :=
  {| requestline := EmptyString; wfile := []; log := []; analyzed := [] |}.

(** A method of the handler: it may raise, and what it wrote before stays
    written. *)
Definition handler (A : Type) : Type := handler_state -> outcome A * handler_state.

#[global] Instance handler_ret : MRet handler := fun A a st => (Returned a, st).
#[global] Instance handler_bind : MBind handler := fun A B f m st =>
  match m st with
  | (Returned a, st') => f a st'
  | (Raised e, st') => (Raised e, st')
  end.

Definition lift {A} (o : outcome A) : handler A := fun st => (o, st).

Definition try_except {A} (body : handler A) (on_exn : exn -> handler A) : handler A :=
  fun st =>
    match body st with
    | (Returned a, st') => (Returned a, st')
    | (Raised e, st') => on_exn e st'
    end.

(** [try: body  except json.JSONDecodeError: on_exn] *)
Definition try_except_JSONDecodeError {A} (body : handler A) (on_exn : handler A) : handler A :=
  fun st =>
    match body st with
    | (Returned a, st') => (Returned a, st')
    | (Raised e, st') =>
        if decide (exn_class e = "JSONDecodeError") then on_exn st'
        else (Raised e, st')
    end.

Definition write (r : Response) : handler unit := fun st =>
  (Returned (),
   {| requestline := requestline st; wfile := wfile st ++ [r];
      log := log st; analyzed := analyzed st |}).

Definition printed_line (line : string) : handler unit := fun st =>
  (Returned (),
   {| requestline := requestline st; wfile := wfile st;
      log := log st ++ [line]; analyzed := analyzed st |}).

(** [log_message] (165-167) prints [format % args]; [log_error] of
    [BaseHTTPRequestHandler] passes its arguments on to it, and every call
    in the file gives the format alone, so [args] is the empty tuple. *)
Definition log_message (env : Env) (format : string) : handler unit :=
  line ← lift (percent_format format);
  lift (py_print env (a_line line));;
  printed_line line.

Definition log_error (env : Env) (format : string) : handler unit :=
  log_message env format.

(** [log_request(code)], called by [send_response]: it gives [log_message]
    the format ['"%s" %s %s'] with the request line, the code and [-].  The
    request line was decoded as ISO 8859-1 and holds no surrogate. *)
Definition log_request (code : Z) : handler unit := fun st =>
  printed_line (quote +:+ requestline st +:+ quote +:+ " " +:+ pretty code +:+ " -") st.

(** The head that [send_json_response] sends: the status line and the two
    headers. *)
Definition json_head (status : Z) : Response :=
  {| status_code := status;
     headers := [ ("Content-type", "application/json");
                  ("Access-Control-Allow-Origin", "*") ];
     body := no_body |}.

(** The complete response: the head and [json.dumps(data)]. *)
Definition json_response (status : Z) (data : gmap string json) : Response :=
  {| status_code := status;
     headers := headers (json_head status);
     body := json_body data |}.

(** [send_json_response] (150-158): [end_headers] flushes the head; the body
    is serialised and encoded after that, and written if that succeeds. *)
Definition send_json_response (env : Env) (data : gmap string json) (status : Z) : handler unit :=
  log_request status;;
  if encodable data
  then write (json_response status data)
  else write (json_head status);;
       lift (Raised (UnicodeEncodeError (encode_error env data))).

Definition send_error_response (env : Env) (status : Z) (message : string) : handler unit :=
  send_json_response env {[ "error" := JStr message ]} status.

Definition called_with (audio_path : json) : handler unit := fun st =>
  (Returned (),
   {| requestline := requestline st; wfile := wfile st;
      log := log st; analyzed := analyzed st ++ [audio_path] |}).

Definition analyze_audio (env : Env) (audio_path : json) : handler (gmap string json) :=
  called_with audio_path;;
  if negb (ESSENTIA_AVAILABLE env)
  then mret {[ "error" := JStr "Essentia не установлена" ]}
  else
    try_except (lift (analysis_body env audio_path))
      (fun e =>
         let error_msg := "Ошибка анализа аудио: " +:+ exn_str e in
         log_error env (error_msg +:+ newline +:+ text_str (traceback_format_exc env e));;
         mret {[ "error" := JStr error_msg ]}).

Definition health_data : gmap string json :=
  {[ "status" := JStr "healthy";
     "essentia_available" := JBool true;
     "message" := JStr "Сервис Essentia работает корректно" ]}.

Definition send_health_check (env : Env) : handler unit :=
  if negb (ESSENTIA_AVAILABLE env)
  then send_error_response env 503 "Essentia недоступна"
  else
    try_except
      (lift (es_probe env);; send_json_response env health_data 200)
      (fun e => send_error_response env 503 ("Essentia недоступна: " +:+ exn_str e)).

(** The target of a GET request, after [urlparse(self.path)] and
    [parse_qs(parsed_url.query)]. *)
Record GetRequest := {
  parsed_path : string;
  query_params : gmap string (list string);
}.

(** [query_params.get('file', [None])[0]] *)
Definition file_param (request : GetRequest) : outcome json :=
  match query_params request !! "file" with
  | None => Returned JNone
  | Some [] => Raised (Exception "IndexError" "list index out of range")
  | Some (v :: _) => Returned (JStr v)
  end.

(** [do_GET] (24-46).  [url] is what the first two statements of the [try]
    give: the parsed target, or the [ValueError] of [urlparse]. *)
Definition do_GET (env : Env) (url : outcome GetRequest) : handler unit :=
  try_except
    (request ← lift url;
     if decide (parsed_path request = "/health") then send_health_check env
     else if decide (parsed_path request = "/analyze") then
       audio_path ← lift (file_param request);
       if negb (truthy audio_path)
       then send_error_response env 400 "Параметр 'file' обязателен"
       else
         result ← analyze_audio env audio_path;
         send_json_response env result 200
     else send_error_response env 404 "Эндпоинт не найден")
    (fun e =>
       log_error env ("Ошибка при обработке GET запроса: " +:+ exn_str e);;
       send_error_response env 500 ("Внутренняя ошибка сервера: " +:+ exn_str e)).

(** A POST request: the raw path, [int(self.headers['Content-Length'])], and
    [json.loads(self.rfile.read(n).decode('utf-8'))] for a length [n]. *)
Record PostRequest := {
  path : string;
  content_length : outcome Z;
  json_loads_body : Z -> outcome json;
}.

Definition do_POST (env : Env) (request : PostRequest) : handler unit :=
  try_except
    (if decide (path request = "/analyze") then
       n ← lift (content_length request);
       try_except_JSONDecodeError
         (data ← lift (json_loads_body request n);
          audio_path ← lift (py_get data "file_path");
          if negb (truthy audio_path)
          then send_error_response env 400 "Поле 'file_path' обязательно"
          else
            result ← analyze_audio env audio_path;
            send_json_response env result 200)
         (send_error_response env 400 "Неверный JSON формат")
     else send_error_response env 404 "Эндпоинт не найден")
    (fun e =>
       log_error env ("Ошибка при обработке POST запроса: " +:+ exn_str e);;
       send_error_response env 500 ("Внутренняя ошибка сервера: " +:+ exn_str e)).

(** *** What the class inherits from [http.server.BaseHTTPRequestHandler] *)




(** Header names are compared without regard to case. *)
Definition lower (c : ascii) : ascii :=
  let n := nat_of_ascii c in
  if (65 <=? n)%nat && (n <=? 90)%nat then ascii_of_nat (n + 32) else c.

Fixpoint lowercase (s : string) : string :=
  match s with
  | EmptyString => EmptyString
  | String c rest => String (lower c) (lowercase rest)
  end.

Definition has_header (name value : string) (r : Response) : Prop :=
  exists n, (n, value) ∈ headers r /\ lowercase n = lowercase name.

(** The two headers of the envelope. *)
Definition json_headers (r : Response) : Prop :=
  has_header "Content-Type" "application/json" r
  /\ has_header "Access-Control-Allow-Origin" "*" r.

(** The envelope of a response: a JSON object, declared as JSON, readable
    from any origin. *)
Definition json_envelope (r : Response) : Prop :=
  (exists d, body r = json_body d) /\ json_headers r.

(** [request] is a well-formed [GET /analyze?file=...] for [file]. *)
Definition get_analyze (request : GetRequest) (file : string) : Prop :=
  parsed_path request = "/analyze"
  /\ file <> ""
  /\ exists more, query_params request !! "file" = Some (file :: more).

(** [request] is a well-formed [POST /analyze] whose body is a JSON object
    with the string [file_path] under the key of that name. *)
Definition post_analyze (request : PostRequest) (file_path : string) : Prop :=
  path request = "/analyze"
  /\ file_path <> ""
  /\ exists n d,
       content_length request = Returned n
       /\ json_loads_body request n = Returned (JDict d)
       /\ d !! "file_path" = Some (JStr file_path).

End Service.

(** ** Sample environments and requests *)

Module Sample.

(** Four beats two seconds apart. *)
Definition steady : rhythm :=
  {| bpm := PyFloat.of_Z 30;
     beats := Float32.of_Z <$> [1; 3; 5; 7];
     beats_confidence := PyFloat.of_Z 3;
     estimates := [Float32.of_Z 30];
     beats_intervals := Float32.of_Z <$> [2; 2; 2] |}.

(** No beat at all. *)
Definition beatless : rhythm :=
  {| bpm := PyFloat.zero;
     beats := [];
     beats_confidence := PyFloat.zero;
     estimates := [];
     beats_intervals := [] |}.

Definition traceback (e : exn) : text :=
  Text ("Traceback (most recent call last):" +:+ newline) I.

Definition show (v : json) : text := Text "<object>" I.

Definition file_name (p : json) : string :=
  match p with JStr s => s | _ => EmptyString end.

Definition surrogates_not_allowed : codec_message :=
  CodecMessage
    "'utf-8' codec can't encode character '\ud800' in position 33: surrogates not allowed" I.

(** A machine with NumPy 1 and the engine installed, a standard output that
    refuses lone surrogates, and three files: [/audio/ok.wav] decodes to a
    short buffer with the [steady] rhythm; [/audio/hum.wav] decodes to a
    buffer without any beat; [/audio/50%.mp3] exists and the loader cannot
    open it.  Any other path does not exist. *)
Definition env : Env :=
  {| modules := numpy_and_essentia;
     numpy_promotion := np.legacy;
     os_path_exists p :=
       Returned (bool_decide (file_name p = "/audio/ok.wav"
                              \/ file_name p = "/audio/hum.wav"
                              \/ file_name p = "/audio/50%.mp3"));
     es_MonoLoader p :=
       if decide (file_name p = "/audio/ok.wav")
       then Returned [Float32.zero; Float32.one; Float32.zero]
       else if decide (file_name p = "/audio/hum.wav")
       then Returned [Float32.one; Float32.one]
       else Raised (Exception "RuntimeError"
                      ("Error while configuring MonoLoader: AudioLoader: "
                       +:+ "Could not open file /audio/50%.mp3"));
     es_RhythmExtractor2013 audio :=
       if decide (length audio = 3%nat) then Returned steady else Returned beatless;
     es_probe := Returned ();
     traceback_format_exc := traceback;
     str_object := show;
     repr_str s := "'" +:+ s +:+ "'";
     encode_error _ := surrogates_not_allowed;
     stdout_error _ := Some surrogates_not_allowed;
     error_page code message :=
       "<html><body><h1>Error response</h1><p>Error code: " +:+ pretty code
       +:+ "</p><p>Message: " +:+ message +:+ ".</p></body></html>" |}.

Definition name_es_is_not_defined : exn :=
  Exception "NameError" "name 'es' is not defined".

(** The same machine without the engine. *)
Definition env_without_engine : Env :=
  {| modules := numpy_only;
     numpy_promotion := np.legacy;
     os_path_exists := os_path_exists env;
     es_MonoLoader _ := Raised name_es_is_not_defined;
     es_RhythmExtractor2013 _ := Raised name_es_is_not_defined;
     es_probe := Raised name_es_is_not_defined;
     traceback_format_exc := traceback;
     str_object := show;
     repr_str := repr_str env;
     encode_error := encode_error env;
     stdout_error := stdout_error env;
     error_page := error_page env |}.

(** The same machine without NumPy. *)
Definition env_without_numpy : Env :=
  {| modules := no_numpy;
     numpy_promotion := np.legacy;
     os_path_exists := os_path_exists env;
     es_MonoLoader _ := Raised name_es_is_not_defined;
     es_RhythmExtractor2013 _ := Raised name_es_is_not_defined;
     es_probe := Raised name_es_is_not_defined;
     traceback_format_exc := traceback;
     str_object := show;
     repr_str := repr_str env;
     encode_error := encode_error env;
     stdout_error := stdout_error env;
     error_page := error_page env |}.

(** The sample machine with one more file, [/audio/silence.wav], that decodes
    to no sample at all. *)
Definition env_silence : Env :=
  {| modules := numpy_and_essentia;
     numpy_promotion := np.legacy;
     os_path_exists p :=
       if decide (file_name p = "/audio/silence.wav") then Returned true
       else os_path_exists env p;
     es_MonoLoader p :=
       if decide (file_name p = "/audio/silence.wav") then Returned []
       else es_MonoLoader env p;
     es_RhythmExtractor2013 := es_RhythmExtractor2013 env;
     es_probe := es_probe env;
     traceback_format_exc := traceback;
     str_object := show;
     repr_str := repr_str env;
     encode_error := encode_error env;
     stdout_error := stdout_error env;
     error_page := error_page env |}.

(** [POST /analyze] with a body of two bytes that parses to [v]. *)
Definition post (v : json) : Service.PostRequest :=
  {| Service.path := "/analyze";
     Service.content_length := Returned 2;
     Service.json_loads_body _ := Returned v |}.

(** [POST /analyze] with a body that is not valid UTF-8. *)
Definition post_not_utf8 : Service.PostRequest :=
  {| Service.path := "/analyze";
     Service.content_length := Returned 1;
     Service.json_loads_body _ :=
       Raised (Exception "UnicodeDecodeError"
                 "'utf-8' codec can't decode byte 0xff in position 0: invalid start byte") |}.

(** [GET /analyze?file=f] *)
Definition get (f : string) : Service.GetRequest :=
  {| Service.parsed_path := "/analyze";
     Service.query_params := {[ "file" := [f] ]} |}.


(** [GET http://[50%]/analyze]: [urlparse] raises. *)
Definition get_bad_host : outcome Service.GetRequest :=
  Raised (Exception "ValueError" "'50%' does not appear to be an IPv4 or IPv6 address").

End Sample.

(** ** Vocabulary of the properties *)

(** [res] is the [result] dictionary of a successful analysis: the value of
    [analyze_audio], of the command or of the service, is a dictionary whose
    key [audio_analysis] holds [res]. *)
Definition AnalysisResult (env : Env) (res : gmap string json) : Prop :=
  (exists audio_path d,
      Analyzer.analyze_audio env audio_path = Returned d
      /\ d !! "audio_analysis" = Some (JDict res))
  \/ (exists audio_path st d st',
        Service.analyze_audio env audio_path st = (Returned d, st')
        /\ d !! "audio_analysis" = Some (JDict res)).

(** The dictionary of a successful analysis is built from what the
    extractor returned. *)
Definition built_from_engine (env : Env) (d : gmap string json) : Prop :=
  exists audio r,
    es_RhythmExtractor2013 env audio = Returned r
    /\ d = {[ "audio_analysis" := JDict (analysis_result env r) ]}.

(** The engine returns one interval per pair of consecutive beats. *)
Definition interval_per_beat_pair (env : Env) : Prop :=
  forall audio r,
    es_RhythmExtractor2013 env audio = Returned r ->
    length (beats_intervals r) = pred (length (beats r)).

(** The intervals the engine returns are positive [float32] numbers. *)
Definition positive_intervals (env : Env) : Prop :=
  forall audio r,
    es_RhythmExtractor2013 env audio = Returned r ->
    Forall (fun x => Float32.positive x = true) (beats_intervals r).

(** A JSON number that is greater than zero, as Python compares it. *)
Definition positive_number (v : json) : Prop :=
  exists f, v = JFloat f /\ PyFloat.ltb PyFloat.zero f = true.

(** ** Vocabulary of the further properties *)

(** The exceptions that [format % ()] raises: a [TypeError] or a
    [ValueError] whose message has no [%] in it. *)
Definition format_error (e : exn) : Prop :=
  no_percent (exn_str e) = true
  /\ (exn_class e = "TypeError" \/ exn_class e = "ValueError").

(** The exception of a codec that met a lone surrogate. *)
Definition encode_failure (e : exn) : Prop :=
  exists m, e = UnicodeEncodeError m.

(** The exceptions of [log_error]: those of the formatting, and the one of
    [print]. *)
Definition log_fault (e : exn) : Prop := format_error e \/ encode_failure e.

(** An exception whose message has no [%]. *)
Definition plain (e : exn) : Prop := no_percent (exn_str e) = true.

(** [m] writes no response, whether it returns or raises. *)
Definition silent {A} (m : Service.handler A) : Prop :=
  forall st, Service.wfile (m st).2 = Service.wfile st.

(** The head of a JSON response whose body was not written. *)
Definition head_only (r : Service.Response) : Prop :=
  Service.body r = Service.no_body /\ Service.json_headers r.

(** What a request is answered with: one response with the JSON envelope,
    alone, or, when the body of a first response could not be encoded, after
    the head of that response and with status 500. *)
Definition answer (new : list Service.Response) : Prop :=
  exists r,
    Service.json_envelope r
    /\ (new = [r]
        \/ exists h, new = [h; r] /\ head_only h /\ Service.status_code r = 500).

(** [m] sends one response: when it returns it has written exactly one, with
    the JSON envelope; when it raises it has written nothing, or the head of
    a response whose body could not be encoded. *)
Definition responds {A} (m : Service.handler A) : Prop :=
  forall st,
    match m st with
    | (Returned _, st') =>
        exists r, Service.wfile st' = Service.wfile st ++ [r] /\ Service.json_envelope r
    | (Raised e, st') =>
        Service.wfile st' = Service.wfile st
        \/ (exists h, Service.wfile st' = Service.wfile st ++ [h] /\ head_only h)
           /\ encode_failure e
    end.

(** [m] answers when it returns, and has written nothing when it raises. *)
Definition answers {A} (m : Service.handler A) : Prop :=
  forall st,
    match m st with
    | (Returned _, st') =>
        exists new, Service.wfile st' = Service.wfile st ++ new /\ answer new
    | (Raised _, st') => Service.wfile st' = Service.wfile st
    end.

(** Every exception that leaves [m] satisfies [P]. *)
Definition raises_only {A} (P : exn -> Prop) (m : Service.handler A) : Prop :=
  forall st e st', m st = (Raised e, st') -> P e.

(** The status codes of the service: 200, or one of 400, 404, 500 and 503
    with an error record as body. *)
Definition status_policy (r : Service.Response) : Prop :=
  Service.status_code r = 200
  \/ (Service.status_code r ∈ [400; 404; 500; 503]
      /\ exists message, Service.body r = Service.json_body {[ "error" := JStr message ]}).

(** Every response written by [m] satisfies [P]. *)
Definition writes_all {A} (P : Service.Response -> Prop) (m : Service.handler A) : Prop :=
  forall st, exists new,
    Service.wfile (m st).2 = Service.wfile st ++ new /\ Forall P new.

(** [m] calls [analyze_audio] with the arguments [calls], in that order, and
    with nothing else. *)
Definition analyzes {A} (calls : list json) (m : Service.handler A) : Prop :=
  forall st, Service.analyzed (m st).2 = Service.analyzed st ++ calls.

(** The calls of [analyze_audio] that a GET request makes, read off
    [do_GET]: one, for [/analyze] with a non-empty first [file] parameter. *)
Definition get_calls (url : outcome Service.GetRequest) : list json :=
  match url with
  | Returned request =>
      if decide (Service.parsed_path request = "/health") then []
      else if decide (Service.parsed_path request = "/analyze") then
        match Service.query_params request !! "file" with
        | Some (v :: _) => if truthy (JStr v) then [JStr v] else []
        | _ => []
        end
      else []
  | Raised _ => []
  end.

(** The calls of [analyze_audio] that a POST request makes, read off
    [do_POST]: one, for [/analyze] with a body that parses to an object whose
    [file_path] is truthy. *)
Definition post_calls (request : Service.PostRequest) : list json :=
  if decide (Service.path request = "/analyze") then
    match Service.content_length request with
    | Returned n =>
        match Service.json_loads_body request n with
        | Returned (JDict d) =>
            match d !! "file_path" with
            | Some v => if truthy v then [v] else []
            | None => []
            end
        | _ => []
        end
    | Raised _ => []
    end
  else [].

(** The last handler of [do_GET] and [do_POST] (44-46, 71-73): the log
    line, which starts with [prefix], and the answer with status 500. *)
Definition last_handler (env : Env) (prefix : string) (e : exn) : Service.handler unit :=
  Service.log_error env (prefix +:+ exn_str e);;
  Service.send_error_response env 500 ("Внутренняя ошибка сервера: " +:+ exn_str e).

(** The common part of [do_GET] and [do_POST] (39-40, 66-67): analyse, and
    send the result with status 200. *)
Definition analyze_and_send (env : Env) (audio_path : json) : Service.handler unit :=
  result ← Service.analyze_audio env audio_path;
  Service.send_json_response env result 200.



(** The record of an exception that reached the last handler of [do_GET] or
    [do_POST]. *)
Definition internal_error (e : exn) : gmap string json :=
  {[ "error" := JStr ("Внутренняя ошибка сервера: " +:+ exn_str e) ]}.

(** The responses to a well-formed [/analyze] request for [file]: the value
    of [analyze_audio] with status 200; or, when that value cannot be
    encoded, the head of that response and then the internal-error record
    with status 500; or, when an exception leaves [analyze_audio], the
    internal-error record with status 500. *)
Definition analyze_responses (env : Env) (file : string) : list Service.Response :=
  match (Service.analyze_audio env (JStr file) Service.initial).1 with
  | Returned d =>
      if encodable d then [Service.json_response 200 d]
      else [ Service.json_head 200;
             Service.json_response 500
               (internal_error (UnicodeEncodeError (encode_error env d))) ]
  | Raised e => [Service.json_response 500 (internal_error e)]
  end.

(** The file system, the loader or the extractor raises [e] while [p] is
    analysed. *)
Definition engine_fault (env : Env) (p : json) (e : exn) : Prop :=
  os_path_exists env p = Raised e
  \/ (os_path_exists env p = Returned true
      /\ (es_MonoLoader env p = Raised e
          \/ exists audio,
               es_MonoLoader env p = Returned audio
               /\ audio <> []
               /\ es_RhythmExtractor2013 env audio = Raised e)).

(** The error record for a fault of the engine. *)
Definition analysis_failed (e : exn) : gmap string json :=
  {[ "error" := JStr ("Ошибка анализа аудио: " +:+ exn_str e) ]}.

(** The line that the service logs for a fault of the engine. *)
Definition fault_line (env : Env) (e : exn) : string :=
  "Ошибка анализа аудио: " +:+ exn_str e +:+ newline
  +:+ text_str (traceback_format_exc env e).

(** The six keys of a result dictionary. *)
Definition result_keys : gset string :=
  {[ "tempo_bpm"; "confidence"; "beat_timestamps_sec"; "bpm_intervals";
     "beats_detected"; "rhythm_regularity" ]}.

(** * Properties *)

Section clamp.

Lemma ltb_leb a b : PyFloat.ltb a b = true -> PyFloat.leb a b = true.
Proof.
  unfold PyFloat.ltb, PyFloat.leb, SFltb, SFleb.
  destruct (SFcompare a b) as [[]|]; congruence.
Qed.

Lemma clamp_unit_in_unit_interval r :
  PyFloat.in_unit_interval (clamp_unit r) = true.
Proof.
  unfold clamp_unit, PyFloat.py_min.
  destruct (PyFloat.ltb r PyFloat.one) eqn:Hhi; [|reflexivity].
  unfold PyFloat.py_max.
  destruct (PyFloat.ltb PyFloat.zero r) eqn:Hlo; [|reflexivity].
  unfold PyFloat.in_unit_interval.
  by rewrite (ltb_leb _ _ Hhi), (ltb_leb _ _ Hlo).
Qed.

End clamp.

(** ** Rounding a positive number gives a positive number (finite, or [inf]
       beyond the range of the format) *)

Section rounding.

Context (prec emax : Z).
Hypothesis prec_positive : 0 < prec.

Lemma shr_1_div2 mrs : 0 <= shr_m mrs -> shr_m (shr_1 mrs) = Z.div2 (shr_m mrs).
Proof. destruct mrs as [[|[p|p|]|p] r s]; simpl; intros; try reflexivity; lia. Qed.

Lemma iter_pos_shr_1 p : forall mrs,
  0 <= shr_m mrs ->
  shr_m (SpecFloat.iter_pos shr_1 p mrs) = Z.shiftr (shr_m mrs) (Zpos p).
Proof.
  induction p as [p IH|p IH|]; intros mrs Hm; simpl SpecFloat.iter_pos.
  - assert (H1 : 0 <= shr_m (shr_1 mrs)).
    { rewrite shr_1_div2 by done. by apply Z.div2_nonneg. }
    assert (H2 : 0 <= shr_m (SpecFloat.iter_pos shr_1 p (shr_1 mrs))).
    { rewrite IH by done. by apply Z.shiftr_nonneg. }
    rewrite IH, IH, shr_1_div2, Z.div2_spec by done.
    rewrite !Z.shiftr_shiftr by lia. f_equal. lia.
  - assert (H2 : 0 <= shr_m (SpecFloat.iter_pos shr_1 p mrs)).
    { rewrite IH by done. by apply Z.shiftr_nonneg. }
    rewrite IH, IH by done.
    rewrite Z.shiftr_shiftr by lia. f_equal. lia.
  - rewrite shr_1_div2 by done. apply Z.div2_spec.
Qed.

Lemma digits2_pos_pow m : 2 ^ (Zpos (digits2_pos m) - 1) <= Zpos m.
Proof.
  induction m as [m IH|m IH|]; simpl digits2_pos; [| |done].
  - rewrite Pos2Z.inj_succ.
    replace (Z.succ (Zpos (digits2_pos m)) - 1) with (Z.succ (Zpos (digits2_pos m) - 1)) by lia.
    rewrite Z.pow_succ_r by lia. lia.
  - rewrite Pos2Z.inj_succ.
    replace (Z.succ (Zpos (digits2_pos m)) - 1) with (Z.succ (Zpos (digits2_pos m) - 1)) by lia.
    rewrite Z.pow_succ_r by lia. lia.
Qed.

Lemma shiftr_pos_digits m p :
  Zpos p < Zdigits2 (Zpos m) -> 0 < Z.shiftr (Zpos m) (Zpos p).
Proof.
  simpl Zdigits2. intros Hp.
  rewrite Z.shiftr_div_pow2 by lia.
  apply Z.div_str_pos. split; [by apply Z.pow_pos_nonneg|].
  etrans; [|apply digits2_pos_pow].
  apply Z.pow_le_mono_r; lia.
Qed.

(** Shifting a positive mantissa right by fewer digits than it has leaves a
    positive mantissa. *)
Lemma shr_positive m r s e n :
  n < Zdigits2 (Zpos m) ->
  0 < shr_m (shr (Build_shr_record (Zpos m) r s) e n).1
  /\ (shr (Build_shr_record (Zpos m) r s) e n).2 = e + Z.max n 0.
Proof.
  intros Hn. destruct n as [|p|p]; simpl shr; simpl fst; simpl snd.
  - split; [done|lia].
  - split; [|lia]. rewrite iter_pos_shr_1 by done. by apply shiftr_pos_digits.
  - split; [done|lia].
Qed.

Lemma round_nearest_even_positive m l : 0 < m -> 0 < round_nearest_even m l.
Proof.
  intros Hm. destruct l as [|[]]; simpl; try done; [|lia].
  destruct (Z.even m); lia.
Qed.

Lemma binary_round_aux_positive m e :
  emin prec emax < Zdigits2 (Zpos m) + e ->
  positive_float (binary_round_aux prec emax false (Zpos m) e loc_Exact).
Proof using prec_positive.
  intros He. unfold binary_round_aux, shr_fexp.
  set (n1 := fexp _ _ _ - e).
  assert (Hn1 : n1 < Zdigits2 (Zpos m)).
  { unfold n1, fexp, emin in *. lia. }
  destruct (shr_positive m false false e n1 Hn1) as [Hm1 He1].
  simpl shr_record_of_loc.
  destruct (shr _ e n1) as [mrs1 e1] eqn:Hshr1. simpl in Hm1, He1.
  pose proof (round_nearest_even_positive _ (loc_of_shr_record mrs1) Hm1) as Hm2.
  destruct (round_nearest_even _ _) as [|q|q] eqn:Eq; try lia.
  set (n2 := fexp _ _ _ - e1).
  assert (Hn2 : n2 < Zdigits2 (Zpos q)).
  { destruct (Z_le_gt_dec n1 0) as [Hle|Hgt].
    - (* no shift: the mantissa is unchanged *)
      assert (mrs1 = Build_shr_record (Zpos m) false false) as ->.
      { destruct n1; simpl in Hshr1; try lia; congruence. }
      assert (e1 = e) as -> by lia.
      simpl in Eq. injection Eq as <-.
      unfold n2, fexp, emin in *. lia.
    - unfold n2, n1, fexp, emin in *.
      simpl Zdigits2. lia. }
  destruct (shr_positive q false false e1 n2 Hn2) as [Hm3 _].
  simpl shr_record_of_loc.
  destruct (shr _ e1 n2) as [mrs3 e3]. simpl in Hm3.
  destruct (shr_m mrs3) as [|m3|m3]; try lia.
  destruct (_ <=? _); [left; eauto | by right].
Qed.

Lemma digits2_pos_iter_xO m d : Zpos (digits2_pos m) <= Zpos (digits2_pos (Pos.iter xO m d)).
Proof.
  induction d as [|d IH] using Pos.peano_ind.
  - simpl. lia.
  - rewrite Pos.iter_succ. simpl digits2_pos. lia.
Qed.

Lemma binary_round_positive m e :
  emin prec emax < Zdigits2 (Zpos m) + e ->
  positive_float (binary_round prec emax false m e).
Proof using prec_positive.
  intros He. unfold binary_round, shl_align.
  set (k := fexp _ _ _ - e).
  destruct k as [|d|d] eqn:Ek; apply binary_round_aux_positive; try done.
  pose proof (digits2_pos_iter_xO m d).
  unfold k, fexp, emin in *. simpl Zdigits2 in *.
  unfold shift_pos. lia.
Qed.

Lemma of_Z_positive n :
  2 < emax + prec -> 0 < n ->
  positive_float (binary_normalize prec emax n 0 false).
Proof using prec_positive.
  intros Hformat Hn. destruct n as [|p|p]; try lia.
  apply binary_round_positive. unfold emin. simpl Zdigits2. lia.
Qed.

End rounding.

Section counts.

Lemma of_nat_positive n : (0 < n)%nat -> positive_float (PyFloat.of_nat n).
Proof. intros Hn. apply of_Z_positive; [done|done|lia]. Qed.

Lemma float32_of_nat_positive n :
  (0 < n)%nat -> positive_float (Float32.of_Z (Z.of_nat n)).
Proof. intros Hn. apply of_Z_positive; [done|done|lia]. Qed.

(** [float(x)] of a positive [float32] number is a positive Python float. *)
Lemma float_positive x :
  Float32.positive x = true -> PyFloat.ltb PyFloat.zero (float x) = true.
Proof.
  unfold Float32.positive, Float32.valid. intros [Hvalid Hpos]%andb_true_iff.
  destruct x as [[]|[]| |[] m e]; try discriminate Hpos; [reflexivity|].
  assert (He : emin Float32.prec Float32.emax <= e).
  { cbn [valid_binary] in Hvalid. unfold bounded, canonical_mantissa in Hvalid.
    apply andb_true_iff in Hvalid as [Hc _]. apply Z.eqb_eq in Hc.
    unfold fexp in Hc. lia. }
  unfold float, PyFloat.round.
  destruct (binary_round_positive PyFloat.prec PyFloat.emax eq_refl m e)
    as [(m' & e' & ->)| ->]; [|reflexivity..].
  unfold emin, Float32.prec, Float32.emax, PyFloat.prec, PyFloat.emax in *.
  simpl Zdigits2. lia.
Qed.

End counts.

(** ** The clamp, against the specification's wording *)

Section clamped.

Implicit Types (a b x : spec_float).

Lemma SFcompare_antisym a b : SFcompare b a = CompOpp <$> SFcompare a b.
Proof.
  destruct a as [[]|[]| |[] m1 e1], b as [[]|[]| |[] m2 e2]; simpl; try reflexivity.
  - rewrite (Z.compare_antisym e1 e2).
    destruct (e1 ?= e2); simpl; try reflexivity.
    by rewrite (Pos.compare_cont_antisym m1 m2 Eq).
  - rewrite (Z.compare_antisym e1 e2).
    destruct (e1 ?= e2); simpl; try reflexivity.
    by rewrite (Pos.compare_cont_antisym m1 m2 Eq).
Qed.

Lemma SFcompare_refl x : x <> S754_nan -> SFcompare x x = Some Eq.
Proof.
  destruct x as [[]|[]| |[] m e]; simpl; try congruence; intros _.
  - by rewrite Z.compare_refl, Pos.compare_cont_refl.
  - by rewrite Z.compare_refl, Pos.compare_cont_refl.
Qed.

Lemma below_zero_below_one x :
  SFcompare x PyFloat.zero = Some Lt -> SFcompare x PyFloat.one = Some Lt.
Proof. intros H. destruct x as [[]|[]| |[] m e]; try discriminate H; reflexivity. Qed.

(** The three branches of the clamp, by the two comparisons it makes. *)
Lemma clamp_unit_cases x :
  clamp_unit x =
    match SFcompare x PyFloat.one with
    | Some Lt =>
        match SFcompare x PyFloat.zero with
        | Some Gt => x
        | _ => PyFloat.zero
        end
    | _ => PyFloat.one
    end.
Proof.
  unfold clamp_unit, PyFloat.py_min, PyFloat.py_max, PyFloat.ltb, SFltb.
  destruct (SFcompare x PyFloat.one) as [[]|]; try reflexivity.
  rewrite (SFcompare_antisym x PyFloat.zero).
  by destruct (SFcompare x PyFloat.zero) as [[]|].
Qed.

Lemma clamp_unit_clamped x : clamped_into_unit x (clamp_unit x).
Proof.
  split; [apply clamp_unit_in_unit_interval|].
  rewrite clamp_unit_cases.
  unfold PyFloat.in_unit_interval, PyFloat.ltb, PyFloat.leb, PyFloat.eqb,
    SFltb, SFleb, SFeqb.
  rewrite (SFcompare_antisym x PyFloat.zero), (SFcompare_antisym x PyFloat.one).
  pose proof (below_zero_below_one x) as H01.
  destruct (SFcompare x PyFloat.one) as [c1|] eqn:E1.
  - assert (Hxx : SFcompare x x = Some Eq).
    { apply SFcompare_refl. by intros ->. }
    destruct (SFcompare x PyFloat.zero) as [c0|] eqn:E0.
    + destruct c1, c0; cbn [fmap option_fmap option_map CompOpp andb];
        rewrite ?Hxx, ?(SFcompare_antisym x PyFloat.zero), ?(SFcompare_antisym x PyFloat.one), ?E0, ?E1;
        cbn [fmap option_fmap option_map CompOpp andb];
        repeat split; intros; try done; try (by specialize (H01 eq_refl)).
    + destruct x as [[]|[]| |[]]; discriminate E0 || discriminate E1.
  - destruct x as [[]|[]| |[]]; try discriminate E1.
    repeat split; intros H; try done; cbn in H; discriminate H.
Qed.

End clamped.

(** ** The pairwise sum *)

Section pairwise.

Implicit Types (a r : list spec_float) (x acc : spec_float).

(** The fuel does not matter once it reaches the length of the array. *)
Lemma pairwise_sum_rec_fuel fuel : forall fuel' a,
  (length a <= fuel)%nat -> (length a <= fuel')%nat ->
  np.pairwise_sum_rec fuel a = np.pairwise_sum_rec fuel' a.
Proof.
  induction fuel as [|fuel IH]; intros fuel' a Hf Hf'.
  - destruct a; [|cbn in Hf; lia]. by destruct fuel'.
  - destruct fuel' as [|fuel'].
    { destruct a; [done|cbn in Hf'; lia]. }
    cbn [np.pairwise_sum_rec].
    destruct (Nat.ltb_spec (length a) 8); [done|].
    destruct (Nat.leb_spec (length a) 128); [done|].
    set (n2 := (length a / 2 - (length a / 2) mod 8)%nat).
    assert (Hn2 : (0 < n2 < length a)%nat).
    { pose proof (Nat.mod_upper_bound (length a / 2) 8 ltac:(lia)).
      pose proof (Nat.Div0.div_lt_upper_bound (length a) 2 (length a) ltac:(lia)).
      assert (64 <= length a / 2)%nat by (apply Nat.div_le_lower_bound; lia).
      unfold n2. lia. }
    f_equal; apply IH; rewrite ?length_take, ?length_drop; lia.
Qed.

Lemma pairwise_sum_split a :
  (128 < length a)%nat ->
  np.pairwise_sum a =
    let n2 := (length a / 2 - (length a / 2) mod 8)%nat in
    Float32.add (np.pairwise_sum (take n2 a)) (np.pairwise_sum (drop n2 a)).
Proof.
  intros Hlen. unfold np.pairwise_sum at 1.
  destruct (length a) as [|n] eqn:En; [lia|].
  cbn [np.pairwise_sum_rec]. rewrite En.
  destruct (Nat.ltb_spec (S n) 8); [lia|].
  destruct (Nat.leb_spec (S n) 128); [lia|].
  cbn zeta.
  set (n2 := (S n / 2 - (S n / 2) mod 8)%nat).
  assert (Hn2 : (0 < n2 < S n)%nat).
  { pose proof (Nat.mod_upper_bound (S n / 2) 8 ltac:(lia)).
    pose proof (Nat.Div0.div_lt_upper_bound (S n) 2 (S n) ltac:(lia)).
    assert (64 <= S n / 2)%nat by (apply Nat.div_le_lower_bound; lia).
    unfold n2. lia. }
  unfold np.pairwise_sum.
  f_equal; apply pairwise_sum_rec_fuel; rewrite ?length_take, ?length_drop; lia.
Qed.

End pairwise.

(** ** Intervals that are all zero *)

Section all_zero.

Implicit Types (a r : list spec_float) (x acc : spec_float).

Local Abbreviation all_zero a := (Forall (fun x => PyFloat.is_zero x = true) a).

Lemma add_zero x y :
  PyFloat.is_zero x = true -> PyFloat.is_zero y = true ->
  PyFloat.is_zero (Float32.add x y) = true.
Proof. by destruct x as [[]| | |], y as [[]| | |]. Qed.

Lemma fold_add_zero a : forall acc,
  PyFloat.is_zero acc = true -> all_zero a ->
  PyFloat.is_zero (fold_left Float32.add a acc) = true.
Proof.
  induction a as [|x a IH]; intros acc Hacc Ha; [done|].
  inversion_clear Ha. cbn [fold_left]. apply IH; [|done]. by apply add_zero.
Qed.

Lemma zip_add_zero r : forall a,
  all_zero r -> all_zero a -> all_zero (zip_with Float32.add r a).
Proof.
  induction r as [|x r IH]; intros [|y a] Hr Ha; cbn [zip_with]; try done.
  inversion_clear Hr. inversion_clear Ha.
  constructor; [by apply add_zero|by apply IH].
Qed.

Lemma accumulate_zero k : forall r a,
  all_zero r -> all_zero a ->
  all_zero (np.accumulate k r a).1 /\ all_zero (np.accumulate k r a).2.
Proof.
  induction k as [|k IH]; intros r a Hr Ha; [done|].
  cbn [np.accumulate]. apply IH.
  - apply zip_add_zero; [done|by apply Forall_take].
  - by apply Forall_drop.
Qed.

Lemma combine_zero r : all_zero r -> PyFloat.is_zero (np.combine r) = true.
Proof.
  intros Hr. unfold np.combine.
  assert (H : forall i, PyFloat.is_zero (default Float32.zero (r !! i)) = true).
  { intros i. destruct (r !! i) as [x|] eqn:E; [|done].
    by eapply (Forall_lookup_1 _ _ _ _ Hr). }
  repeat apply add_zero; apply H.
Qed.

Lemma sum_block_zero a : all_zero a -> PyFloat.is_zero (np.sum_block a) = true.
Proof.
  intros Ha. unfold np.sum_block.
  destruct (accumulate_zero (length a / 8 - 1) (take 8 a) (drop 8 a)) as [H1 H2];
    [by apply Forall_take|by apply Forall_drop|].
  destruct (np.accumulate _ _ _) as [r rest]. cbn [fst snd] in *.
  apply fold_add_zero; [by apply combine_zero|done].
Qed.

Lemma pairwise_sum_rec_zero fuel : forall a,
  all_zero a -> PyFloat.is_zero (np.pairwise_sum_rec fuel a) = true.
Proof.
  induction fuel as [|fuel IH]; intros a Ha; cbn [np.pairwise_sum_rec];
    (destruct (_ <? _)%nat; [by apply fold_add_zero|]);
    (destruct (_ <=? _)%nat; [by apply sum_block_zero|]).
  - by apply sum_block_zero.
  - apply add_zero; apply IH; [by apply Forall_take|by apply Forall_drop].
Qed.

Lemma sum_all_zero a : all_zero a -> np.sum a = Float32.zero.
Proof.
  intros Ha. unfold np.sum, np.pairwise_sum.
  pose proof (pairwise_sum_rec_zero (length a) a Ha) as H.
  by destruct (np.pairwise_sum_rec _ _) as [[]| | |].
Qed.

Lemma scalar_div_count_zero n :
  (0 < n)%nat -> np.scalar_div_count Float32.zero n = Float32.zero.
Proof.
  intros Hn. unfold np.scalar_div_count.
  by destruct (of_nat_positive _ Hn) as [(m & e & ->)| ->].
Qed.

Lemma array_div_count_zero p n :
  (0 < n)%nat -> np.array_div_count p Float32.zero n = Float32.zero.
Proof.
  intros Hn. destruct p; cbn [np.array_div_count].
  - by destruct (float32_of_nat_positive _ Hn) as [(m & e & ->)| ->].
  - by apply scalar_div_count_zero.
Qed.

Lemma mean_all_zero a : a <> [] -> all_zero a -> np.mean a = Float32.zero.
Proof.
  intros Hne Ha. unfold np.mean. rewrite sum_all_zero by done.
  apply scalar_div_count_zero. destruct a; [done|cbn; lia].
Qed.

Lemma square_dev_all_zero a :
  all_zero a -> all_zero (map (np.square_dev Float32.zero) a).
Proof.
  intros Ha. apply Forall_map. eapply Forall_impl; [exact Ha|].
  intros x Hx. by destruct x as [[]| | |].
Qed.

Lemma std_all_zero p a : a <> [] -> all_zero a -> np.std p a = Float32.zero.
Proof.
  intros Hne Ha. unfold np.std, np.var.
  assert (Hn : (0 < length a)%nat) by (destruct a; [done|cbn; lia]).
  rewrite (sum_all_zero a), array_div_count_zero by done.
  rewrite sum_all_zero by by apply square_dev_all_zero.
  by rewrite scalar_div_count_zero.
Qed.

Lemma quotient_all_zero p a :
  a <> [] -> all_zero a -> Float32.div (np.std p a) (np.mean a) = S754_nan.
Proof. intros Hne Ha. by rewrite std_all_zero, mean_all_zero. Qed.

Lemma raw_regularity_all_zero p a :
  a <> [] -> all_zero a -> raw_regularity p a = S754_nan.
Proof.
  intros Hne Ha. unfold raw_regularity. rewrite quotient_all_zero by done.
  by destruct p.
Qed.

End all_zero.

(** ** An interval that is not a number *)

Section nan.

Implicit Types (a r : list spec_float) (x acc : spec_float).

Lemma add_nan_l x : Float32.add S754_nan x = S754_nan.
Proof. done. Qed.

Lemma add_nan_r x : Float32.add x S754_nan = S754_nan.
Proof. by destruct x. Qed.

Lemma fold_add_nan a : fold_left Float32.add a S754_nan = S754_nan.
Proof. induction a as [|x a IH]; [done|]. cbn [fold_left]. by rewrite add_nan_l. Qed.

Lemma fold_add_elem_nan a : forall acc,
  S754_nan ∈ a -> fold_left Float32.add a acc = S754_nan.
Proof.
  induction a as [|x a IH]; intros acc Hin; [by apply not_elem_of_nil in Hin|].
  cbn [fold_left]. apply elem_of_cons in Hin as [<-|Hin].
  - rewrite add_nan_r. apply fold_add_nan.
  - by apply IH.
Qed.

(** Adding a row to the accumulators keeps a NaN that is in either. *)
Lemma zip_add_nan r : forall a,
  length r = length a ->
  S754_nan ∈ r \/ S754_nan ∈ a -> S754_nan ∈ zip_with Float32.add r a.
Proof.
  induction r as [|x r IH]; intros [|y a] Hlen Hin; cbn in Hlen; try lia.
  - destruct Hin as [Hin|Hin]; by apply not_elem_of_nil in Hin.
  - cbn [zip_with]. rewrite elem_of_cons.
    destruct Hin as [[<-|Hin]%elem_of_cons|[<-|Hin]%elem_of_cons].
    + by left.
    + right. apply IH; [lia|by left].
    + left. by rewrite add_nan_r.
    + right. apply IH; [lia|by right].
Qed.

Lemma accumulate_nan k : forall r a,
  length r = 8%nat -> (8 * k <= length a)%nat ->
  S754_nan ∈ r \/ S754_nan ∈ a ->
  length (np.accumulate k r a).1 = 8%nat
  /\ (S754_nan ∈ (np.accumulate k r a).1 \/ S754_nan ∈ (np.accumulate k r a).2).
Proof.
  induction k as [|k IH]; intros r a Hr Ha Hin; [done|].
  cbn [np.accumulate].
  assert (Htake : length (take 8 a) = 8%nat) by (rewrite length_take; lia).
  apply IH.
  - rewrite length_zip_with. lia.
  - rewrite length_drop. lia.
  - destruct Hin as [Hin|Hin].
    + left. apply zip_add_nan; [lia|by left].
    + rewrite <- (take_drop 8 a) in Hin. apply elem_of_app in Hin as [Hin|Hin].
      * left. apply zip_add_nan; [lia|by right].
      * by right.
Qed.

Lemma combine_nan r : length r = 8%nat -> S754_nan ∈ r -> np.combine r = S754_nan.
Proof.
  intros Hlen Hin.
  do 9 (destruct r as [|? r]; cbn in Hlen; try lia).
  unfold np.combine. cbn [lookup list_lookup default from_option id].
  repeat (apply elem_of_cons in Hin as [<-|Hin]);
    [..|by apply not_elem_of_nil in Hin];
    by rewrite ?add_nan_r, ?add_nan_l, ?add_nan_r, ?add_nan_l, ?add_nan_r.
Qed.

Lemma sum_block_nan a :
  (8 <= length a)%nat -> S754_nan ∈ a -> np.sum_block a = S754_nan.
Proof.
  intros Hlen Hin. unfold np.sum_block.
  destruct (accumulate_nan (length a / 8 - 1) (take 8 a) (drop 8 a)) as [Hr Hnan].
  - rewrite length_take. lia.
  - rewrite length_drop.
    pose proof (Nat.Div0.mul_div_le (length a) 8). lia.
  - rewrite <- (take_drop 8 a) in Hin. by apply elem_of_app in Hin.
  - destruct (np.accumulate _ _ _) as [r rest]. cbn [fst snd] in *.
    destruct Hnan as [Hnan|Hnan].
    + rewrite combine_nan by done. apply fold_add_nan.
    + by apply fold_add_elem_nan.
Qed.

Lemma pairwise_sum_rec_nan fuel : forall a,
  S754_nan ∈ a -> np.pairwise_sum_rec fuel a = S754_nan.
Proof.
  induction fuel as [|fuel IH]; intros a Hin; cbn [np.pairwise_sum_rec];
    (destruct (Nat.ltb_spec (length a) 8); [by apply fold_add_elem_nan|]);
    (destruct (_ <=? _)%nat; [by apply sum_block_nan|]).
  - by apply sum_block_nan.
  - set (n2 := (length a / 2 - (length a / 2) mod 8)%nat).
    rewrite <- (take_drop n2 a) in Hin. apply elem_of_app in Hin as [Hin|Hin].
    + by rewrite (IH _ Hin).
    + rewrite (IH (drop n2 a) Hin). apply add_nan_r.
Qed.

Lemma mean_elem_nan a : S754_nan ∈ a -> np.mean a = S754_nan.
Proof.
  intros Hin. unfold np.mean, np.sum, np.pairwise_sum.
  by rewrite pairwise_sum_rec_nan.
Qed.

Lemma raw_regularity_elem_nan p a : S754_nan ∈ a -> raw_regularity p a = S754_nan.
Proof.
  intros Hin. unfold raw_regularity. rewrite (mean_elem_nan a Hin).
  assert (Float32.div (np.std p a) S754_nan = S754_nan) as -> by by destruct (np.std p a).
  by destruct p.
Qed.

End nan.

(** ** Strings that can be encoded *)

Section encoding.

Implicit Types (s t : string) (d : gmap string json).

Lemma utf8_from_app s t : forall st,
  utf8_from st s = true -> utf8_from st (s +:+ t) = utf8 t.
Proof.
  induction s as [|c s IH]; intros st Hs.
  - by destruct st.
  - change (String c s +:+ t) with (String c (s +:+ t)).
    cbn [utf8_from] in *. destruct (utf8_step st c); [by apply IH|done].
Qed.

Lemma utf8_app s t : utf8 s = true -> utf8 t = true -> utf8 (s +:+ t) = true.
Proof. intros Hs Ht. unfold utf8 at 1. by rewrite utf8_from_app. Qed.

Lemma exn_str_utf8 e : utf8 (exn_str e) = true.
Proof. apply Is_true_true, exn_utf8. Qed.

Lemma text_str_utf8 (x : text) : utf8 (text_str x) = true.
Proof. apply Is_true_true, text_utf8. Qed.

Lemma codec_message_no_percent m : no_percent (codec_str m) = true.
Proof.
  pose proof (codec_plain m) as H. apply Is_true_true in H.
  by apply andb_true_iff in H as [_ H].
Qed.

Lemma py_str_utf8 env v : utf8 (py_str env v) = json_utf8 v \/ utf8 (py_str env v) = true.
Proof. destruct v; cbn [py_str]; try (right; apply text_str_utf8). by left. Qed.

Lemma json_utf8_dict d :
  json_utf8 (JDict d) = true
  <-> map_Forall (fun k v => utf8 k = true /\ json_utf8 v = true) d.
Proof.
  assert (H : forall m : gmap string bool,
             map_fold (fun k b acc => utf8 k && b && acc) true m = true
             <-> map_Forall (fun k (b : bool) => utf8 k = true /\ b = true) m).
  { apply (map_fold_weak_ind
             (fun (b : bool) (m : gmap string bool) =>
                b = true <-> map_Forall (fun k (b : bool) => utf8 k = true /\ b = true) m)).
    - split; [intros _; apply map_Forall_empty|done].
    - intros k x m r Hk IH. rewrite map_Forall_insert by done.
      rewrite <- IH, !andb_true_iff. tauto. }
  cbn [json_utf8]. rewrite H, map_Forall_fmap. done.
Qed.

Lemma encodable_singleton k v : encodable {[ k := v ]} = utf8 k && json_utf8 v.
Proof.
  unfold encodable. cbn [json_utf8].
  by rewrite map_fmap_singleton, map_fold_singleton, andb_true_r.
Qed.

(** An error record can be encoded when its message can. *)
Lemma encodable_error message : encodable {[ "error" := JStr message ]} = utf8 message.
Proof. by rewrite encodable_singleton. Qed.

Lemma json_utf8_floats (f : spec_float -> json) (l : list spec_float) :
  (forall x, json_utf8 (f x) = true) -> json_utf8 (JList (f <$> l)) = true.
Proof.
  intros Hf. cbn [json_utf8]. induction l as [|x l IH]; [done|].
  cbn [fmap list_fmap forallb]. by rewrite Hf.
Qed.

(** A result dictionary holds numbers only. *)
Lemma encodable_analysis_result env r :
  encodable {[ "audio_analysis" := JDict (analysis_result env r) ]} = true.
Proof.
  rewrite encodable_singleton. apply andb_true_iff. split; [done|].
  apply json_utf8_dict. unfold analysis_result.
  repeat (apply map_Forall_insert_2; [split; [done|]|]);
    [..|apply map_Forall_empty]; try done; by apply json_utf8_floats.
Qed.

End encoding.

(** ** [format % ()] *)

Section format.

Lemma percent_format_no_percent s :
  no_percent s = true -> percent_format s = Returned s.
Proof.
  unfold percent_format. induction s as [|c s IH]; [done|].
  cbn [no_percent percent_format_from step].
  intros [Hc Hs]%andb_true_iff.
  destruct (decide (c = "%"%char)) as [->|Hne]; [done|].
  by rewrite (IH Hs).
Qed.

Lemma step_fail st c e : step st c = Fail e -> format_error e.
Proof.
  unfold step, flags_step, width_step, dot_step, prec_step, lenmod_step, conv_step.
  destruct st; repeat case_match; try discriminate;
    intros [= <-]; (split; [reflexivity|]); (by left) || (by right).
Qed.

Lemma percent_format_from_raises s : forall st e,
  percent_format_from st s = Raised e -> format_error e.
Proof.
  induction s as [|c s IH]; intros st e; cbn [percent_format_from].
  - destruct st; try discriminate; intros [= <-]; (split; [reflexivity|by right]).
  - destruct (step st c) as [c'|st'|e0] eqn:E.
    + unfold mbind, outcome_bind.
      destruct (percent_format_from FText s) eqn:E'; [discriminate|].
      intros [= <-]. by eapply IH.
    + apply IH.
    + intros [= <-]. by eapply step_fail.
Qed.

Lemma percent_format_raises s e : percent_format s = Raised e -> format_error e.
Proof. apply percent_format_from_raises. Qed.

Lemma no_percent_app s t :
  no_percent s = true -> no_percent t = true -> no_percent (s +:+ t) = true.
Proof.
  intros Hs Ht. induction s as [|c s IH]; [done|].
  change (String c s +:+ t) with (String c (s +:+ t)).
  cbn [no_percent] in *.
  apply andb_true_iff in Hs as [Hc Hs]. by rewrite Hc, IH.
Qed.

End format.

(** ** The log *)

Section logging.

Import Service.

Implicit Types (env : Env) (st : handler_state).

Lemma log_fault_no_percent e : log_fault e -> no_percent (exn_str e) = true.
Proof. intros [[H _]|[m ->]]; [done|apply codec_message_no_percent]. Qed.

Lemma log_fault_class e : log_fault e -> exn_class e <> "JSONDecodeError".
Proof. intros [[_ [H|H]]|[m ->]]; [by rewrite H..|done]. Qed.

(** [log_error] prints one line and returns, or raises and leaves the
    handler as it was. *)
Lemma log_error_cases env format st :
  (exists line, log_error env format st = printed_line line st)
  \/ (exists e, log_error env format st = (Raised e, st) /\ log_fault e).
Proof.
  unfold log_error, log_message, mbind, handler_bind, lift.
  destruct (percent_format format) as [line|e] eqn:E.
  - unfold py_print. destruct (printable (a_line line)); [left; by eexists|].
    destruct (stdout_error env (a_line line)) as [m|]; [|left; by eexists].
    right. eexists. split; [done|]. right. by eexists.
  - right. exists e. split; [done|]. left. by eapply percent_format_raises.
Qed.

(** A line without [%] and without lone surrogate is printed as it is. *)
Lemma log_error_plain env format st :
  no_percent format = true -> utf8 format = true ->
  log_error env format st = printed_line format st.
Proof.
  intros Hp Hu. unfold log_error, log_message, mbind, handler_bind, lift.
  rewrite percent_format_no_percent by done.
  unfold py_print. cbn [printable]. by rewrite Hu.
Qed.

(** The line of the last handler of [do_GET] and [do_POST] is plain when the
    message of the exception has no [%]. *)
Lemma log_error_internal env prefix e st :
  no_percent prefix = true -> utf8 prefix = true ->
  no_percent (exn_str e) = true ->
  log_error env (prefix +:+ exn_str e) st = printed_line (prefix +:+ exn_str e) st.
Proof.
  intros Hp Hu He. apply log_error_plain.
  - by apply no_percent_app.
  - apply utf8_app; [done|apply exn_str_utf8].
Qed.

End logging.

(** ** Sending a response *)

Section sending.

Import Service.

Implicit Types (env : Env) (st : handler_state).

Lemma send_json_response_encodable env data status st :
  encodable data = true ->
  send_json_response env data status st
  = (log_request status;; write (json_response status data)) st.
Proof.
  intros Hd. unfold send_json_response, mbind, handler_bind.
  destruct (log_request status st) as [[[]|e] st1]; [|done]. by rewrite Hd.
Qed.

Lemma send_json_response_wfile env data status st :
  encodable data = true ->
  exists st',
    send_json_response env data status st = (Returned (), st')
    /\ wfile st' = wfile st ++ [json_response status data]
    /\ analyzed st' = analyzed st.
Proof.
  intros Hd. rewrite send_json_response_encodable by done. by eexists.
Qed.

Lemma send_json_response_unencodable env data status st :
  encodable data = false ->
  exists st',
    send_json_response env data status st
    = (Raised (UnicodeEncodeError (encode_error env data)), st')
    /\ wfile st' = wfile st ++ [json_head status]
    /\ analyzed st' = analyzed st.
Proof.
  intros Hd. unfold send_json_response, mbind, handler_bind, log_request, printed_line.
  rewrite Hd. by eexists.
Qed.

Lemma send_error_response_wfile env status message st :
  utf8 message = true ->
  exists st',
    send_error_response env status message st = (Returned (), st')
    /\ wfile st' = wfile st ++ [json_response status {[ "error" := JStr message ]}]
    /\ analyzed st' = analyzed st.
Proof.
  intros Hm. apply send_json_response_wfile. by rewrite encodable_error.
Qed.

Lemma send_json_response_analyzed env data status st :
  analyzed (send_json_response env data status st).2 = analyzed st.
Proof.
  unfold send_json_response, mbind, handler_bind, log_request, printed_line.
  by destruct (encodable data).
Qed.

Lemma send_error_response_analyzed env status message st :
  analyzed (send_error_response env status message st).2 = analyzed st.
Proof. apply send_json_response_analyzed. Qed.

(** The message of the last handler can always be encoded. *)
Lemma internal_error_utf8 e : utf8 ("Внутренняя ошибка сервера: " +:+ exn_str e) = true.
Proof. apply utf8_app; [done|apply exn_str_utf8]. Qed.

End sending.

(** ** What a successful analysis returns *)

Section results.

Implicit Types (env : Env) (d res : gmap string json).

Lemma analysis_body_inv env p d :
  analysis_body env p = Returned d -> built_from_engine env d \/ error_shape d.
Proof.
  unfold analysis_body, mbind, outcome_bind.
  destruct (os_path_exists env p) as [[]|]; simpl; [| |done].
  - destruct (es_MonoLoader env p) as [audio|]; [|done].
    destruct (length audio =? 0)%nat.
    + intros [= <-]. right. eexists. reflexivity.
    + destruct (es_RhythmExtractor2013 env audio) as [r|] eqn:Er; [|done].
      intros [= <-]. left. by exists audio, r.
  - intros [= <-]. right. eexists. reflexivity.
Qed.

Lemma error_shape_lookup d : error_shape d -> d !! "audio_analysis" = None.
Proof. intros [m ->]. reflexivity. Qed.

Lemma success_shape_lookup env d : success_shape env d -> d !! "error" = None.
Proof. intros [r ->]. reflexivity. Qed.

Lemma built_from_engine_success env d : built_from_engine env d -> success_shape env d.
Proof. intros (audio & r & _ & ->). by exists r. Qed.

Lemma shapes_exclusive env d : success_shape env d -> error_shape d -> False.
Proof.
  intros Hs [m ->]. apply success_shape_lookup in Hs. discriminate Hs.
Qed.

(** The command's [analyze_audio] always returns, and returns one of the
    two shapes. *)
Lemma analyzer_analyze_audio_returns env audio_path :
  exists d, Analyzer.analyze_audio env audio_path = Returned d
            /\ (built_from_engine env d \/ error_shape d).
Proof.
  unfold Analyzer.analyze_audio, try_except.
  destruct (analysis_body env (JStr audio_path)) as [d|e] eqn:E.
  - exists d. split; [done|]. by eapply analysis_body_inv.
  - eexists. split; [done|]. right. eexists. reflexivity.
Qed.

Lemma service_analyze_audio_unfold env p st :
  Service.analyze_audio env p st
  = (if negb (ESSENTIA_AVAILABLE env)
     then mret {[ "error" := JStr "Essentia не установлена" ]}
     else Service.try_except (Service.lift (analysis_body env p))
            (fun e => Service.log_error env (fault_line env e);;
                      mret (analysis_failed e)))
      (Service.called_with p st).2.
Proof. reflexivity. Qed.

(** The service's [analyze_audio], case by case: the fixed record without
    the engine; the value of the analysis; for a fault of the engine, the
    error record if the line is logged, and the exception of the log if it
    is not. *)
Lemma service_analyze_audio_cases env p st :
  let st1 := (Service.called_with p st).2 in
  (ESSENTIA_AVAILABLE env = false
   /\ Service.analyze_audio env p st
      = (Returned {[ "error" := JStr "Essentia не установлена" ]}, st1))
  \/ (ESSENTIA_AVAILABLE env = true
      /\ ((exists d, analysis_body env p = Returned d
                     /\ Service.analyze_audio env p st = (Returned d, st1))
          \/ (exists e, analysis_body env p = Raised e
                        /\ ((exists line,
                               Service.log_error env (fault_line env e) st1
                               = Service.printed_line line st1
                               /\ Service.analyze_audio env p st
                                  = (Returned (analysis_failed e),
                                     (Service.printed_line line st1).2))
                            \/ (exists e',
                                  Service.log_error env (fault_line env e) st1
                                  = (Raised e', st1)
                                  /\ log_fault e'
                                  /\ Service.analyze_audio env p st = (Raised e', st1)))))).
Proof.
  intros st1. rewrite service_analyze_audio_unfold. fold st1.
  destruct (ESSENTIA_AVAILABLE env); cbn [negb]; [right|left; by split].
  split; [done|].
  unfold Service.try_except, Service.lift.
  destruct (analysis_body env p) as [d|e]; [left; by exists d|].
  right. exists e. split; [done|].
  unfold mbind, Service.handler_bind.
  destruct (log_error_cases env (fault_line env e) st1) as [[line Hl]|(e' & He' & Hf)].
  - left. exists line. split; [done|]. by rewrite Hl.
  - right. exists e'. split; [done|]. split; [done|]. by rewrite He'.
Qed.

Lemma service_analyze_audio_inv env p st d st' :
  Service.analyze_audio env p st = (Returned d, st') ->
  built_from_engine env d \/ error_shape d.
Proof.
  destruct (service_analyze_audio_cases env p st)
    as [[_ ->]|[_ [(d0 & Hb & ->)|(e & Hb & [(line & _ & ->)|(e' & _ & _ & ->)])]]].
  - intros [= <- _]. right. by eexists.
  - intros [= <- _]. by eapply analysis_body_inv.
  - intros [= <- _]. right. by eexists.
  - done.
Qed.

Lemma AnalysisResult_inv env res :
  AnalysisResult env res ->
  exists audio r,
    es_RhythmExtractor2013 env audio = Returned r /\ res = analysis_result env r.
Proof.
  assert (Hkey : forall d, built_from_engine env d \/ error_shape d ->
                           d !! "audio_analysis" = Some (JDict res) ->
                           exists audio r,
                             es_RhythmExtractor2013 env audio = Returned r
                             /\ res = analysis_result env r).
  { intros d [(audio & r & Hr & ->)|He] Hd.
    - rewrite lookup_singleton_eq in Hd. injection Hd as <-. by exists audio, r.
    - apply error_shape_lookup in He. congruence. }
  intros [(path & d & Hd & Hres)|(p & st & d & st' & Hd & Hres)].
  - destruct (analyzer_analyze_audio_returns env path) as (d' & Hd' & Hshape).
    rewrite Hd in Hd'. injection Hd' as <-. by apply (Hkey d).
  - apply service_analyze_audio_inv in Hd. by apply (Hkey d).
Qed.

End results.

(** * The claims *)

(** C1. The regularity of every interval sequence lies in [[0.0, 1.0]],
    whatever the scalar promotion of NumPy, and so does the
    [rhythm_regularity] field of every result dictionary that the command or
    the service produces. *)
Theorem rhythm_regularity_in_unit_interval :
  (forall p beats_intervals,
      PyFloat.in_unit_interval (rhythm_regularity p beats_intervals) = true)
  /\ (forall env res,
        AnalysisResult env res ->
        exists f, res !! "rhythm_regularity" = Some (JFloat f)
                  /\ PyFloat.in_unit_interval f = true).
Proof.
  assert (H : forall p a, PyFloat.in_unit_interval (rhythm_regularity p a) = true).
  { intros p a. unfold rhythm_regularity.
    destruct (1 <? length a)%nat; [apply clamp_unit_in_unit_interval|reflexivity]. }
  split; [exact H|].
  intros env res (audio & r & _ & ->)%AnalysisResult_inv.
  eexists. split; [reflexivity|apply H].
Qed.

Lemma sample_analysis_result :
  AnalysisResult Sample.env (analysis_result Sample.env Sample.steady).
Proof.
  left. exists "/audio/ok.wav".
  exists {[ "audio_analysis" := JDict (analysis_result Sample.env Sample.steady) ]}.
  split; [vm_compute; reflexivity|apply lookup_singleton_eq].
Defined.

Lemma sample_beatless_result :
  AnalysisResult Sample.env (analysis_result Sample.env Sample.beatless).
Proof.
  left. exists "/audio/hum.wav".
  exists {[ "audio_analysis" := JDict (analysis_result Sample.env Sample.beatless) ]}.
  split; [vm_compute; reflexivity|apply lookup_singleton_eq].
Defined.

Lemma rhythm_regularity_in_unit_interval_witness :
  exists f, analysis_result Sample.env Sample.steady !! "rhythm_regularity" = Some (JFloat f)
            /\ PyFloat.in_unit_interval f = true.
Proof.
  exact (proj2 rhythm_regularity_in_unit_interval Sample.env _ sample_analysis_result).
Defined.

(** C2. With fewer than two intervals the regularity is [0.0]; otherwise it
    is [1.0 - np.std / np.mean], the quotient taken in [float32], clamped
    into [[0.0, 1.0]].  [np.mean] is the mean and [np.std] the population
    standard deviation: the intervals [n, 3n] have mean [2n] and deviation
    [n], hence regularity [0.5], for every [n] up to 100; [1, 7] has mean 4,
    deviation 3 and regularity [0.25]; ten intervals alternating between 1
    and 3 have regularity [0.5]; [1, 1, 1, 9] has a deviation above its mean
    and regularity [0.0]; and the regularity of [[2.0, 2.0, 2.0]] is exactly
    [1.0]. *)
Theorem rhythm_regularity_formula :
  (forall p beats_intervals,
      (length beats_intervals < 2)%nat ->
      rhythm_regularity p beats_intervals = PyFloat.zero)
  /\ (forall beats_intervals,
        (2 <= length beats_intervals)%nat ->
        let std_over_mean p :=
          Float32.div (np.std p beats_intervals) (np.mean beats_intervals) in
        rhythm_regularity np.legacy beats_intervals
        = clamp_unit (PyFloat.sub PyFloat.one (float (std_over_mean np.legacy)))
        /\ rhythm_regularity np.weak beats_intervals
           = clamp_unit (float (Float32.sub Float32.one (std_over_mean np.weak))))
  /\ (forall x, clamped_into_unit x (clamp_unit x))
  /\ Forall (fun p =>
       Forall (fun n =>
           np.mean (Float32.of_Z <$> [n; 3 * n]) = Float32.of_Z (2 * n)
           /\ np.std p (Float32.of_Z <$> [n; 3 * n]) = Float32.of_Z n
           /\ rhythm_regularity p (Float32.of_Z <$> [n; 3 * n])
              = PyFloat.div PyFloat.one PyFloat.two)
         (seqZ 1 100)
       /\ np.mean (Float32.of_Z <$> [1; 7]) = Float32.of_Z 4
       /\ np.std p (Float32.of_Z <$> [1; 7]) = Float32.of_Z 3
       /\ rhythm_regularity p (Float32.of_Z <$> [1; 7])
          = PyFloat.div PyFloat.one (PyFloat.of_Z 4)
       /\ rhythm_regularity p (Float32.of_Z <$> [1; 3; 1; 3; 1; 3; 1; 3; 1; 3])
          = PyFloat.div PyFloat.one PyFloat.two
       /\ PyFloat.ltb (np.mean (Float32.of_Z <$> [1; 1; 1; 9]))
            (np.std p (Float32.of_Z <$> [1; 1; 1; 9])) = true
       /\ rhythm_regularity p (Float32.of_Z <$> [1; 1; 1; 9]) = PyFloat.zero
       /\ rhythm_regularity p (Float32.of_Z <$> [2; 2; 2]) = PyFloat.one)
     [np.legacy; np.weak].
Proof.
  split; [|split; [|split]].
  - intros p a Ha. unfold rhythm_regularity.
    destruct (Nat.ltb_spec 1 (length a)); [lia|done].
  - intros a Ha. unfold rhythm_regularity.
    destruct (Nat.ltb_spec 1 (length a)); [|lia]. by split.
  - apply clamp_unit_clamped.
  - apply (bool_decide_unpack _). vm_compute. exact I.
Qed.

Lemma rhythm_regularity_formula_witness :
  rhythm_regularity np.legacy [Float32.one] = PyFloat.zero
  /\ rhythm_regularity np.legacy [Float32.one; Float32.zero]
     = clamp_unit
         (PyFloat.sub PyFloat.one
            (float (Float32.div (np.std np.legacy [Float32.one; Float32.zero])
                      (np.mean [Float32.one; Float32.zero])))).
Proof.
  split.
  - apply (proj1 rhythm_regularity_formula np.legacy [Float32.one]). cbn [length]. lia.
  - refine (proj1 (proj1 (proj2 rhythm_regularity_formula) [Float32.one; Float32.zero] _)).
    cbn [length]. lia.
Defined.

(** C10. Two or more intervals that are all zero have mean zero; the
    quotient [std / mean] is NaN and so is [1.0 - std / mean]; [min(1.0,
    nan)] keeps [1.0] and [max(0.0, 1.0)] is [1.0]: the regularity is [1.0],
    not [0.0]. *)
Theorem all_zero_intervals_regularity p beats_intervals :
  (2 <= length beats_intervals)%nat ->
  Forall (fun x => PyFloat.is_zero x = true) beats_intervals ->
  np.mean beats_intervals = Float32.zero
  /\ Float32.div (np.std p beats_intervals) (np.mean beats_intervals) = S754_nan
  /\ raw_regularity p beats_intervals = S754_nan
  /\ PyFloat.py_min PyFloat.one S754_nan = PyFloat.one
  /\ PyFloat.py_max PyFloat.zero PyFloat.one = PyFloat.one
  /\ rhythm_regularity p beats_intervals = PyFloat.one
  /\ rhythm_regularity p beats_intervals <> PyFloat.zero.
Proof.
  intros Hlen Hzero.
  assert (Hne : beats_intervals <> []) by (destruct beats_intervals; [cbn in Hlen; lia|done]).
  assert (Hrr : rhythm_regularity p beats_intervals = PyFloat.one).
  { unfold rhythm_regularity.
    destruct (Nat.ltb_spec 1 (length beats_intervals)); [|lia].
    by rewrite raw_regularity_all_zero. }
  split; [by apply mean_all_zero|].
  split; [by apply quotient_all_zero|].
  split; [by apply raw_regularity_all_zero|].
  split; [reflexivity|]. split; [reflexivity|].
  split; [exact Hrr|]. by rewrite Hrr.
Qed.

Lemma all_zero_intervals_regularity_witness :
  rhythm_regularity np.legacy [S754_zero false; S754_zero true; S754_zero false]
  = PyFloat.one.
Proof.
  refine (proj1 (proj2 (proj2 (proj2 (proj2 (proj2
    (all_zero_intervals_regularity np.legacy
       [S754_zero false; S754_zero true; S754_zero false] _ _))))))).
  - simpl. lia.
  - repeat constructor.
Defined.

(** C4. In every successful result [beats_detected] is the length of
    [beat_timestamps_sec]; and when the engine returns one interval per pair
    of consecutive beats, [beats_detected] is one more than the number of
    intervals as soon as there is a beat, and there is no interval when there
    is at most one beat. *)
Theorem beats_detected_counts env res :
  AnalysisResult env res ->
  exists (n : Z) (timestamps intervals : list json),
    res !! "beats_detected" = Some (JInt n)
    /\ res !! "beat_timestamps_sec" = Some (JList timestamps)
    /\ res !! "bpm_intervals" = Some (JList intervals)
    /\ n = Z.of_nat (length timestamps)
    /\ (interval_per_beat_pair env ->
        (1 <= n -> n = Z.of_nat (length intervals) + 1)
        /\ (n <= 1 -> intervals = [])).
Proof.
  intros (audio & r & Hr & ->)%AnalysisResult_inv.
  eexists _, _, _.
  split; [reflexivity|]. split; [reflexivity|]. split; [reflexivity|].
  split; [by rewrite length_fmap|].
  intros Hpair. specialize (Hpair _ _ Hr). split; intros Hn.
  - rewrite length_fmap, Hpair. lia.
  - destruct (beats_intervals r); [done|]. cbn [length] in Hpair. lia.
Qed.

Lemma sample_interval_per_beat_pair : interval_per_beat_pair Sample.env.
Proof.
  intros audio r. cbn. destruct (decide _); intros [= <-]; reflexivity.
Defined.

Lemma sample_positive_intervals : positive_intervals Sample.env.
Proof.
  intros audio r. cbn. destruct (decide _); intros [= <-]; repeat constructor.
Defined.

Lemma beats_detected_counts_witness :
  exists (n : Z) (timestamps intervals : list json),
    analysis_result Sample.env Sample.steady !! "beats_detected" = Some (JInt n)
    /\ analysis_result Sample.env Sample.steady !! "beat_timestamps_sec"
       = Some (JList timestamps)
    /\ analysis_result Sample.env Sample.steady !! "bpm_intervals" = Some (JList intervals)
    /\ n = Z.of_nat (length timestamps)
    /\ (1 <= n -> n = Z.of_nat (length intervals) + 1)
    /\ (n <= 1 -> intervals = []).
Proof.
  destruct (beats_detected_counts Sample.env _ sample_analysis_result)
    as (n & ts & ivs & H1 & H2 & H3 & H4 & H5).
  exists n, ts, ivs. repeat split; try assumption;
    apply (H5 sample_interval_per_beat_pair).
Defined.

(** C8, as stated, fails twice: a successful result has no field named
    [beat_intervals]; and the intervals it does carry, under
    [bpm_intervals], are not [len(beat_timestamps_sec) - 1] many when the
    engine finds no beat: there are none, not minus one. *)
Lemma beat_intervals_claim_fails :
  ~ (forall env res, AnalysisResult env res -> is_Some (res !! "beat_intervals"))
  /\ ~ (forall env res,
          AnalysisResult env res ->
          exists intervals timestamps,
            res !! "bpm_intervals" = Some (JList intervals)
            /\ res !! "beat_timestamps_sec" = Some (JList timestamps)
            /\ Z.of_nat (length intervals) = Z.of_nat (length timestamps) - 1).
Proof.
  split; intros H.
  - destruct (H Sample.env _ sample_analysis_result) as [v Hv].
    vm_compute in Hv. discriminate Hv.
  - destruct (H Sample.env _ sample_beatless_result) as (ivs & ts & Hi & Ht & Hlen).
    vm_compute in Hi, Ht. injection Hi as <-. injection Ht as <-.
    cbn in Hlen. lia.
Qed.

(** C8, amended. Every successful result carries a field named
    [bpm_intervals], and none named [beat_intervals]; it holds, in order,
    the intervals the engine returned, each converted with [float].  Given
    that the engine returns positive [float32] intervals, one per pair of
    consecutive beats, the entries of the field are positive numbers, one
    fewer than the entries of [beat_timestamps_sec] when there is a beat, and
    none when there is no beat. *)
Theorem bpm_intervals_field env res :
  AnalysisResult env res ->
  res !! "beat_intervals" = None
  /\ exists audio r intervals timestamps,
       es_RhythmExtractor2013 env audio = Returned r
       /\ res !! "bpm_intervals" = Some (JList intervals)
       /\ res !! "beat_timestamps_sec" = Some (JList timestamps)
       /\ intervals = (fun interval => JFloat (float interval)) <$> beats_intervals r
       /\ (positive_intervals env -> Forall positive_number intervals)
       /\ (interval_per_beat_pair env ->
           (1 <= Z.of_nat (length timestamps) ->
            Z.of_nat (length intervals) = Z.of_nat (length timestamps) - 1)
           /\ (length timestamps = 0%nat -> intervals = [])).
Proof.
  intros (audio & r & Hr & ->)%AnalysisResult_inv.
  split; [reflexivity|].
  eexists audio, r, _, _.
  split; [done|]. split; [reflexivity|]. split; [reflexivity|]. split; [reflexivity|].
  split.
  - intros Hpos. apply Forall_fmap. eapply Forall_impl; [by eapply Hpos|].
    intros x Hx. eexists. split; [reflexivity|]. by apply float_positive.
  - intros Hpair. specialize (Hpair _ _ Hr). rewrite !length_fmap. split.
    + intros Hn. rewrite Hpair. lia.
    + intros Hn. rewrite Hn in Hpair. by destruct (beats_intervals r).
Qed.

Lemma bpm_intervals_field_witness :
  analysis_result Sample.env Sample.steady !! "beat_intervals" = None
  /\ exists intervals timestamps,
       analysis_result Sample.env Sample.steady !! "bpm_intervals" = Some (JList intervals)
       /\ analysis_result Sample.env Sample.steady !! "beat_timestamps_sec"
          = Some (JList timestamps)
       /\ Forall positive_number intervals
       /\ Z.of_nat (length intervals) = Z.of_nat (length timestamps) - 1.
Proof.
  destruct (bpm_intervals_field Sample.env _ sample_analysis_result)
    as (Hnone & audio & r & ivs & ts & _ & H1 & H2 & _ & H3 & H4).
  split; [exact Hnone|]. exists ivs, ts.
  split; [exact H1|]. split; [exact H2|]. split.
  - exact (H3 sample_positive_intervals).
  - apply (H4 sample_interval_per_beat_pair).
    vm_compute in H2. injection H2 as <-. cbn. lia.
Defined.

(** ** The boundary of [analyze_audio] *)

(** The command's [analyze_audio] returns for every path and every behaviour
    of the engine, and what it returns has exactly one of the two shapes. *)
Lemma analyzer_analyze_audio_one_shape env audio_path :
  exists d,
    Analyzer.analyze_audio env audio_path = Returned d
    /\ (success_shape env d \/ error_shape d)
    /\ ~ (success_shape env d /\ error_shape d).
Proof.
  destruct (analyzer_analyze_audio_returns env audio_path) as (d & Hd & Hshape).
  exists d. split; [done|]. split.
  - destruct Hshape as [Hs|He]; [left|by right]. by eapply built_from_engine_success.
  - intros [Hs He]. by eapply shapes_exclusive.
Qed.

(** When the service's [analyze_audio] returns, it returns exactly one of the
    two shapes. *)
Lemma service_analyze_audio_one_shape env p st d st' :
  Service.analyze_audio env p st = (Returned d, st') ->
  (success_shape env d \/ error_shape d) /\ ~ (success_shape env d /\ error_shape d).
Proof.
  intros [Hs|He]%service_analyze_audio_inv; (split; [|intros [? ?]; by eapply shapes_exclusive]).
  - left. by eapply built_from_engine_success.
  - by right.
Qed.

(** The line logged for a fault holds no lone surrogate. *)
Lemma fault_line_utf8 env e : utf8 (fault_line env e) = true.
Proof.
  unfold fault_line. apply utf8_app; [done|].
  apply utf8_app; [apply exn_str_utf8|].
  apply utf8_app; [done|apply text_str_utf8].
Qed.

Lemma log_error_fault_line env e st :
  no_percent (fault_line env e) = true ->
  Service.log_error env (fault_line env e) st
  = Service.printed_line (fault_line env e) st.
Proof. intros Hp. apply log_error_plain; [done|apply fault_line_utf8]. Qed.

(** The service's [analyze_audio] returns, with exactly one of the two
    shapes, whenever the line it logs for a fault has no [%] in it. *)
Lemma service_analyze_audio_returns env p st :
  (forall e, analysis_body env p = Raised e -> no_percent (fault_line env e) = true) ->
  exists d st',
    Service.analyze_audio env p st = (Returned d, st')
    /\ (success_shape env d \/ error_shape d)
    /\ ~ (success_shape env d /\ error_shape d).
Proof.
  intros Hlog.
  assert (exists d st', Service.analyze_audio env p st = (Returned d, st'))
    as (d & st' & Hd).
  { destruct (service_analyze_audio_cases env p st)
      as [[_ ->]|[_ [(d0 & Hb & ->)|(e & Hb & [(line & _ & ->)|(e' & He' & _ & _)])]]];
      try by eexists _, _.
    rewrite log_error_fault_line in He' by by apply Hlog. discriminate He'. }
  exists d, st'. split; [done|]. by eapply service_analyze_audio_one_shape.
Qed.

(** C3 fails in the service: the file [/audio/50%.mp3] exists and the loader
    raises with a message that quotes its name; the handler of [analyze_audio]
    passes that message to [log_error] as a format string, [format % ()]
    raises, and the exception leaves [analyze_audio]. *)
Theorem service_analyze_audio_fault_escapes :
  (Service.analyze_audio Sample.env (JStr "/audio/50%.mp3") Service.initial).1
  = Raised (Exception "TypeError" "not enough arguments for format string").
Proof. vm_compute. reflexivity. Qed.

(** ** The exit status of the command *)

(** C6, as stated, fails: without the engine the command exits with status 1
    although an argument is supplied. *)
Lemma exit_status_without_engine :
  ~ (forall env sys_argv,
        Analyzer.exit_status (Analyzer.script env sys_argv) = 1
        <-> (length sys_argv < 2)%nat).
Proof.
  intros H.
  destruct (H Sample.env_without_engine ["essentia_analyzer.py"; "/audio/ok.wav"]) as [H1 _].
  specialize (H1 eq_refl). cbn in H1. lia.
Qed.

Section command.

Implicit Types (env : Env) (d : gmap string json).

Lemma test_essentia_returns env :
  Analyzer.test_essentia env
  = Returned
      match es_probe env with
      | Returned _ => {[ "status" := JStr "ok"; "message" := JStr "Essentia доступна" ]}
      | Raised e => {[ "error" := JStr ("Essentia недоступна: " +:+ exn_str e) ]}
      end.
Proof.
  unfold Analyzer.test_essentia, try_except, mbind, outcome_bind.
  by destruct (es_probe env).
Qed.

Lemma test_essentia_encodable env d :
  Analyzer.test_essentia env = Returned d -> encodable d = true.
Proof.
  rewrite test_essentia_returns. intros [= <-].
  destruct (es_probe env) as [[]|e]; [done|].
  rewrite encodable_error. apply utf8_app; [done|apply exn_str_utf8].
Qed.

(** What the analysis returns can be encoded when the path can. *)
Lemma analysis_body_encodable env p d :
  utf8 (py_str env p) = true ->
  analysis_body env p = Returned d -> encodable d = true.
Proof.
  intros Hp. unfold analysis_body, mbind, outcome_bind.
  destruct (os_path_exists env p) as [[]|]; cbn [negb]; [| |done].
  - destruct (es_MonoLoader env p) as [audio|]; [|done].
    destruct (length audio =? 0)%nat; [by intros [= <-]|].
    destruct (es_RhythmExtractor2013 env audio) as [r|]; [|done].
    intros [= <-]. apply encodable_analysis_result.
  - intros [= <-]. rewrite encodable_error. by apply utf8_app.
Qed.

Lemma analysis_failed_encodable e : encodable (analysis_failed e) = true.
Proof.
  unfold analysis_failed. rewrite encodable_error.
  apply utf8_app; [done|apply exn_str_utf8].
Qed.

Lemma analyzer_analyze_audio_encodable env audio_path d :
  utf8 audio_path = true ->
  Analyzer.analyze_audio env audio_path = Returned d -> encodable d = true.
Proof.
  intros Hp. unfold Analyzer.analyze_audio, try_except.
  destruct (analysis_body env (JStr audio_path)) as [d0|e] eqn:E.
  - intros [= <-]. eapply analysis_body_encodable; [|exact E]. exact Hp.
  - intros [= <-]. apply analysis_failed_encodable.
Qed.

(** A document that can be encoded is printed. *)
Lemma py_print_encodable env d :
  encodable d = true -> py_print env (a_document d) = Returned ().
Proof. intros Hd. unfold py_print. cbn [printable]. by rewrite Hd. Qed.

(** [main] with an argument: what it computes, it prints, if that can be
    encoded, and the status is 0. *)
Lemma analyzer_main_prints env prog arg rest d :
  (if decide (arg = "--test") then Analyzer.test_essentia env
   else Analyzer.analyze_audio env arg) = Returned d ->
  encodable d = true ->
  Analyzer.main env (prog :: arg :: rest) = Analyzer.Process [d] 0.
Proof.
  intros Hd He. unfold Analyzer.main.
  cbn [length Nat.ltb Nat.leb lookup list_lookup].
  unfold mbind at 1, outcome_bind at 1. rewrite Hd.
  unfold mbind, outcome_bind. by rewrite py_print_encodable.
Qed.

Lemma analyzer_main_exit_status env sys_argv :
  (2 <= length sys_argv)%nat ->
  (forall arg, sys_argv !! 1%nat = Some arg -> utf8 arg = true) ->
  exists d, Analyzer.main env sys_argv = Analyzer.Process [d] 0.
Proof.
  intros Hlen Harg.
  destruct sys_argv as [|prog [|arg rest]]; cbn in Hlen; try lia.
  specialize (Harg arg eq_refl).
  destruct (decide (arg = "--test")) as [Ht|Ht] eqn:E.
  - eexists. eapply analyzer_main_prints.
    + rewrite E. apply test_essentia_returns.
    + eapply test_essentia_encodable, test_essentia_returns.
  - destruct (analyzer_analyze_audio_returns env arg) as (d & Hd & _).
    exists d. eapply analyzer_main_prints.
    + by rewrite E.
    + by eapply analyzer_analyze_audio_encodable.
Qed.

End command.

(** C6, amended. When NumPy and the engine can be imported, the command
    exits with status 1 when no argument is supplied, printing the usage
    document, and with status 0, printing one document, in every invocation
    whose first argument holds no lone surrogate, whatever the outcome of
    the analysis; among these invocations the status is 1 exactly when no
    argument is supplied.  When the engine cannot be imported the command
    exits with status 1 whatever the arguments, after printing an error
    document if NumPy can be imported, and nothing if it cannot. *)
Theorem exit_status_policy env sys_argv :
  (ESSENTIA_AVAILABLE env = true ->
   ((length sys_argv < 2)%nat ->
    Analyzer.script env sys_argv = Analyzer.Process [Analyzer.usage] 1)
   /\ ((2 <= length sys_argv)%nat ->
       (forall arg, sys_argv !! 1%nat = Some arg -> utf8 arg = true) ->
       exists d, Analyzer.script env sys_argv = Analyzer.Process [d] 0)
   /\ ((forall arg, sys_argv !! 1%nat = Some arg -> utf8 arg = true) ->
       Analyzer.exit_status (Analyzer.script env sys_argv) = 1
       <-> (length sys_argv < 2)%nat))
  /\ (ESSENTIA_AVAILABLE env = false ->
      Analyzer.exit_status (Analyzer.script env sys_argv) = 1
      /\ (modules env = numpy_only ->
          Analyzer.script env sys_argv
          = Analyzer.Process [ {[ "error" := JStr "Essentia не установлена" ]} ] 1)
      /\ (modules env = no_numpy ->
          Analyzer.script env sys_argv = Analyzer.Process [] 1)).
Proof.
  unfold ESSENTIA_AVAILABLE, Analyzer.script. split.
  - destruct (modules env); try discriminate. intros _.
    assert (Husage : (length sys_argv < 2)%nat ->
                     Analyzer.main env sys_argv = Analyzer.Process [Analyzer.usage] 1).
    { intros Hlt. unfold Analyzer.main.
      destruct (Nat.ltb_spec (length sys_argv) 2); [done|lia]. }
    split; [exact Husage|]. split; [by apply analyzer_main_exit_status|].
    intros Harg. destruct (le_lt_dec 2 (length sys_argv)) as [Hge|Hlt].
    + destruct (analyzer_main_exit_status env sys_argv Hge Harg) as [d ->].
      cbn [Analyzer.exit_status]. split; intros; lia.
    + rewrite (Husage Hlt). cbn [Analyzer.exit_status]. by split.
  - destruct (modules env); try discriminate; intros _; by repeat split.
Qed.

Lemma exit_status_policy_witness :
  Analyzer.script Sample.env ["essentia_analyzer.py"] = Analyzer.Process [Analyzer.usage] 1
  /\ (exists d,
        Analyzer.script Sample.env ["essentia_analyzer.py"; "/audio/none.mp3"]
        = Analyzer.Process [d] 0)
  /\ Analyzer.script Sample.env_without_engine ["essentia_analyzer.py"; "/audio/ok.wav"]
     = Analyzer.Process [ {[ "error" := JStr "Essentia не установлена" ]} ] 1
  /\ Analyzer.script Sample.env_without_numpy ["essentia_analyzer.py"; "/audio/ok.wav"]
     = Analyzer.Process [] 1.
Proof.
  split; [|split; [|split]].
  - apply (proj1 (proj1 (exit_status_policy Sample.env ["essentia_analyzer.py"]) eq_refl)).
    cbn [length]. lia.
  - apply (proj1 (proj2 (proj1 (exit_status_policy Sample.env
                                  ["essentia_analyzer.py"; "/audio/none.mp3"]) eq_refl))).
    + cbn [length]. lia.
    + intros arg [= <-]. reflexivity.
  - apply (proj1 (proj2 (proj2 (exit_status_policy Sample.env_without_engine
                                  ["essentia_analyzer.py"; "/audio/ok.wav"]) eq_refl))).
    reflexivity.
  - apply (proj2 (proj2 (proj2 (exit_status_policy Sample.env_without_numpy
                                  ["essentia_analyzer.py"; "/audio/ok.wav"]) eq_refl))).
    reflexivity.
Defined.

(** ** Validation of [POST /analyze] *)

Section post.

Implicit Types (env : Env) (request : Service.PostRequest) (st : Service.handler_state).

(** A response whose record can be encoded is sent by [do_POST] as it is by
    [send_error_response]. *)
Lemma try_except_send_error_response env status message on_exn st :
  utf8 message = true ->
  Service.try_except (Service.send_error_response env status message) on_exn st
  = Service.send_error_response env status message st.
Proof.
  intros Hm. unfold Service.try_except.
  by destruct (send_error_response_wfile env status message st Hm) as (st' & -> & _).
Qed.

(** A body on which [json.loads] raises [JSONDecodeError] is answered with
    400, and the analysis is not called. *)
Lemma post_malformed_json env request st n e :
  Service.path request = "/analyze" ->
  Service.content_length request = Returned n ->
  Service.json_loads_body request n = Raised e ->
  exn_class e = "JSONDecodeError" ->
  Service.do_POST env request st
  = Service.send_error_response env 400 "Неверный JSON формат" st.
Proof.
  intros Hpath Hlen Hbody Hclass.
  rewrite <- (try_except_send_error_response env 400 "Неверный JSON формат"
                (fun e =>
                   Service.log_error env ("Ошибка при обработке POST запроса: " +:+ exn_str e);;
                   Service.send_error_response env 500
                     ("Внутренняя ошибка сервера: " +:+ exn_str e)) st eq_refl).
  unfold Service.do_POST, Service.try_except, Service.try_except_JSONDecodeError,
    mbind, Service.handler_bind, Service.lift.
  rewrite Hpath, Hlen, Hbody.
  destruct (decide ("/analyze" = "/analyze")) as [_|Hne]; [|by destruct Hne].
  destruct (decide (exn_class e = "JSONDecodeError")) as [_|Hne]; [reflexivity|by destruct Hne].
Qed.

(** A JSON object without the key [file_path] is answered with 400 and the
    message of the claim, and the analysis is not called. *)
Lemma post_missing_field env request st n d :
  Service.path request = "/analyze" ->
  Service.content_length request = Returned n ->
  Service.json_loads_body request n = Returned (JDict d) ->
  d !! "file_path" = None ->
  Service.do_POST env request st
  = Service.send_error_response env 400 "Поле 'file_path' обязательно" st.
Proof.
  intros Hpath Hlen Hbody Hfield.
  destruct (send_error_response_wfile env 400 "Поле 'file_path' обязательно" st eq_refl)
    as (st' & Hsend & _).
  unfold Service.do_POST, Service.try_except, Service.try_except_JSONDecodeError,
    mbind, Service.handler_bind, Service.lift, py_get.
  rewrite Hpath, Hlen, Hbody, Hfield.
  destruct (decide ("/analyze" = "/analyze")) as [_|Hne]; [|by destruct Hne].
  cbn [default from_option id truthy negb]. rewrite Hsend. reflexivity.
Qed.

End post.

(** C7 fails on two bodies.  The body [[]] is well-formed JSON without a
    [file_path] field: [data.get] raises [AttributeError], which the inner
    handler does not catch, and the answer is 500.  A body that is not valid
    UTF-8 is not well-formed JSON: [decode] raises [UnicodeDecodeError], and
    the answer is 500 as well. *)
Theorem post_validation_answers_500 :
  Service.wfile (Service.do_POST Sample.env (Sample.post (JList [])) Service.initial).2
  = [ Service.json_response 500
        {[ "error" := JStr "Внутренняя ошибка сервера: 'list' object has no attribute 'get'" ]} ]
  /\ Service.status_code <$>
       Service.wfile (Service.do_POST Sample.env Sample.post_not_utf8 Service.initial).2
     = [500].
Proof. split; vm_compute; reflexivity. Qed.

(** ** What a handler writes *)

Section written.

Import Service.

Implicit Types (env : Env) (st : handler_state).

Lemma silent_ret {A} (a : A) : silent (mret a).
Proof. by intros st. Qed.

Lemma silent_lift {A} (o : outcome A) : silent (lift o).
Proof. by intros st. Qed.

Lemma silent_called_with p : silent (called_with p).
Proof. by intros st. Qed.

Lemma silent_log_error env format : silent (log_error env format).
Proof.
  intros st.
  by destruct (log_error_cases env format st) as [[line ->]|(e & -> & _)].
Qed.

Lemma silent_bind {A B} (m : handler A) (f : A -> handler B) :
  silent m -> (forall a, silent (f a)) -> silent (m ≫= f).
Proof.
  intros Hm Hf st. unfold mbind, handler_bind. specialize (Hm st).
  destruct (m st) as [[a|e] st1]; cbn [snd] in *; [|done].
  by rewrite Hf.
Qed.

Lemma silent_try_except {A} (body : handler A) (on_exn : exn -> handler A) :
  silent body -> (forall e, silent (on_exn e)) -> silent (Service.try_except body on_exn).
Proof.
  intros Hm Hf st. unfold Service.try_except. specialize (Hm st).
  destruct (body st) as [[a|e] st1]; cbn [snd] in *; [done|].
  by rewrite Hf.
Qed.

Lemma silent_analyze_audio env p : silent (analyze_audio env p).
Proof.
  unfold analyze_audio.
  apply silent_bind; [apply silent_called_with|intros _].
  destruct (negb _); [apply silent_ret|].
  apply silent_try_except; [apply silent_lift|intros e].
  apply silent_bind; [apply silent_log_error|intros _; apply silent_ret].
Qed.

Context (P : Response -> Prop).

Lemma writes_nothing {A} (m : handler A) : silent m -> writes_all P m.
Proof. intros Hm st. exists []. by rewrite Hm, app_nil_r. Qed.

(** [send_json_response] writes the response, or its head alone when the
    data cannot be encoded. *)
Lemma writes_send_json_response env data status :
  (encodable data = true -> P (json_response status data)) ->
  (encodable data = false -> P (json_head status)) ->
  writes_all P (send_json_response env data status).
Proof.
  intros Hr Hh st. destruct (encodable data) eqn:E.
  - destruct (send_json_response_wfile env data status st E) as (st' & -> & Hw & _).
    exists [json_response status data]. split; [done|]. repeat constructor. by apply Hr.
  - destruct (send_json_response_unencodable env data status st E) as (st' & -> & Hw & _).
    exists [json_head status]. split; [done|]. repeat constructor. by apply Hh.
Qed.

Lemma writes_send_error_response env status message :
  utf8 message = true ->
  P (json_response status {[ "error" := JStr message ]}) ->
  writes_all P (send_error_response env status message).
Proof.
  intros Hm Hr. apply writes_send_json_response; [done|].
  rewrite encodable_error, Hm. discriminate.
Qed.

(** Sequencing, when the first part returns only values that satisfy [Q]. *)
Lemma writes_bind_post {A B} (Q : A -> Prop) (m : handler A) (f : A -> handler B) :
  (forall st a st', m st = (Returned a, st') -> Q a) ->
  writes_all P m -> (forall a, Q a -> writes_all P (f a)) -> writes_all P (m ≫= f).
Proof.
  intros HQ Hm Hf st. unfold mbind, handler_bind.
  destruct (Hm st) as (new1 & H1 & F1).
  destruct (m st) as [[a|e] st1] eqn:E; cbn [snd] in *; [|by exists new1].
  destruct (Hf a (HQ _ _ _ E) st1) as (new2 & H2 & F2).
  exists (new1 ++ new2). rewrite H2, H1, app_assoc.
  split; [done|by apply Forall_app].
Qed.

Lemma writes_bind {A B} (m : handler A) (f : A -> handler B) :
  writes_all P m -> (forall a, writes_all P (f a)) -> writes_all P (m ≫= f).
Proof.
  intros Hm Hf. apply (writes_bind_post (fun _ => True)); [done|done|]. intros a _. apply Hf.
Qed.

Lemma writes_try_except {A} (body : handler A) (on_exn : exn -> handler A) :
  writes_all P body -> (forall e, writes_all P (on_exn e)) ->
  writes_all P (Service.try_except body on_exn).
Proof.
  intros Hm Hf st. unfold Service.try_except.
  destruct (Hm st) as (new1 & H1 & F1).
  destruct (body st) as [[a|e] st1]; cbn [snd] in *; [by exists new1|].
  destruct (Hf e st1) as (new2 & H2 & F2).
  exists (new1 ++ new2). rewrite H2, H1, app_assoc.
  split; [done|by apply Forall_app].
Qed.

Lemma writes_try_except_JSONDecodeError {A} (body on_exn : handler A) :
  writes_all P body -> writes_all P on_exn ->
  writes_all P (try_except_JSONDecodeError body on_exn).
Proof.
  intros Hm Hf st. unfold try_except_JSONDecodeError.
  destruct (Hm st) as (new1 & H1 & F1).
  destruct (body st) as [[a|e] st1]; cbn [snd] in *; [by exists new1|].
  destruct (decide _); [|by exists new1].
  destruct (Hf st1) as (new2 & H2 & F2).
  exists (new1 ++ new2). rewrite H2, H1, app_assoc.
  split; [done|by apply Forall_app].
Qed.

(** The last handler writes the internal-error record, if anything. *)
Lemma writes_last_handler env prefix e :
  P (json_response 500 (internal_error e)) -> writes_all P (last_handler env prefix e).
Proof.
  intros Hr. apply writes_bind; [apply writes_nothing, silent_log_error|intros _].
  apply writes_send_error_response; [apply internal_error_utf8|done].
Qed.

(** The health check writes the health record, or an error record with
    status 503. *)
Lemma writes_send_health_check env :
  P (json_response 200 health_data) ->
  (forall message, P (json_response 503 {[ "error" := JStr message ]})) ->
  writes_all P (send_health_check env).
Proof.
  intros Hok Herr. unfold send_health_check.
  destruct (negb _); [by apply writes_send_error_response|].
  apply writes_try_except.
  - apply writes_bind; [apply writes_nothing, silent_lift|intros _].
    apply writes_send_json_response; [done|]. intros H. vm_compute in H. discriminate H.
  - intros e. apply writes_send_error_response; [|done].
    apply utf8_app; [done|apply exn_str_utf8].
Qed.

End written.

(** ** The shape of the handlers *)

Section routes.

Import Service.

Implicit Types (env : Env) (st : handler_state).

Lemma truthy_nonempty s : s <> "" -> truthy (JStr s) = true.
Proof. intros Hne. by destruct s. Qed.

(** [do_GET] and [do_POST], with the handler and the common part named. *)
Lemma do_GET_unfold env url :
  do_GET env url
  = Service.try_except
      (request ← lift url;
       if decide (parsed_path request = "/health") then send_health_check env
       else if decide (parsed_path request = "/analyze") then
         audio_path ← lift (file_param request);
         if negb (truthy audio_path)
         then send_error_response env 400 "Параметр 'file' обязателен"
         else analyze_and_send env audio_path
       else send_error_response env 404 "Эндпоинт не найден")
      (last_handler env "Ошибка при обработке GET запроса: ").
Proof. reflexivity. Qed.

Lemma do_POST_unfold env request :
  do_POST env request
  = Service.try_except
      (if decide (path request = "/analyze") then
         n ← lift (content_length request);
         try_except_JSONDecodeError
           (data ← lift (json_loads_body request n);
            audio_path ← lift (py_get data "file_path");
            if negb (truthy audio_path)
            then send_error_response env 400 "Поле 'file_path' обязательно"
            else analyze_and_send env audio_path)
           (send_error_response env 400 "Неверный JSON формат")
       else send_error_response env 404 "Эндпоинт не найден")
      (last_handler env "Ошибка при обработке POST запроса: ").
Proof. reflexivity. Qed.

(** A well-formed [GET /analyze] is the common part under the last
    handler. *)
Lemma do_GET_analyze env request file st :
  get_analyze request file ->
  do_GET env (Returned request) st
  = Service.try_except (analyze_and_send env (JStr file))
      (last_handler env "Ошибка при обработке GET запроса: ") st.
Proof.
  intros (Hpath & Hne & more & Hfile).
  rewrite do_GET_unfold. unfold Service.try_except.
  unfold mbind at 1 2, handler_bind at 1 2, lift, file_param.
  rewrite Hpath, Hfile.
  destruct (decide ("/analyze" = "/health")) as [Heq|_]; [discriminate Heq|].
  destruct (decide ("/analyze" = "/analyze")) as [_|Hneq]; [|by destruct Hneq].
  by rewrite (truthy_nonempty _ Hne).
Qed.

(** A well-formed [POST /analyze] is the common part under the two
    handlers. *)
Lemma do_POST_analyze env request file st :
  post_analyze request file ->
  do_POST env request st
  = Service.try_except
      (try_except_JSONDecodeError (analyze_and_send env (JStr file))
         (send_error_response env 400 "Неверный JSON формат"))
      (last_handler env "Ошибка при обработке POST запроса: ") st.
Proof.
  intros (Hpath & Hne & n & d & Hlen & Hbody & Hfield).
  rewrite do_POST_unfold. unfold Service.try_except.
  rewrite Hpath.
  destruct (decide ("/analyze" = "/analyze")) as [_|Hneq]; [|by destruct Hneq].
  unfold mbind at 1, handler_bind at 1, lift. rewrite Hlen.
  unfold try_except_JSONDecodeError.
  unfold mbind at 1 2, handler_bind at 1 2, py_get. rewrite Hbody, Hfield.
  cbn [default from_option id]. by rewrite (truthy_nonempty _ Hne).
Qed.

End routes.

(** ** The answer to a well-formed [/analyze] request *)

Section analyze_requests.

Import Service.

Implicit Types (env : Env) (st : handler_state).

Lemma log_error_outcome env format st :
  (log_error env format st).1 = (log_error env format initial).1.
Proof.
  unfold log_error, log_message, mbind, handler_bind, lift.
  destruct (percent_format format) as [line|e]; [|done].
  by destruct (py_print env (a_line line)).
Qed.

(** What [analyze_audio] returns or raises does not depend on what the
    handler did before. *)
Lemma analyze_audio_outcome env p st :
  (analyze_audio env p st).1 = (analyze_audio env p initial).1.
Proof.
  rewrite !service_analyze_audio_unfold.
  destruct (negb _); [done|].
  unfold Service.try_except, lift.
  destruct (analysis_body env p); [done|].
  unfold mbind, handler_bind.
  pose proof (log_error_outcome env (fault_line env e) (called_with p st).2) as H1.
  pose proof (log_error_outcome env (fault_line env e) (called_with p initial).2) as H2.
  destruct (log_error env _ (called_with p st).2) as [[[]|e1] st1],
           (log_error env _ (called_with p initial).2) as [[[]|e2] st2];
    cbn [fst] in *; first [congruence|reflexivity].
Qed.

Lemma analyze_audio_raises env p st e st' :
  analyze_audio env p st = (Raised e, st') -> log_fault e.
Proof.
  destruct (service_analyze_audio_cases env p st)
    as [[_ ->]|[_ [(d0 & Hb & ->)|(e0 & Hb & [(line & _ & ->)|(e' & _ & Hf & ->)])]]];
    try discriminate.
  by intros [= <- _].
Qed.


(** The common part, case by case. *)
Lemma analyze_and_send_cases env p st :
  match (analyze_audio env p initial).1 with
  | Returned d =>
      if encodable d
      then exists st',
             analyze_and_send env p st = (Returned (), st')
             /\ wfile st' = wfile st ++ [json_response 200 d]
      else exists st',
             analyze_and_send env p st
             = (Raised (UnicodeEncodeError (encode_error env d)), st')
             /\ wfile st' = wfile st ++ [json_head 200]
  | Raised e =>
      exists st',
        analyze_and_send env p st = (Raised e, st')
        /\ wfile st' = wfile st /\ log_fault e
  end.
Proof.
  rewrite <- (analyze_audio_outcome env p st).
  pose proof (silent_analyze_audio env p st) as Hw.
  pose proof (analyze_audio_raises env p st) as Hr.
  unfold analyze_and_send, mbind, handler_bind.
  destruct (analyze_audio env p st) as [[d|e] st1]; cbn [fst snd] in *.
  - destruct (encodable d) eqn:E.
    + destruct (send_json_response_wfile env d 200 st1 E) as (st' & -> & Hw' & _).
      exists st'. by rewrite Hw', Hw.
    + destruct (send_json_response_unencodable env d 200 st1 E) as (st' & -> & Hw' & _).
      exists st'. by rewrite Hw', Hw.
  - exists st1. split; [done|]. split; [done|]. by eapply Hr.
Qed.

(** The last handler logs and answers when the message of the exception has
    no [%]. *)
Lemma last_handler_plain env prefix e st :
  no_percent prefix = true -> utf8 prefix = true ->
  no_percent (exn_str e) = true ->
  exists st',
    last_handler env prefix e st = (Returned (), st')
    /\ wfile st' = wfile st ++ [json_response 500 (internal_error e)]
    /\ analyzed st' = analyzed st.
Proof.
  intros Hp Hu He. unfold last_handler, mbind, handler_bind.
  rewrite log_error_internal by done. cbn [printed_line].
  destruct (send_error_response_wfile env 500
              ("Внутренняя ошибка сервера: " +:+ exn_str e)
              (printed_line (prefix +:+ exn_str e) st).2 (internal_error_utf8 e))
    as (st' & Hs & Hw & Ha).
  exists st'. split; [exact Hs|]. split; [exact Hw|exact Ha].
Qed.

(** The common part under the last handler returns, having written the
    responses of the request. *)
Lemma analyze_under_last_handler env prefix file st :
  no_percent prefix = true -> utf8 prefix = true ->
  exists st',
    Service.try_except (analyze_and_send env (JStr file)) (last_handler env prefix) st
    = (Returned (), st')
    /\ wfile st' = wfile st ++ analyze_responses env file.
Proof.
  intros Hp Hu. pose proof (analyze_and_send_cases env (JStr file) st) as H.
  unfold analyze_responses, Service.try_except.
  destruct ((analyze_audio env (JStr file) initial).1) as [d|e].
  - destruct (encodable d).
    + destruct H as (st1 & -> & Hw). by exists st1.
    + destruct H as (st1 & -> & Hw).
      destruct (last_handler_plain env prefix (UnicodeEncodeError (encode_error env d)) st1
                  Hp Hu (codec_message_no_percent _)) as (st' & -> & Hw' & _).
      exists st'. split; [done|]. by rewrite Hw', Hw, <- app_assoc.
  - destruct H as (st1 & -> & Hw & Hf).
    destruct (last_handler_plain env prefix e st1 Hp Hu (log_fault_no_percent _ Hf))
      as (st' & -> & Hw' & _).
    exists st'. split; [done|]. by rewrite Hw', Hw.
Qed.

(** The inner handler of [do_POST] does not catch what the common part
    raises. *)
Lemma analyze_under_JSONDecodeError env p on_exn st :
  try_except_JSONDecodeError (analyze_and_send env p) on_exn st
  = analyze_and_send env p st.
Proof.
  pose proof (analyze_and_send_cases env p st) as H.
  unfold try_except_JSONDecodeError.
  destruct ((analyze_audio env p initial).1) as [d|e].
  - destruct (encodable d); destruct H as (st1 & -> & _); [done|].
    by destruct (decide _).
  - destruct H as (st1 & -> & _ & Hf).
    destruct (decide _) as [Hc|_]; [|done]. by apply log_fault_class in Hf.
Qed.

Lemma do_GET_analyze_responses env request file st :
  get_analyze request file ->
  exists st',
    do_GET env (Returned request) st = (Returned (), st')
    /\ wfile st' = wfile st ++ analyze_responses env file.
Proof.
  intros Hreq. rewrite (do_GET_analyze env request file st Hreq).
  by apply analyze_under_last_handler.
Qed.

Lemma do_POST_analyze_responses env request file st :
  post_analyze request file ->
  exists st',
    do_POST env request st = (Returned (), st')
    /\ wfile st' = wfile st ++ analyze_responses env file.
Proof.
  intros Hreq. rewrite (do_POST_analyze env request file st Hreq).
  unfold Service.try_except at 1. rewrite analyze_under_JSONDecodeError.
  by apply analyze_under_last_handler.
Qed.

(** The responses when the analysis itself returns a record that can be
    encoded. *)
Lemma analyze_responses_returned env file d :
  ESSENTIA_AVAILABLE env = true ->
  analysis_body env (JStr file) = Returned d ->
  encodable d = true ->
  analyze_responses env file = [json_response 200 d].
Proof.
  intros Havail Hbody Hd. unfold analyze_responses.
  rewrite service_analyze_audio_unfold, Havail. cbn [negb].
  unfold Service.try_except, lift. rewrite Hbody. cbn [fst]. by rewrite Hd.
Qed.

End analyze_requests.

(** ** A path that does not exist *)

Section missing_file.

Context (env : Env) (audio_path : string).
Hypothesis engine_available : ESSENTIA_AVAILABLE env = true.
Hypothesis missing : os_path_exists env (JStr audio_path) = Returned false.

Lemma analysis_body_missing :
  analysis_body env (JStr audio_path) = Returned (not_found audio_path).
Proof using missing.
  unfold analysis_body, mbind, outcome_bind. rewrite missing. reflexivity.
Qed.

Lemma analyzer_analyze_audio_missing :
  Analyzer.analyze_audio env audio_path = Returned (not_found audio_path).
Proof using missing.
  unfold Analyzer.analyze_audio. rewrite analysis_body_missing. reflexivity.
Qed.

Lemma service_analyze_audio_missing st :
  (Service.analyze_audio env (JStr audio_path) st).1 = Returned (not_found audio_path).
Proof using engine_available missing.
  rewrite service_analyze_audio_unfold, engine_available. cbn [negb].
  unfold Service.try_except, Service.lift. by rewrite analysis_body_missing.
Qed.

Hypothesis path_utf8 : utf8 audio_path = true.

Lemma not_found_encodable : encodable (not_found audio_path) = true.
Proof using path_utf8.
  unfold not_found. rewrite encodable_error. by apply utf8_app.
Qed.

Lemma analyze_responses_missing :
  analyze_responses env audio_path = [Service.json_response 200 (not_found audio_path)].
Proof using engine_available missing path_utf8.
  apply analyze_responses_returned;
    [done|apply analysis_body_missing|apply not_found_encodable].
Qed.

Lemma script_missing prog rest :
  audio_path <> "--test" ->
  Analyzer.script env (prog :: audio_path :: rest)
  = Analyzer.Process [not_found audio_path] 0.
Proof using engine_available missing path_utf8.
  intros Hne. unfold Analyzer.script.
  unfold ESSENTIA_AVAILABLE in engine_available.
  destruct (modules env); try discriminate.
  apply analyzer_main_prints; [|apply not_found_encodable].
  destruct (decide (audio_path = "--test")); [done|].
  apply analyzer_analyze_audio_missing.
Qed.

End missing_file.

(** The part of C5 that holds: with the engine available, a path that does
    not resolve to an existing file yields the error record whose message is
    [Аудио файл не найден: ] followed by the path; if the path holds no lone
    surrogate, a valid [GET] or [POST /analyze] request for it is answered
    with status 200 and that record, and the command prints the record and
    exits with status 0. *)
Lemma missing_file_reported env audio_path :
  ESSENTIA_AVAILABLE env = true ->
  os_path_exists env (JStr audio_path) = Returned false ->
  Analyzer.analyze_audio env audio_path
  = Returned {[ "error" := JStr ("Аудио файл не найден: " +:+ audio_path) ]}
  /\ (forall st,
        (Service.analyze_audio env (JStr audio_path) st).1
        = Returned {[ "error" := JStr ("Аудио файл не найден: " +:+ audio_path) ]})
  /\ (utf8 audio_path = true ->
      (forall request st,
          Service.get_analyze request audio_path ->
          Service.wfile (Service.do_GET env (Returned request) st).2
          = Service.wfile st ++ [Service.json_response 200 (not_found audio_path)])
      /\ (forall request st,
            Service.post_analyze request audio_path ->
            Service.wfile (Service.do_POST env request st).2
            = Service.wfile st ++ [Service.json_response 200 (not_found audio_path)])
      /\ (forall prog rest,
            audio_path <> "--test" ->
            Analyzer.script env (prog :: audio_path :: rest)
            = Analyzer.Process [not_found audio_path] 0)).
Proof.
  intros Havail Hmissing.
  split; [by apply analyzer_analyze_audio_missing|].
  split; [intros st; by apply service_analyze_audio_missing|].
  intros Hutf8. split; [|split].
  - intros request st Hreq.
    destruct (do_GET_analyze_responses env request audio_path st Hreq) as (st' & -> & Hw).
    cbn [snd]. by rewrite Hw, analyze_responses_missing.
  - intros request st Hreq.
    destruct (do_POST_analyze_responses env request audio_path st Hreq) as (st' & -> & Hw).
    cbn [snd]. by rewrite Hw, analyze_responses_missing.
  - intros prog rest. by apply script_missing.
Qed.

(** C5 fails for a path that holds a lone surrogate, which a JSON body and
    a command line can carry.  The file [/audio/\ud800.wav] does not exist
    and both [analyze_audio] return the error record.  The service, for a
    valid [POST /analyze], writes the head of a response with status 200,
    fails to encode the record, and answers with status 500.  The command
    fails to print the record and exits with status 1, having printed
    nothing. *)
Theorem missing_file_with_surrogate :
  let audio_path := "/audio/" +:+ lone_surrogate +:+ ".wav" in
  let request := Sample.post (JDict {[ "file_path" := JStr audio_path ]}) in
  ESSENTIA_AVAILABLE Sample.env = true
  /\ os_path_exists Sample.env (JStr audio_path) = Returned false
  /\ Service.post_analyze request audio_path
  /\ Analyzer.analyze_audio Sample.env audio_path = Returned (not_found audio_path)
  /\ (Service.analyze_audio Sample.env (JStr audio_path) Service.initial).1
     = Returned (not_found audio_path)
  /\ Service.wfile (Service.do_POST Sample.env request Service.initial).2
     = [ Service.json_head 200;
         Service.json_response 500
           (internal_error (UnicodeEncodeError Sample.surrogates_not_allowed)) ]
  /\ Analyzer.script Sample.env ["essentia_analyzer.py"; audio_path]
     = Analyzer.Process [] 1.
Proof.
  intros audio_path request.
  split; [reflexivity|]. split; [reflexivity|]. split.
  { split; [reflexivity|]. split; [discriminate|].
    exists 2, {[ "file_path" := JStr audio_path ]}. by repeat split. }
  repeat split; vm_compute; reflexivity.
Qed.

(** ** Every response of [do_GET] and [do_POST] *)

Section every_response.

Import Service.

Implicit Types (env : Env) (st : handler_state) (P : Response -> Prop).

Lemma json_head_headers status : json_headers (json_head status).
Proof.
  split.
  - exists "Content-type". split; [|reflexivity]. cbn. by left.
  - exists "Access-Control-Allow-Origin". split; [|reflexivity]. cbn. right. by left.
Qed.

Lemma json_response_envelope status data : json_envelope (json_response status data).
Proof. split; [by eexists|apply json_head_headers]. Qed.

Lemma json_head_head_only status : head_only (json_head status).
Proof. split; [reflexivity|apply json_head_headers]. Qed.

(** The common part writes the result with status 200, or the head of that
    response. *)
Lemma writes_analyze_and_send P env p :
  (forall d, P (json_response 200 d)) -> P (json_head 200) ->
  writes_all P (analyze_and_send env p).
Proof.
  intros Hr Hh. apply writes_bind; [apply writes_nothing, silent_analyze_audio|intros d].
  by apply writes_send_json_response.
Qed.


Context (P : Response -> Prop) (env : Env).
Hypothesis error_responses :
  forall status message,
    status ∈ [400; 404; 500; 503] -> P (json_response status {[ "error" := JStr message ]}).
Hypothesis health_response : P (json_response 200 health_data).

Lemma writes_do_GET url :
  (forall p, p ∈ get_calls url -> writes_all P (analyze_and_send env p)) ->
  writes_all P (do_GET env url).
Proof using error_responses health_response.
  intros Hanalyze. rewrite do_GET_unfold.
  apply writes_try_except;
    [|intros e; apply writes_last_handler, error_responses; set_solver].
  apply (writes_bind_post P (fun request => url = Returned request)).
  { by intros st request st' [= -> _]. }
  { apply writes_nothing, silent_lift. }
  intros request ->.
  destruct (decide (parsed_path request = "/health")) as [Hh|Hh].
  { apply writes_send_health_check; [done|]. intros m. apply error_responses. set_solver. }
  destruct (decide (parsed_path request = "/analyze")) as [Ha|Ha].
  2:{ apply writes_send_error_response; [done|]. apply error_responses. set_solver. }
  apply (writes_bind_post P (fun audio_path => file_param request = Returned audio_path)).
  { by intros st a st' [= -> _]. }
  { apply writes_nothing, silent_lift. }
  intros audio_path Hfile.
  destruct (truthy audio_path) eqn:Ht; cbn [negb].
  2:{ apply writes_send_error_response; [done|]. apply error_responses. set_solver. }
  apply Hanalyze. unfold get_calls.
  destruct (decide (parsed_path request = "/health")); [done|].
  destruct (decide (parsed_path request = "/analyze")); [|done].
  unfold file_param in Hfile.
  destruct (query_params request !! "file") as [[|v more]|]; try discriminate Hfile.
  - injection Hfile as <-. rewrite Ht. apply elem_of_cons; by left.
  - injection Hfile as <-. discriminate Ht.
Qed.

Lemma writes_do_POST request :
  (forall p, p ∈ post_calls request -> writes_all P (analyze_and_send env p)) ->
  writes_all P (do_POST env request).
Proof using error_responses health_response.
  intros Hanalyze. rewrite do_POST_unfold.
  apply writes_try_except;
    [|intros e; apply writes_last_handler, error_responses; set_solver].
  destruct (decide (path request = "/analyze")) as [Ha|Ha].
  2:{ apply writes_send_error_response; [done|]. apply error_responses. set_solver. }
  apply (writes_bind_post P (fun n => content_length request = Returned n)).
  { by intros st n st' [= -> _]. }
  { apply writes_nothing, silent_lift. }
  intros n Hn.
  apply writes_try_except_JSONDecodeError.
  2:{ apply writes_send_error_response; [done|]. apply error_responses. set_solver. }
  apply (writes_bind_post P (fun data => json_loads_body request n = Returned data)).
  { by intros st a st' [= -> _]. }
  { apply writes_nothing, silent_lift. }
  intros data Hdata.
  apply (writes_bind_post P (fun audio_path => py_get data "file_path" = Returned audio_path)).
  { by intros st a st' [= -> _]. }
  { apply writes_nothing, silent_lift. }
  intros audio_path Hget.
  destruct (truthy audio_path) eqn:Ht; cbn [negb].
  2:{ apply writes_send_error_response; [done|]. apply error_responses. set_solver. }
  apply Hanalyze. unfold post_calls.
  destruct (decide (path request = "/analyze")); [|done].
  rewrite Hn, Hdata.
  destruct data; try discriminate Hget. cbn [py_get] in Hget. injection Hget as <-.
  destruct (d !! "file_path") as [v|]; cbn [default from_option id] in *.
  - rewrite Ht. apply elem_of_cons; by left.
  - discriminate Ht.
Qed.

End every_response.




(** ** One answer per request *)

Section answering.

Import Service.

Implicit Types (env : Env) (st : handler_state).

Lemma responds_send_json_response env data status :
  responds (send_json_response env data status).
Proof.
  intros st. destruct (encodable data) eqn:E.
  - destruct (send_json_response_wfile env data status st E) as (st' & -> & Hw & _).
    eexists. split; [exact Hw|apply json_response_envelope].
  - destruct (send_json_response_unencodable env data status st E) as (st' & -> & Hw & _).
    right. split; [|by eexists]. eexists. split; [exact Hw|apply json_head_head_only].
Qed.

Lemma responds_send_error_response env status message :
  responds (send_error_response env status message).
Proof. apply responds_send_json_response. Qed.

Lemma responds_bind {A B} (m : handler A) (f : A -> handler B) :
  silent m -> (forall a, responds (f a)) -> responds (m ≫= f).
Proof.
  intros Hm Hf st. unfold mbind, handler_bind. specialize (Hm st).
  destruct (m st) as [[a|e] st1]; cbn [snd] in *; [|by left].
  specialize (Hf a st1). destruct (f a st1) as [[b|e] st2]; by rewrite <- Hm.
Qed.

Lemma responds_try_except_JSONDecodeError {A} (body on_exn : handler A) :
  responds body -> responds on_exn ->
  responds (try_except_JSONDecodeError body on_exn).
Proof.
  intros Hm Hf st. unfold try_except_JSONDecodeError. specialize (Hm st).
  destruct (body st) as [[a|e] st1]; [done|].
  destruct (decide _) as [Hclass|_]; [|done].
  destruct Hm as [Hw|[_ [m ->]]]; [|discriminate Hclass].
  specialize (Hf st1). destruct (on_exn st1) as [[b|e'] st2]; by rewrite <- Hw.
Qed.

Lemma health_data_encodable : encodable health_data = true.
Proof. vm_compute. reflexivity. Qed.

(** The health check returns, having written one response. *)
Lemma send_health_check_returns env st :
  exists st' r,
    send_health_check env st = (Returned (), st')
    /\ wfile st' = wfile st ++ [r]
    /\ analyzed st' = analyzed st
    /\ r = (if ESSENTIA_AVAILABLE env
            then match es_probe env with
                 | Returned _ => json_response 200 health_data
                 | Raised e =>
                     json_response 503
                       {[ "error" := JStr ("Essentia недоступна: " +:+ exn_str e) ]}
                 end
            else json_response 503 {[ "error" := JStr "Essentia недоступна" ]}).
Proof.
  unfold send_health_check.
  destruct (ESSENTIA_AVAILABLE env); cbn [negb].
  - unfold Service.try_except, mbind, handler_bind, lift.
    destruct (es_probe env) as [[]|e].
    + destruct (send_json_response_wfile env health_data 200 st health_data_encodable)
        as (st' & -> & Hw & Ha).
      by exists st', (json_response 200 health_data).
    + destruct (send_error_response_wfile env 503 ("Essentia недоступна: " +:+ exn_str e) st)
        as (st' & -> & Hw & Ha).
      { apply utf8_app; [done|apply exn_str_utf8]. }
      by eexists st', _.
  - destruct (send_error_response_wfile env 503 "Essentia недоступна" st eq_refl)
      as (st' & -> & Hw & Ha).
    by eexists st', _.
Qed.

Lemma responds_send_health_check env : responds (send_health_check env).
Proof.
  intros st. destruct (send_health_check_returns env st) as (st' & r & -> & Hw & _ & ->).
  exists (if ESSENTIA_AVAILABLE env
          then match es_probe env with
               | Returned _ => json_response 200 health_data
               | Raised e =>
                   json_response 503
                     {[ "error" := JStr ("Essentia недоступна: " +:+ exn_str e) ]}
               end
          else json_response 503 {[ "error" := JStr "Essentia недоступна" ]}).
  split; [exact Hw|].
  destruct (ESSENTIA_AVAILABLE env); [destruct (es_probe env)|]; apply json_response_envelope.
Qed.

Lemma responds_analyze_and_send env p : responds (analyze_and_send env p).
Proof.
  intros st. pose proof (analyze_and_send_cases env p st) as H.
  destruct ((analyze_audio env p initial).1) as [d|e].
  - destruct (encodable d); destruct H as (st' & -> & Hw).
    + eexists. split; [exact Hw|apply json_response_envelope].
    + right. split; [|by eexists]. eexists. split; [exact Hw|apply json_head_head_only].
  - destruct H as (st' & -> & Hw & _). by left.
Qed.

Lemma responds_get_body env url :
  responds
    (request ← lift url;
     if decide (parsed_path request = "/health") then send_health_check env
     else if decide (parsed_path request = "/analyze") then
       audio_path ← lift (file_param request);
       if negb (truthy audio_path)
       then send_error_response env 400 "Параметр 'file' обязателен"
       else analyze_and_send env audio_path
     else send_error_response env 404 "Эндпоинт не найден").
Proof.
  apply responds_bind; [apply silent_lift|intros request].
  destruct (decide _); [apply responds_send_health_check|].
  destruct (decide _); [|apply responds_send_error_response].
  apply responds_bind; [apply silent_lift|intros audio_path].
  destruct (negb _); [apply responds_send_error_response|apply responds_analyze_and_send].
Qed.

Lemma responds_post_body env request :
  responds
    (if decide (path request = "/analyze") then
       n ← lift (content_length request);
       try_except_JSONDecodeError
         (data ← lift (json_loads_body request n);
          audio_path ← lift (py_get data "file_path");
          if negb (truthy audio_path)
          then send_error_response env 400 "Поле 'file_path' обязательно"
          else analyze_and_send env audio_path)
         (send_error_response env 400 "Неверный JSON формат")
     else send_error_response env 404 "Эндпоинт не найден").
Proof.
  destruct (decide _); [|apply responds_send_error_response].
  apply responds_bind; [apply silent_lift|intros n].
  apply responds_try_except_JSONDecodeError; [|apply responds_send_error_response].
  apply responds_bind; [apply silent_lift|intros data].
  apply responds_bind; [apply silent_lift|intros audio_path].
  destruct (negb _); [apply responds_send_error_response|apply responds_analyze_and_send].
Qed.

(** The last handler, on whatever exception: it answers with the
    internal-error record, or raises before writing. *)
Lemma last_handler_cases env prefix e st :
  (exists st',
      last_handler env prefix e st = (Returned (), st')
      /\ wfile st' = wfile st ++ [json_response 500 (internal_error e)])
  \/ (exists e', last_handler env prefix e st = (Raised e', st)).
Proof.
  unfold last_handler, mbind, handler_bind.
  destruct (log_error_cases env (prefix +:+ exn_str e) st) as [[line ->]|(e' & -> & _)].
  - left. cbn [printed_line].
    destruct (send_error_response_wfile env 500
                ("Внутренняя ошибка сервера: " +:+ exn_str e)
                (printed_line line st).2 (internal_error_utf8 e)) as (st' & Hs & Hw & _).
    exists st'. split; [exact Hs|exact Hw].
  - right. by exists e'.
Qed.

(** A body that sends one response, under the last handler, answers. *)
Lemma answers_under_last_handler env prefix (body : handler unit) :
  no_percent prefix = true -> utf8 prefix = true ->
  responds body -> answers (Service.try_except body (last_handler env prefix)).
Proof.
  intros Hp Hu Hbody st. unfold Service.try_except. specialize (Hbody st).
  destruct (body st) as [[[]|e] st1].
  - destruct Hbody as (r & Hw & Hr). exists [r]. split; [done|]. exists r. by split; [|left].
  - destruct Hbody as [Hw|[(h & Hw & Hh) [m ->]]].
    + destruct (last_handler_cases env prefix e st1) as [(st' & -> & Hw')|(e' & ->)];
        [|done].
      exists [json_response 500 (internal_error e)]. rewrite Hw', Hw. split; [done|].
      eexists. split; [apply json_response_envelope|by left].
    + destruct (last_handler_plain env prefix (UnicodeEncodeError m) st1 Hp Hu
                  (codec_message_no_percent m)) as (st' & -> & Hw' & _).
      eexists [h; _]. rewrite Hw', Hw, <- app_assoc. split; [done|].
      eexists. split; [apply json_response_envelope|]. right. by exists h.
Qed.

(** If moreover the body raises plain exceptions only, the handler
    returns. *)
Lemma returns_under_last_handler env prefix (body : handler unit) st :
  no_percent prefix = true -> utf8 prefix = true ->
  responds body -> raises_only plain body ->
  exists st' new,
    Service.try_except body (last_handler env prefix) st = (Returned (), st')
    /\ wfile st' = wfile st ++ new /\ answer new.
Proof.
  intros Hp Hu Hbody Hplain.
  pose proof (answers_under_last_handler env prefix body Hp Hu Hbody st) as H.
  unfold Service.try_except in *. specialize (Hplain st).
  destruct (body st) as [[[]|e] st1].
  - destruct H as (new & Hw & Hnew). by exists st1, new.
  - destruct (last_handler_plain env prefix e st1 Hp Hu (Hplain _ _ eq_refl))
      as (st' & Hs & _). rewrite Hs in *.
    destruct H as (new & Hw & Hnew). by exists st', new.
Qed.

End answering.

(** ** Which exceptions leave a handler *)

Section raising.

Import Service.

Implicit Types (env : Env) (st : handler_state) (P Q : exn -> Prop).

Lemma raises_only_ret {A} P (a : A) : raises_only P (mret a).
Proof. by intros st e st'. Qed.

Lemma raises_only_lift {A} P (o : outcome A) :
  (forall e, o = Raised e -> P e) -> raises_only P (lift o).
Proof. intros Ho st e st' [= -> _]. by apply Ho. Qed.

Lemma raises_only_bind {A B} P (m : handler A) (f : A -> handler B) :
  raises_only P m -> (forall a, raises_only P (f a)) -> raises_only P (m ≫= f).
Proof.
  intros Hm Hf st e st'. unfold mbind, handler_bind.
  destruct (m st) as [[a|e0] st1] eqn:E.
  - apply Hf.
  - intros [= <- <-]. by eapply Hm.
Qed.

Lemma raises_only_try_except_JSONDecodeError {A} P (body on_exn : handler A) :
  raises_only P body -> raises_only P on_exn ->
  raises_only P (try_except_JSONDecodeError body on_exn).
Proof.
  intros Hm Hf st e st'. unfold try_except_JSONDecodeError.
  destruct (body st) as [[a|e0] st1] eqn:E; [done|].
  destruct (decide _); [apply Hf|].
  intros [= <- <-]. by eapply Hm.
Qed.

Lemma raises_only_send_json_response env data status :
  raises_only plain (send_json_response env data status).
Proof.
  intros st e st'. destruct (encodable data) eqn:E.
  - by destruct (send_json_response_wfile env data status st E) as (st1 & -> & _).
  - destruct (send_json_response_unencodable env data status st E) as (st1 & -> & _).
    intros [= <- _]. apply codec_message_no_percent.
Qed.

Lemma raises_only_send_health_check P env : raises_only P (send_health_check env).
Proof.
  intros st e st'.
  by destruct (send_health_check_returns env st) as (st1 & r & -> & _).
Qed.

Lemma raises_only_analyze_and_send env p : raises_only plain (analyze_and_send env p).
Proof.
  apply raises_only_bind.
  - intros st e st' H. by eapply log_fault_no_percent, analyze_audio_raises.
  - intros d. apply raises_only_send_json_response.
Qed.

Lemma py_get_raises data key e : py_get data key = Raised e -> plain e.
Proof. destruct data; try done; by intros [= <-]. Qed.

Lemma raises_only_get_body env url :
  (forall e, url = Raised e -> plain e) ->
  raises_only plain
    (request ← lift url;
     if decide (parsed_path request = "/health") then send_health_check env
     else if decide (parsed_path request = "/analyze") then
       audio_path ← lift (file_param request);
       if negb (truthy audio_path)
       then send_error_response env 400 "Параметр 'file' обязателен"
       else analyze_and_send env audio_path
     else send_error_response env 404 "Эндпоинт не найден").
Proof.
  intros Hurl.
  apply raises_only_bind; [by apply raises_only_lift|intros request].
  destruct (decide _); [apply raises_only_send_health_check|].
  destruct (decide _); [|apply raises_only_send_json_response].
  apply raises_only_bind.
  - apply raises_only_lift. unfold file_param.
    destruct (query_params request !! "file") as [[|v l]|]; try done.
    by intros exc [= <-].
  - intros audio_path.
    destruct (negb _); [apply raises_only_send_json_response|].
    apply raises_only_analyze_and_send.
Qed.

Lemma raises_only_post_body env request :
  (forall e, content_length request = Raised e -> plain e) ->
  (forall n e, json_loads_body request n = Raised e -> plain e) ->
  raises_only plain
    (if decide (path request = "/analyze") then
       n ← lift (content_length request);
       try_except_JSONDecodeError
         (data ← lift (json_loads_body request n);
          audio_path ← lift (py_get data "file_path");
          if negb (truthy audio_path)
          then send_error_response env 400 "Поле 'file_path' обязательно"
          else analyze_and_send env audio_path)
         (send_error_response env 400 "Неверный JSON формат")
     else send_error_response env 404 "Эндпоинт не найден").
Proof.
  intros Hlen Hbody.
  destruct (decide _); [|apply raises_only_send_json_response].
  apply raises_only_bind; [by apply raises_only_lift|intros n].
  apply raises_only_try_except_JSONDecodeError; [|apply raises_only_send_json_response].
  apply raises_only_bind; [apply raises_only_lift, Hbody|intros data].
  apply raises_only_bind; [apply raises_only_lift, py_get_raises|intros audio_path].
  destruct (negb _); [apply raises_only_send_json_response|].
  apply raises_only_analyze_and_send.
Qed.

End raising.

(** ** Which requests reach the analysis *)

Section calls.

Import Service.

Implicit Types (env : Env) (st : handler_state).

Lemma analyzes_nothing_lift {A} (o : outcome A) : analyzes [] (lift o).
Proof. intros st. by rewrite app_nil_r. Qed.

Lemma analyzes_nothing_log_error env format : analyzes [] (log_error env format).
Proof.
  intros st. rewrite app_nil_r.
  by destruct (log_error_cases env format st) as [[line ->]|(e & -> & _)].
Qed.

Lemma analyzes_nothing_send_json_response env data status :
  analyzes [] (send_json_response env data status).
Proof. intros st. rewrite app_nil_r. apply send_json_response_analyzed. Qed.

Lemma analyzes_nothing_bind {A B} (m : handler A) (f : A -> handler B) :
  analyzes [] m -> (forall a, analyzes [] (f a)) -> analyzes [] (m ≫= f).
Proof.
  intros Hm Hf st. unfold mbind, handler_bind. specialize (Hm st).
  destruct (m st) as [[a|e] st1]; cbn [snd] in *; [|done].
  rewrite Hf, Hm. by rewrite !app_nil_r.
Qed.

Lemma analyzes_nothing_last_handler env prefix e : analyzes [] (last_handler env prefix e).
Proof.
  apply analyzes_nothing_bind; [apply analyzes_nothing_log_error|intros _].
  apply analyzes_nothing_send_json_response.
Qed.

Lemma analyzes_nothing_send_health_check env : analyzes [] (send_health_check env).
Proof.
  intros st. rewrite app_nil_r.
  by destruct (send_health_check_returns env st) as (st' & r & -> & _ & Ha & _).
Qed.

(** A handler that calls nothing adds nothing to the calls of the body. *)
Lemma analyzes_try_except {A} calls (body : handler A) (on_exn : exn -> handler A) :
  analyzes calls body -> (forall e, analyzes [] (on_exn e)) ->
  analyzes calls (Service.try_except body on_exn).
Proof.
  intros Hm Hf st. unfold Service.try_except. specialize (Hm st).
  destruct (body st) as [[a|e] st1]; cbn [snd] in *; [done|].
  rewrite Hf, Hm. by rewrite app_nil_r.
Qed.

Lemma analyzes_try_except_JSONDecodeError {A} calls (body on_exn : handler A) :
  analyzes calls body -> analyzes [] on_exn ->
  analyzes calls (try_except_JSONDecodeError body on_exn).
Proof.
  intros Hm Hf st. unfold try_except_JSONDecodeError. specialize (Hm st).
  destruct (body st) as [[a|e] st1]; cbn [snd] in *; [done|].
  destruct (decide _); [|done].
  rewrite Hf, Hm. by rewrite app_nil_r.
Qed.

Lemma analyze_audio_analyzed env p : analyzes [p] (analyze_audio env p).
Proof.
  intros st.
  by destruct (service_analyze_audio_cases env p st)
    as [[_ ->]|[_ [(d0 & Hb & ->)|(e0 & Hb & [(line & _ & ->)|(e' & _ & Hf & ->)])]]].
Qed.

(** Analysing and then sending the result calls the analysis once. *)
Lemma analyze_and_send_analyzed env p : analyzes [p] (analyze_and_send env p).
Proof.
  intros st. pose proof (analyze_audio_analyzed env p st) as H.
  unfold analyze_and_send, mbind, handler_bind.
  destruct (analyze_audio env p st) as [[d|e] st1]; cbn [snd] in *; [|done].
  by rewrite send_json_response_analyzed.
Qed.

Lemma do_GET_analyzed env url : analyzes (get_calls url) (do_GET env url).
Proof.
  rewrite do_GET_unfold.
  apply analyzes_try_except; [|intros e; apply analyzes_nothing_last_handler].
  intros st. unfold mbind at 1, handler_bind at 1, lift, get_calls.
  destruct url as [request|e]; [|by rewrite app_nil_r].
  destruct (decide _); [apply analyzes_nothing_send_health_check|].
  destruct (decide _); [|apply analyzes_nothing_send_json_response].
  unfold mbind, handler_bind, file_param.
  destruct (query_params request !! "file") as [[|v more]|]; cbn [snd truthy negb].
  - by rewrite app_nil_r.
  - destruct v; cbn [negb].
    + apply analyzes_nothing_send_json_response.
    + apply analyze_and_send_analyzed.
  - apply analyzes_nothing_send_json_response.
Qed.

Lemma do_POST_analyzed env request : analyzes (post_calls request) (do_POST env request).
Proof.
  rewrite do_POST_unfold.
  apply analyzes_try_except; [|intros e; apply analyzes_nothing_last_handler].
  unfold post_calls.
  destruct (decide _) as [Hroute|Hroute]; [|apply analyzes_nothing_send_json_response].
  intros st. unfold mbind at 1, handler_bind at 1, lift.
  destruct (content_length request) as [n|exc]; [|by rewrite app_nil_r].
  revert st. apply analyzes_try_except_JSONDecodeError;
    [|apply analyzes_nothing_send_json_response].
  intros st. unfold mbind at 1, handler_bind at 1, lift.
  destruct (json_loads_body request n) as [data|exc]; [|by rewrite app_nil_r].
  unfold mbind at 1, handler_bind at 1.
  destruct data as [| | | | | |d]; cbn [py_get snd]; try by rewrite app_nil_r.
  destruct (d !! "file_path") as [v|]; cbn [default from_option id truthy negb].
  - destruct (truthy v); cbn [negb].
    + apply analyze_and_send_analyzed.
    + apply analyzes_nothing_send_json_response.
  - apply analyzes_nothing_send_json_response.
Qed.

End calls.

Section policy.

Import Service.

Lemma error_response_policy status message :
  status ∈ [400; 404; 500; 503] ->
  status_policy (json_response status {[ "error" := JStr message ]}).
Proof. intros Hs. right. split; [done|by exists message]. Qed.

End policy.

(** * Further properties: the statements *)

(** X1. A GET request is answered whenever [urlparse] returns or raises with
    a message without [%]: [do_GET] returns, having written one response
    with the JSON envelope, preceded by the head of a first response only
    when the body of that one could not be encoded.  For the target
    [http://[50%]/analyze] the message of [urlparse] has a [%], the last
    handler raises when it logs it, and [do_GET] raises without having
    written anything. *)
Theorem get_always_answered env url st :
  ((forall e, url = Raised e -> no_percent (exn_str e) = true) ->
   exists st' new,
     Service.do_GET env url st = (Returned (), st')
     /\ Service.wfile st' = Service.wfile st ++ new
     /\ answer new)
  /\ Service.do_GET Sample.env Sample.get_bad_host Service.initial
     = (Raised not_enough_arguments, Service.initial).
Proof.
  split; [|vm_compute; reflexivity].
  intros Hurl. rewrite do_GET_unfold.
  apply returns_under_last_handler; [done|done|apply responds_get_body|].
  by apply raises_only_get_body.
Qed.

Lemma get_always_answered_witness :
  exists st' new,
    Service.do_GET Sample.env (Returned (Sample.get "/audio/ok.wav")) Service.initial
    = (Returned (), st')
    /\ Service.wfile st' = Service.wfile Service.initial ++ new
    /\ answer new.
Proof.
  apply (proj1 (get_always_answered Sample.env (Returned (Sample.get "/audio/ok.wav"))
                  Service.initial)).
  intros e H. discriminate H.
Defined.

(** X2. When [do_GET] or [do_POST] returns, the request has got one
    response with the JSON envelope, preceded by the head of a first
    response only when the body of that one could not be encoded; when an
    exception leaves [do_GET] or [do_POST], nothing has been written. *)
Theorem post_answered_once env st :
  (forall url,
      match Service.do_GET env url st with
      | (Returned _, st') =>
          exists new, Service.wfile st' = Service.wfile st ++ new /\ answer new
      | (Raised _, st') => Service.wfile st' = Service.wfile st
      end)
  /\ (forall request,
        match Service.do_POST env request st with
        | (Returned _, st') =>
            exists new, Service.wfile st' = Service.wfile st ++ new /\ answer new
        | (Raised _, st') => Service.wfile st' = Service.wfile st
        end).
Proof.
  split.
  - intros url. rewrite do_GET_unfold.
    apply answers_under_last_handler; [done|done|apply responds_get_body].
  - intros request. rewrite do_POST_unfold.
    apply answers_under_last_handler; [done|done|apply responds_post_body].
Qed.

(** X3. [do_POST] returns, hence answers, whenever the messages of the
    exceptions that reading the length and parsing the body may raise have no
    [%] in them. *)
Theorem post_answered env request st :
  (forall e, Service.content_length request = Raised e -> no_percent (exn_str e) = true) ->
  (forall n e, Service.json_loads_body request n = Raised e ->
               no_percent (exn_str e) = true) ->
  exists st' new,
    Service.do_POST env request st = (Returned (), st')
    /\ Service.wfile st' = Service.wfile st ++ new
    /\ answer new.
Proof.
  intros Hlen Hbody. rewrite do_POST_unfold.
  apply returns_under_last_handler; [done|done|apply responds_post_body|].
  by apply raises_only_post_body.
Qed.

Lemma post_answered_witness :
  exists st' new,
    Service.do_POST Sample.env Sample.post_not_utf8 Service.initial = (Returned (), st')
    /\ Service.wfile st' = Service.wfile Service.initial ++ new
    /\ answer new.
Proof.
  apply (post_answered Sample.env Sample.post_not_utf8 Service.initial).
  - intros e H. discriminate H.
  - intros n e [= <-]. reflexivity.
Defined.

(** X4. The status code of every response is 200, 400, 404, 500 or 503, and
    every response whose status is not 200 carries an error record
    [{"error": message}]. *)
Theorem responses_follow_status_policy env st :
  (forall url, exists new,
      Service.wfile (Service.do_GET env url st).2 = Service.wfile st ++ new
      /\ Forall status_policy new)
  /\ (forall request, exists new,
        Service.wfile (Service.do_POST env request st).2 = Service.wfile st ++ new
        /\ Forall status_policy new).
Proof.
  split.
  - intros url. apply writes_do_GET; [apply error_response_policy|by left|].
    intros p _. apply writes_analyze_and_send; [intros d|]; by left.
  - intros request. apply writes_do_POST; [apply error_response_policy|by left|].
    intros p _. apply writes_analyze_and_send; [intros d|]; by left.
Qed.

(** X5. [GET /health] is answered with 200 and the health record exactly
    when the engine was imported and its two objects can be constructed;
    otherwise with 503 and an error record.  The analysis is not called. *)
Theorem health_check_status env request st :
  Service.parsed_path request = "/health" ->
  exists r,
    Service.wfile (Service.do_GET env (Returned request) st).2 = Service.wfile st ++ [r]
    /\ Service.analyzed (Service.do_GET env (Returned request) st).2 = Service.analyzed st
    /\ (Service.status_code r = 200
        <-> ESSENTIA_AVAILABLE env = true /\ es_probe env = Returned ())
    /\ (Service.status_code r = 200 ->
        Service.body r = Service.json_body Service.health_data)
    /\ (Service.status_code r <> 200 ->
        Service.status_code r = 503
        /\ exists message,
             Service.body r = Service.json_body {[ "error" := JStr message ]}).
Proof.
  intros Hpath.
  assert (Hroute : Service.do_GET env (Returned request) st
                   = Service.send_health_check env st).
  { destruct (send_health_check_returns env st) as (st' & r & Hs & _).
    rewrite do_GET_unfold. unfold Service.try_except.
    unfold mbind at 1, Service.handler_bind at 1, Service.lift.
    rewrite Hpath.
    destruct (decide ("/health" = "/health")) as [_|Hne]; [|by destruct Hne].
    by rewrite Hs. }
  rewrite Hroute.
  destruct (send_health_check_returns env st) as (st' & r & -> & Hw & Ha & Hr).
  exists r. split; [exact Hw|]. split; [exact Ha|]. rewrite Hr.
  destruct (ESSENTIA_AVAILABLE env).
  - destruct (es_probe env) as [[]|e0];
      cbn [Service.status_code Service.json_response Service.body].
    + by repeat split.
    + repeat split; try done; try (by intros [_ ?]). by eexists.
  - cbn [Service.status_code Service.json_response Service.body].
    repeat split; try done; try (by intros [? _]). by eexists.
Qed.

Lemma health_check_status_witness :
  exists r,
    Service.wfile
      (Service.do_GET Sample.env
         (Returned {| Service.parsed_path := "/health"; Service.query_params := ∅ |})
         Service.initial).2 = [r]
    /\ (Service.status_code r = 200
        <-> ESSENTIA_AVAILABLE Sample.env = true /\ es_probe Sample.env = Returned ()).
Proof.
  destruct (health_check_status Sample.env
              {| Service.parsed_path := "/health"; Service.query_params := ∅ |}
              Service.initial eq_refl) as (r & Hr & _ & Hiff & _).
  exists r. split; [exact Hr|exact Hiff].
Defined.

(** X6. A GET whose path is neither [/health] nor [/analyze], and a POST
    whose path is not exactly [/analyze], are answered with 404 and nothing
    else happens: the body of the POST is not read and the analysis is not
    called. *)
Theorem unknown_route_404 env st :
  (forall request,
      Service.parsed_path request <> "/health" ->
      Service.parsed_path request <> "/analyze" ->
      Service.do_GET env (Returned request) st
      = Service.send_error_response env 404 "Эндпоинт не найден" st)
  /\ (forall request,
        Service.path request <> "/analyze" ->
        Service.do_POST env request st
        = Service.send_error_response env 404 "Эндпоинт не найден" st).
Proof.
  split.
  - intros request H1 H2.
    rewrite <- (try_except_send_error_response env 404 "Эндпоинт не найден"
                  (last_handler env "Ошибка при обработке GET запроса: ") st eq_refl).
    rewrite do_GET_unfold. unfold Service.try_except.
    unfold mbind at 1, Service.handler_bind at 1, Service.lift.
    destruct (decide _) as [H|_]; [by destruct H1|].
    destruct (decide _) as [H|_]; [by destruct H2|]. reflexivity.
  - intros request H1.
    rewrite <- (try_except_send_error_response env 404 "Эндпоинт не найден"
                  (last_handler env "Ошибка при обработке POST запроса: ") st eq_refl).
    rewrite do_POST_unfold. unfold Service.try_except.
    destruct (decide _) as [H|_]; [by destruct H1|]. reflexivity.
Qed.

Lemma unknown_route_404_witness :
  Service.do_GET Sample.env
    (Returned {| Service.parsed_path := "/unknown"; Service.query_params := ∅ |})
    Service.initial
  = Service.send_error_response Sample.env 404 "Эндпоинт не найден" Service.initial
  /\ Service.do_POST Sample.env
       {| Service.path := "/analyze?file=/audio/ok.wav";
          Service.content_length := Returned 0;
          Service.json_loads_body _ := Returned JNone |} Service.initial
     = Service.send_error_response Sample.env 404 "Эндпоинт не найден" Service.initial.
Proof.
  split.
  - apply (proj1 (unknown_route_404 Sample.env Service.initial)); discriminate.
  - apply (proj2 (unknown_route_404 Sample.env Service.initial)); discriminate.
Defined.

(** X7. [GET /analyze] without a [file] parameter, or with an empty one, is
    answered with 400 and the message that the parameter is required; the
    analysis is not called. *)
Theorem get_without_file_400 env request st :
  Service.parsed_path request = "/analyze" ->
  Service.query_params request !! "file" = None
  \/ (exists more, Service.query_params request !! "file" = Some ("" :: more)) ->
  Service.do_GET env (Returned request) st
  = Service.send_error_response env 400 "Параметр 'file' обязателен" st.
Proof.
  intros Hpath Hfile.
  rewrite <- (try_except_send_error_response env 400 "Параметр 'file' обязателен"
                (last_handler env "Ошибка при обработке GET запроса: ") st eq_refl).
  rewrite do_GET_unfold. unfold Service.try_except.
  unfold mbind at 1 2, Service.handler_bind at 1 2, Service.lift, Service.file_param.
  rewrite Hpath.
  destruct (decide ("/analyze" = "/health")) as [H|_]; [discriminate H|].
  destruct (decide ("/analyze" = "/analyze")) as [_|H]; [|by destruct H].
  by destruct Hfile as [->|[more ->]].
Qed.

Lemma get_without_file_400_witness :
  Service.do_GET Sample.env
    (Returned {| Service.parsed_path := "/analyze"; Service.query_params := ∅ |})
    Service.initial
  = Service.send_error_response Sample.env 400 "Параметр 'file' обязателен" Service.initial.
Proof.
  apply (get_without_file_400 Sample.env
           {| Service.parsed_path := "/analyze"; Service.query_params := ∅ |}).
  - reflexivity.
  - left. reflexivity.
Defined.

(** X8. [POST /analyze] with a JSON object whose [file_path] is absent or
    falsy (null, false, 0, 0.0, the empty string, an empty list or object) is
    answered with 400 and the message that the field is required; the
    analysis is not called. *)
Theorem post_falsy_file_path_400 env request st n d :
  Service.path request = "/analyze" ->
  Service.content_length request = Returned n ->
  Service.json_loads_body request n = Returned (JDict d) ->
  truthy (default JNone (d !! "file_path")) = false ->
  Service.do_POST env request st
  = Service.send_error_response env 400 "Поле 'file_path' обязательно" st.
Proof.
  intros Hpath Hlen Hbody Hfalsy.
  destruct (send_error_response_wfile env 400 "Поле 'file_path' обязательно" st eq_refl)
    as (st' & Hsend & _).
  rewrite do_POST_unfold. unfold Service.try_except, Service.try_except_JSONDecodeError.
  rewrite Hpath.
  destruct (decide ("/analyze" = "/analyze")) as [_|H]; [|by destruct H].
  unfold mbind at 1 2 3, Service.handler_bind at 1 2 3, Service.lift, py_get.
  rewrite Hlen, Hbody, Hfalsy. cbn [negb]. rewrite Hsend. reflexivity.
Qed.

Lemma post_falsy_file_path_400_witness :
  Service.do_POST Sample.env (Sample.post (JDict {[ "file_path" := JInt 0 ]})) Service.initial
  = Service.send_error_response Sample.env 400 "Поле 'file_path' обязательно" Service.initial.
Proof.
  by apply (post_falsy_file_path_400 Sample.env
              (Sample.post (JDict {[ "file_path" := JInt 0 ]})) Service.initial
              2 {[ "file_path" := JInt 0 ]}).
Defined.

(** X9. A request calls the analysis at most once: a GET exactly when its
    target parses, its path is [/analyze] and the first [file] parameter is
    not empty, with that parameter; a POST exactly when its path is
    [/analyze], its body parses to a JSON object and the [file_path] of that
    object is truthy, with that value. *)
Theorem analysis_calls env st :
  (forall url,
      Service.analyzed (Service.do_GET env url st).2
      = Service.analyzed st ++ get_calls url)
  /\ (forall request,
        Service.analyzed (Service.do_POST env request st).2
        = Service.analyzed st ++ post_calls request).
Proof.
  split.
  - intros url. apply do_GET_analyzed.
  - intros request. apply do_POST_analyzed.
Qed.

(** X10. A well-formed [GET /analyze?file=f] and a well-formed
    [POST /analyze] with [{"file_path": f}] return and get the same
    responses: the value of [analyze_audio(f)] with status 200, whether it is
    a result or an error record; or the head of that response and then the
    internal-error record with status 500, when that value cannot be
    encoded; or the internal-error record with status 500, when an exception
    leaves [analyze_audio]. *)
Theorem get_and_post_same_response env file get post st st' :
  Service.get_analyze get file ->
  Service.post_analyze post file ->
  (exists st1,
      Service.do_GET env (Returned get) st = (Returned (), st1)
      /\ Service.wfile st1 = Service.wfile st ++ analyze_responses env file)
  /\ (exists st1,
        Service.do_POST env post st' = (Returned (), st1)
        /\ Service.wfile st1 = Service.wfile st' ++ analyze_responses env file).
Proof.
  intros Hget Hpost.
  split; [by apply do_GET_analyze_responses|by apply do_POST_analyze_responses].
Qed.

Lemma get_and_post_same_response_witness :
  (exists st1,
      Service.do_GET Sample.env (Returned (Sample.get "/audio/50%.mp3")) Service.initial
      = (Returned (), st1)
      /\ Service.wfile st1
         = Service.wfile Service.initial ++ analyze_responses Sample.env "/audio/50%.mp3")
  /\ (exists st1,
        Service.do_POST Sample.env
          (Sample.post (JDict {[ "file_path" := JStr "/audio/50%.mp3" ]})) Service.initial
        = (Returned (), st1)
        /\ Service.wfile st1
           = Service.wfile Service.initial ++ analyze_responses Sample.env "/audio/50%.mp3").
Proof.
  apply (get_and_post_same_response Sample.env "/audio/50%.mp3").
  - split; [reflexivity|]. split; [discriminate|]. exists []. reflexivity.
  - split; [reflexivity|]. split; [discriminate|].
    exists 2, {[ "file_path" := JStr "/audio/50%.mp3" ]}.
    split; [reflexivity|]. split; reflexivity.
Defined.

(** ** The analysis, case by case *)

Section analysis_cases.

Implicit Types (env : Env) (d res : gmap string json).

(** A result dictionary comes from an existing path, a non-empty buffer
    that the loader returned for it, and what the extractor returned for
    that buffer. *)
Lemma analysis_body_success env p d res :
  analysis_body env p = Returned d ->
  d !! "audio_analysis" = Some (JDict res) ->
  exists audio r,
    os_path_exists env p = Returned true
    /\ es_MonoLoader env p = Returned audio
    /\ audio <> []
    /\ es_RhythmExtractor2013 env audio = Returned r
    /\ res = analysis_result env r.
Proof.
  unfold analysis_body, mbind, outcome_bind.
  destruct (os_path_exists env p) as [[]|]; cbn [negb]; [| |done].
  - destruct (es_MonoLoader env p) as [audio|]; [|done].
    destruct audio as [|x audio]; cbn [length Nat.eqb].
    + intros [= <-] Hd. discriminate Hd.
    + destruct (es_RhythmExtractor2013 env (x :: audio)) as [r|] eqn:Er; [|done].
      intros [= <-] Hd. rewrite lookup_singleton_eq in Hd. injection Hd as <-.
      by exists (x :: audio), r.
  - intros [= <-] Hd. discriminate Hd.
Qed.

Lemma AnalysisResult_origin env res :
  AnalysisResult env res ->
  exists p audio r,
    os_path_exists env p = Returned true
    /\ es_MonoLoader env p = Returned audio
    /\ audio <> []
    /\ es_RhythmExtractor2013 env audio = Returned r
    /\ res = analysis_result env r.
Proof.
  intros [(path & d & Hd & Hres)|(p & st & d & st' & Hd & Hres)].
  - exists (JStr path). unfold Analyzer.analyze_audio, try_except in Hd.
    destruct (analysis_body env (JStr path)) as [d0|e] eqn:E.
    + injection Hd as ->. by eapply analysis_body_success.
    + injection Hd as <-. discriminate Hres.
  - exists p. revert Hd.
    destruct (service_analyze_audio_cases env p st)
      as [[_ ->]|[_ [(d0 & Hb & ->)|(e0 & Hb & [(line & _ & ->)|(e' & _ & Hf & ->)])]]];
      try discriminate; intros [= <- _]; try discriminate Hres.
    by eapply analysis_body_success.
Qed.

Lemma dom_analysis_result env r : dom (analysis_result env r) = result_keys.
Proof.
  unfold analysis_result, result_keys.
  rewrite !dom_insert_L, dom_singleton_L. set_solver.
Qed.

Lemma analysis_body_fault env p e :
  engine_fault env p e -> analysis_body env p = Raised e.
Proof.
  unfold analysis_body, mbind, outcome_bind.
  intros [->|[-> [->|(audio & -> & Hne & Hr)]]]; try done.
  cbn [negb]. destruct audio as [|x audio]; [done|].
  cbn [length Nat.eqb]. by rewrite Hr.
Qed.

Lemma analysis_body_empty env p :
  os_path_exists env p = Returned true ->
  es_MonoLoader env p = Returned [] ->
  analysis_body env p = Returned {[ "error" := JStr "Аудио файл пуст или поврежден" ]}.
Proof.
  intros Hexists Hload. unfold analysis_body, mbind, outcome_bind.
  by rewrite Hexists, Hload.
Qed.

(** With the engine imported, the command prints what the analysis returns
    for a path other than the test flag, if it can be encoded. *)
Lemma script_prints env prog audio_path rest d :
  ESSENTIA_AVAILABLE env = true ->
  audio_path <> "--test" ->
  Analyzer.analyze_audio env audio_path = Returned d ->
  encodable d = true ->
  Analyzer.script env (prog :: audio_path :: rest) = Analyzer.Process [d] 0.
Proof.
  intros Havail Hne Hd He. unfold Analyzer.script.
  unfold ESSENTIA_AVAILABLE in Havail. destruct (modules env); try discriminate.
  apply analyzer_main_prints; [|done]. by destruct (decide (audio_path = "--test")).
Qed.

End analysis_cases.

(** X11. The command and the service agree: whatever the service's
    [analyze_audio] returns for a path, with the engine imported, the
    command's [analyze_audio] returns for it too. *)
Theorem command_and_service_agree env audio_path st d st' :
  ESSENTIA_AVAILABLE env = true ->
  Service.analyze_audio env (JStr audio_path) st = (Returned d, st') ->
  Analyzer.analyze_audio env audio_path = Returned d.
Proof.
  intros Havail.
  unfold Analyzer.analyze_audio, try_except.
  destruct (service_analyze_audio_cases env (JStr audio_path) st)
    as [[Hno _]|[_ [(d0 & Hb & ->)|(e0 & Hb & [(line & _ & ->)|(e' & _ & Hf & ->)])]]];
    [congruence|..]; try discriminate; rewrite Hb; by intros [= <- _].
Qed.

Lemma command_and_service_agree_witness :
  Analyzer.analyze_audio Sample.env "/audio/ok.wav"
  = Returned {[ "audio_analysis" := JDict (analysis_result Sample.env Sample.steady) ]}.
Proof.
  apply (command_and_service_agree Sample.env "/audio/ok.wav" Service.initial _
           (Service.called_with (JStr "/audio/ok.wav") Service.initial).2).
  - reflexivity.
  - vm_compute. reflexivity.
Defined.

(** X12. A service that could not import the engine still answers a
    well-formed [/analyze] request with status 200; the body is the record
    [{"error": "Essentia не установлена"}], whatever the path. *)
Theorem analyze_without_engine env file :
  ESSENTIA_AVAILABLE env = false ->
  analyze_responses env file
  = [Service.json_response 200 {[ "error" := JStr "Essentia не установлена" ]}]
  /\ (forall request st,
        Service.get_analyze request file ->
        Service.wfile (Service.do_GET env (Returned request) st).2
        = Service.wfile st
          ++ [Service.json_response 200 {[ "error" := JStr "Essentia не установлена" ]}])
  /\ (forall request st,
        Service.post_analyze request file ->
        Service.wfile (Service.do_POST env request st).2
        = Service.wfile st
          ++ [Service.json_response 200 {[ "error" := JStr "Essentia не установлена" ]}]).
Proof.
  intros Havail.
  assert (Hresp : analyze_responses env file
                  = [Service.json_response 200
                       {[ "error" := JStr "Essentia не установлена" ]}]).
  { unfold analyze_responses. rewrite service_analyze_audio_unfold, Havail. reflexivity. }
  split; [exact Hresp|]. rewrite <- Hresp. split; intros request st Hreq.
  - destruct (do_GET_analyze_responses env request file st Hreq) as (st' & -> & Hw).
    exact Hw.
  - destruct (do_POST_analyze_responses env request file st Hreq) as (st' & -> & Hw).
    exact Hw.
Qed.

Lemma analyze_without_engine_witness :
  analyze_responses Sample.env_without_engine "/audio/ok.wav"
  = [Service.json_response 200 {[ "error" := JStr "Essentia не установлена" ]}].
Proof.
  exact (proj1 (analyze_without_engine Sample.env_without_engine "/audio/ok.wav" eq_refl)).
Defined.

(** X13. A file that decodes to no sample at all is reported as empty or
    corrupt, by the command and, with status 200, by the service; the
    extractor plays no part in it. *)
Theorem empty_audio_reported env audio_path :
  os_path_exists env (JStr audio_path) = Returned true ->
  es_MonoLoader env (JStr audio_path) = Returned [] ->
  Analyzer.analyze_audio env audio_path
  = Returned {[ "error" := JStr "Аудио файл пуст или поврежден" ]}
  /\ (ESSENTIA_AVAILABLE env = true ->
      analyze_responses env audio_path
      = [Service.json_response 200 {[ "error" := JStr "Аудио файл пуст или поврежден" ]}]).
Proof.
  intros Hexists Hload.
  pose proof (analysis_body_empty env _ Hexists Hload) as Hbody.
  split.
  - unfold Analyzer.analyze_audio. by rewrite Hbody.
  - intros Havail. by apply analyze_responses_returned.
Qed.

Lemma empty_audio_reported_witness :
  Analyzer.analyze_audio Sample.env_silence "/audio/silence.wav"
  = Returned {[ "error" := JStr "Аудио файл пуст или поврежден" ]}.
Proof.
  exact (proj1 (empty_audio_reported Sample.env_silence "/audio/silence.wav"
                  eq_refl eq_refl)).
Defined.

(** X14. A fault of the file system, of the loader or of the extractor does
    not leave the command: [analyze_audio] returns the error record that
    embeds the message of the fault, and the process prints it and exits with
    status 0.  The service answers with the same record and status 200 when
    the line it logs has no [%]. *)
Theorem engine_fault_reported env audio_path e :
  engine_fault env (JStr audio_path) e ->
  Analyzer.analyze_audio env audio_path = Returned (analysis_failed e)
  /\ (forall prog rest,
        ESSENTIA_AVAILABLE env = true ->
        audio_path <> "--test" ->
        Analyzer.script env (prog :: audio_path :: rest)
        = Analyzer.Process [analysis_failed e] 0)
  /\ (ESSENTIA_AVAILABLE env = true ->
      no_percent ("Ошибка анализа аудио: " +:+ exn_str e +:+ newline
                  +:+ text_str (traceback_format_exc env e)) = true ->
      analyze_responses env audio_path
      = [Service.json_response 200 (analysis_failed e)]).
Proof.
  intros Hbody%analysis_body_fault.
  assert (Hcli : Analyzer.analyze_audio env audio_path = Returned (analysis_failed e)).
  { unfold Analyzer.analyze_audio. by rewrite Hbody. }
  split; [exact Hcli|]. split.
  - intros prog rest Havail Hne.
    apply script_prints; [done|done|done|apply analysis_failed_encodable].
  - intros Havail Hlog.
    unfold analyze_responses. rewrite service_analyze_audio_unfold, Havail. cbn [negb].
    unfold Service.try_except, Service.lift. rewrite Hbody.
    unfold mbind, Service.handler_bind.
    rewrite log_error_fault_line by exact Hlog.
    unfold mret, Service.handler_ret. cbn [Service.printed_line fst].
    by rewrite analysis_failed_encodable.
Qed.

Lemma engine_fault_reported_witness :
  Analyzer.script Sample.env ["essentia_analyzer.py"; "/audio/50%.mp3"]
  = Analyzer.Process
      [analysis_failed
         (Exception "RuntimeError"
            "Error while configuring MonoLoader: AudioLoader: Could not open file /audio/50%.mp3")]
      0.
Proof.
  apply (proj1 (proj2 (engine_fault_reported Sample.env "/audio/50%.mp3"
                         (Exception "RuntimeError"
                            "Error while configuring MonoLoader: AudioLoader: Could not open file /audio/50%.mp3")
                         (or_intror (conj eq_refl (or_introl eq_refl)))))).
  - reflexivity.
  - discriminate.
Defined.

(** ** The command as a process *)

(** X15. Every invocation of the command prints at most one JSON document
    and exits with status 0 or 1.  With status 0 it has printed exactly one
    document; with status 1 it has printed an error record or, when NumPy is
    missing or the result could not be written to standard output,
    nothing. *)
Theorem script_prints_one_document env sys_argv :
  exists out code,
    Analyzer.script env sys_argv = Analyzer.Process out code
    /\ ((code = 0 /\ exists d, out = [d])
        \/ (code = 1 /\ (out = [] \/ exists d, out = [d] /\ error_shape d))).
Proof.
  unfold Analyzer.script.
  destruct (modules env).
  - eexists _, 1. split; [reflexivity|]. right. split; [done|by left].
  - eexists _, 1. split; [reflexivity|]. right. split; [done|].
    right. eexists. split; [done|]. by eexists.
  - unfold Analyzer.main.
    destruct (Nat.ltb_spec (length sys_argv) 2) as [Hlt|Hge].
    { eexists _, 1. split; [reflexivity|]. right. split; [done|].
      right. eexists. split; [done|]. by eexists. }
    match goal with
    | |- context [match ?run with Returned _ => _ | Raised _ => _ end] =>
        destruct run as [d|e]
    end.
    + eexists _, 0. split; [reflexivity|]. left. split; [done|by eexists].
    + eexists _, 1. split; [reflexivity|]. right. split; [done|by left].
Qed.

(** X16. With [--test] as first argument the command probes the engine and
    analyses nothing: it prints the status record when the two objects of the
    engine can be constructed and an error record with the message of the
    fault otherwise, and exits with status 0 in both cases. *)
Theorem test_flag_probes_engine env prog rest :
  ESSENTIA_AVAILABLE env = true ->
  Analyzer.script env (prog :: "--test" :: rest)
  = Analyzer.Process
      [ match es_probe env with
        | Returned _ => {[ "status" := JStr "ok"; "message" := JStr "Essentia доступна" ]}
        | Raised e => {[ "error" := JStr ("Essentia недоступна: " +:+ exn_str e) ]}
        end ] 0.
Proof.
  intros Havail. unfold Analyzer.script.
  unfold ESSENTIA_AVAILABLE in Havail. destruct (modules env); try discriminate.
  apply analyzer_main_prints.
  - destruct (decide ("--test" = "--test")) as [_|Hne]; [|by destruct Hne].
    apply test_essentia_returns.
  - eapply test_essentia_encodable, test_essentia_returns.
Qed.

Lemma test_flag_probes_engine_witness :
  Analyzer.script Sample.env ["essentia_analyzer.py"; "--test"]
  = Analyzer.Process
      [ {[ "status" := JStr "ok"; "message" := JStr "Essentia доступна" ]} ] 0.
Proof.
  exact (test_flag_probes_engine Sample.env "essentia_analyzer.py" [] eq_refl).
Defined.

(** X17. A result dictionary has exactly the six keys [tempo_bpm],
    [confidence], [beat_timestamps_sec], [bpm_intervals], [beats_detected] and
    [rhythm_regularity]; it is built from what the extractor returned for a
    non-empty buffer that the loader returned for an existing path; and the
    tempo, the confidence and the beat times are the engine's values, in
    order, the beat times converted with [float]. *)
Theorem result_schema env res :
  AnalysisResult env res ->
  dom res = result_keys
  /\ exists p audio r,
       os_path_exists env p = Returned true
       /\ es_MonoLoader env p = Returned audio
       /\ audio <> []
       /\ es_RhythmExtractor2013 env audio = Returned r
       /\ res !! "tempo_bpm" = Some (JFloat (bpm r))
       /\ res !! "confidence" = Some (JFloat (beats_confidence r))
       /\ res !! "beat_timestamps_sec"
          = Some (JList ((fun beat => JFloat (float beat)) <$> beats r)).
Proof.
  intros (p & audio & r & Hp & Ha & Hne & Hr & ->)%AnalysisResult_origin.
  split; [apply dom_analysis_result|].
  exists p, audio, r. by repeat split.
Qed.

Lemma result_schema_witness :
  dom (analysis_result Sample.env Sample.steady) = result_keys.
Proof.
  exact (proj1 (result_schema Sample.env _ sample_analysis_result)).
Defined.

(** X18. When one of two or more intervals is NaN, the mean is NaN, so is
    [1.0 - std / mean], and the regularity is [1.0]. *)
Theorem nan_interval_regularity p beats_intervals :
  (2 <= length beats_intervals)%nat ->
  S754_nan ∈ beats_intervals ->
  np.mean beats_intervals = S754_nan
  /\ raw_regularity p beats_intervals = S754_nan
  /\ rhythm_regularity p beats_intervals = PyFloat.one.
Proof.
  intros Hlen Hin. split; [by apply mean_elem_nan|].
  split; [by apply raw_regularity_elem_nan|].
  unfold rhythm_regularity.
  destruct (Nat.ltb_spec 1 (length beats_intervals)); [|lia].
  by rewrite raw_regularity_elem_nan.
Qed.

Lemma nan_interval_regularity_witness :
  rhythm_regularity np.legacy [Float32.one; S754_nan; Float32.one] = PyFloat.one.
Proof.
  refine (proj2 (proj2 (nan_interval_regularity np.legacy
                          [Float32.one; S754_nan; Float32.one] _ _))).
  - cbn [length]. lia.
  - apply elem_of_cons. right. apply elem_of_cons. by left.
Defined.

(** ** A file that is analysed *)

(** X19. For an existing file that decodes to at least one sample and for
    which the extractor returns, the command prints the record
    [{"audio_analysis": result}] and exits with status 0, and the service
    answers a well-formed request with status 200 and the same record; the
    [rhythm_regularity] of the result is the regularity of the engine's
    intervals, computed in [float32]. *)
Theorem analysis_delivered env audio_path audio r :
  os_path_exists env (JStr audio_path) = Returned true ->
  es_MonoLoader env (JStr audio_path) = Returned audio ->
  audio <> [] ->
  es_RhythmExtractor2013 env audio = Returned r ->
  ESSENTIA_AVAILABLE env = true ->
  (forall prog rest,
      audio_path <> "--test" ->
      Analyzer.script env (prog :: audio_path :: rest)
      = Analyzer.Process [ {[ "audio_analysis" := JDict (analysis_result env r) ]} ] 0)
  /\ (forall request st,
        Service.get_analyze request audio_path ->
        Service.wfile (Service.do_GET env (Returned request) st).2
        = Service.wfile st
          ++ [Service.json_response 200
                {[ "audio_analysis" := JDict (analysis_result env r) ]}])
  /\ (forall request st,
        Service.post_analyze request audio_path ->
        Service.wfile (Service.do_POST env request st).2
        = Service.wfile st
          ++ [Service.json_response 200
                {[ "audio_analysis" := JDict (analysis_result env r) ]}])
  /\ analysis_result env r !! "rhythm_regularity"
     = Some (JFloat (rhythm_regularity (numpy_promotion env) (beats_intervals r))).
Proof.
  intros Hexists Hload Hne Hr Havail.
  assert (Hbody : analysis_body env (JStr audio_path)
                  = Returned {[ "audio_analysis" := JDict (analysis_result env r) ]}).
  { unfold analysis_body, mbind, outcome_bind. rewrite Hexists, Hload.
    cbn [negb]. destruct audio as [|x audio]; [done|].
    cbn [length Nat.eqb]. by rewrite Hr. }
  pose proof (analyze_responses_returned env audio_path _ Havail Hbody
                (encodable_analysis_result env r)) as Hresp.
  split; [|split; [|split]].
  - intros prog rest Htest.
    apply script_prints; [done|done| |apply encodable_analysis_result].
    unfold Analyzer.analyze_audio. by rewrite Hbody.
  - intros request st Hreq. rewrite <- Hresp.
    destruct (do_GET_analyze_responses env request audio_path st Hreq) as (st' & -> & Hw).
    exact Hw.
  - intros request st Hreq. rewrite <- Hresp.
    destruct (do_POST_analyze_responses env request audio_path st Hreq) as (st' & -> & Hw).
    exact Hw.
  - reflexivity.
Qed.

Lemma analysis_delivered_witness :
  Analyzer.script Sample.env ["essentia_analyzer.py"; "/audio/ok.wav"]
  = Analyzer.Process
      [ {[ "audio_analysis" := JDict (analysis_result Sample.env Sample.steady) ]} ] 0.
Proof.
  apply (proj1 (analysis_delivered Sample.env "/audio/ok.wav"
                  [Float32.zero; Float32.one; Float32.zero] Sample.steady
                  eq_refl eq_refl ltac:(discriminate) eq_refl eq_refl)).
  discriminate.
Defined.

(** X20. When the engine faults and formatting the line to log raises in its
    turn, a well-formed request is answered with status 500 and the message
    of the formatting exception, not with the error record of the fault. *)
Theorem fault_formatting_answers_500 env file e e' :
  ESSENTIA_AVAILABLE env = true ->
  engine_fault env (JStr file) e ->
  percent_format ("Ошибка анализа аудио: " +:+ exn_str e +:+ newline
                  +:+ text_str (traceback_format_exc env e)) = Raised e' ->
  analyze_responses env file
  = [Service.json_response 500
       {[ "error" := JStr ("Внутренняя ошибка сервера: " +:+ exn_str e') ]}]
  /\ (forall request st,
        Service.get_analyze request file ->
        Service.status_code <$>
          drop (length (Service.wfile st))
            (Service.wfile (Service.do_GET env (Returned request) st).2)
        = [500])
  /\ (forall request st,
        Service.post_analyze request file ->
        Service.status_code <$>
          drop (length (Service.wfile st)) (Service.wfile (Service.do_POST env request st).2)
        = [500]).
Proof.
  intros Havail Hbody%analysis_body_fault Hfmt.
  assert (Hresp : analyze_responses env file
                  = [Service.json_response 500
                       {[ "error" := JStr ("Внутренняя ошибка сервера: " +:+ exn_str e') ]}]).
  { unfold analyze_responses. rewrite service_analyze_audio_unfold, Havail. cbn [negb].
    unfold Service.try_except, Service.lift. rewrite Hbody.
    unfold mbind, Service.handler_bind, Service.log_error, Service.log_message.
    unfold mbind, Service.handler_bind, Service.lift, fault_line.
    by rewrite Hfmt. }
  split; [exact Hresp|]. split; intros request st Hreq.
  - destruct (do_GET_analyze_responses env request file st Hreq) as (st' & -> & Hw).
    cbn [snd]. by rewrite Hw, drop_app_length, Hresp.
  - destruct (do_POST_analyze_responses env request file st Hreq) as (st' & -> & Hw).
    cbn [snd]. by rewrite Hw, drop_app_length, Hresp.
Qed.

Lemma fault_formatting_answers_500_witness :
  analyze_responses Sample.env "/audio/50%.mp3"
  = [Service.json_response 500
       {[ "error" := JStr "Внутренняя ошибка сервера: not enough arguments for format string" ]}].
Proof.
  refine (proj1 (fault_formatting_answers_500 Sample.env "/audio/50%.mp3"
                   (Exception "RuntimeError"
                      "Error while configuring MonoLoader: AudioLoader: Could not open file /audio/50%.mp3")
                   not_enough_arguments eq_refl
                   (or_intror (conj eq_refl (or_introl eq_refl))) _)).
  vm_compute. reflexivity.
Defined.
